(** * PLC4X (plc4go): codec, message framing and driver registry

    A shallow embedding of the Go sources
      - [AdsNotificationSample], [COTPParameter], [ApduDataExt],
        [ApduControlContainer] (generated protocol model),
      - [s7.MessageCodec], [s7.Driver],
      - [plc4go.PlcDriverManger],
    together with the properties the specification states about them.

    Conventions.  Go's fixed-width integers are [Z] with the wrap-around
    written out ([uint16 x = x mod 2^16]).  A Go function returning
    [(value, error)] becomes a [result]; a run-time panic (nil dereference,
    index out of range) is the third constructor of [result].  Code that
    mutates a buffer through a pointer is written in state-passing style,
    so that the state after a failure can still be observed. *)

From Stdlib Require Import ZArith Lia.
From stdpp Require Import gmap strings list fin_maps.

Local Open Scope Z_scope.

(* ===================================================================== *)
(** ** Errors and results *)
(* ===================================================================== *)

(** The error taxonomy of the codec engine (spec, section 4.2 and 7). *)
Inductive ErrorKind : Type :=
| TRUNCATED
| PROTOCOL_VIOLATION
| UNKNOWN_DISCRIMINATOR
| OVERFLOW
| ALIGNMENT.

(** Go [error] values as the sources build them: [errors.New] /
    [errors.Errorf] (a message), [errors.Wrap] (a cause and a message), and
    the errors raised by the bit buffers. *)
Inductive error : Type :=
| errors_Kind (k : ErrorKind)
| errors_New (msg : string)
| errors_Wrap (cause : error) (msg : string).

Definition ErrorKind_name (k : ErrorKind) : string :=
  match k with
  | TRUNCATED => "TRUNCATED"
  | PROTOCOL_VIOLATION => "PROTOCOL_VIOLATION"
  | UNKNOWN_DISCRIMINATOR => "UNKNOWN_DISCRIMINATOR"
  | OVERFLOW => "OVERFLOW"
  | ALIGNMENT => "ALIGNMENT"
  end.

(** [err.Error()]: [errors.Wrap(cause, msg)] prints as [msg: cause]. *)
Fixpoint Error (e : error) : string :=
  match e with
  | errors_Kind k => ErrorKind_name k
  | errors_New msg => msg
  | errors_Wrap cause msg => msg +:+ ": " +:+ Error cause
  end.

Inductive result (A : Type) : Type :=
| Ok (a : A)
| Err (e : error)
| Panic (reason : string).
Arguments Ok {A} a.
Arguments Err {A} e.
Arguments Panic {A} reason.

(** Stateful, fallible code: the state is threaded through and survives a
    failure, as a buffer behind a pointer does. *)
Definition M (S A : Type) : Type := S -> result A * S.

Definition ret {S A} (a : A) : M S A := fun s => (Ok a, s).
Definition fail {S A} (e : error) : M S A := fun s => (Err e, s).
Definition panic {S A} (reason : string) : M S A := fun s => (Panic reason, s).

Definition bind {S A B} (m : M S A) (k : A -> M S B) : M S B :=
  fun s =>
    match m s with
    | (Ok a, s') => k a s'
    | (Err e, s') => (Err e, s')
    | (Panic r, s') => (Panic r, s')
    end.

(** [if err != nil { return nil, f(err) }] *)
Definition on_error {S A} (f : error -> error) (m : M S A) : M S A :=
  fun s =>
    match m s with
    | (Err e, s') => (Err (f e), s')
    | other => other
    end.

Declare Scope go_scope.
Delimit Scope go_scope with go.
Notation "x <- m ;; k" := (bind m (fun x => k))
  (at level 100, m at next level, right associativity) : go_scope.
Notation "m ;;; k" := (bind m (fun _ => k))
  (at level 100, right associativity) : go_scope.
Local Open Scope go_scope.

(* ===================================================================== *)
(** ** Fixed-width integers *)
(* ===================================================================== *)

Definition uint8 (x : Z) : Z := x mod 2 ^ 8.
Definition uint16 (x : Z) : Z := x mod 2 ^ 16.
Definition uint32 (x : Z) : Z := x mod 2 ^ 32.

Definition is_uint (w : nat) (x : Z) : Prop := 0 <= x < 2 ^ Z.of_nat w.
Definition is_int8 (x : Z) : Prop := -128 <= x <= 127.

(* ===================================================================== *)
(** ** Bit buffers ([utils.ReadBuffer], [utils.WriteBuffer]) *)
(* ===================================================================== *)

Module utils.

(** The [w] low bits of [v], most significant first. *)
Fixpoint bits_of (w : nat) (v : Z) : list bool :=
  match w with
  | O => []
  | S w' => Z.testbit v (Z.of_nat w') :: bits_of w' v
  end.

(** The unsigned number a bit string spells, most significant first. *)
Definition uint_of (bs : list bool) : Z :=
  fold_left (fun acc (b : bool) => 2 * acc + Z.b2z b) bs 0.

(** The eight bits of an [int8], two's complement. *)
Definition int8_bits (x : Z) : list bool := bits_of 8 (x mod 2 ^ 8).

(** A byte slice as the bit string it holds (bit 7 of byte 0 first). *)
Definition bits_of_bytes (bs : list Z) : list bool :=
  flat_map (bits_of 8) bs.

(** Modelled from the spec: [utils.ReadBuffer] is defined outside the
    files covered here.  Spec, section 3 and 4.1: a read buffer owns an
    immutable byte slice and a bit cursor [0 <= c <= 8*len]; unsigned
    reads of width [w] return the next [w] bits as a non-negative
    big-endian integer; signed reads interpret the top bit as sign;
    reading past the end fails with [TRUNCATED].  The slice is kept as
    its bit string. *)
Record ReadBuffer : Type := mkReadBuffer {
  rb_data : list bool;
  rb_pos : nat
}.

Definition NewReadBuffer (data : list Z) : ReadBuffer :=
  mkReadBuffer (bits_of_bytes data) 0.

Definition GetPos (rb : ReadBuffer) : nat := rb_pos rb.

Definition read_bits (w : nat) : M ReadBuffer (list bool) :=
  fun rb =>
    if decide (rb_pos rb + w <= length (rb_data rb))%nat
    then (Ok (take w (drop (rb_pos rb) (rb_data rb))),
          mkReadBuffer (rb_data rb) (rb_pos rb + w))
    else (Err (errors_Kind TRUNCATED), rb).

Definition ReadUint (w : nat) : M ReadBuffer Z :=
  bs <- read_bits w ;; ret (uint_of bs).

Definition ReadInt (w : nat) : M ReadBuffer Z :=
  bs <- read_bits w ;;
  let u := uint_of bs in
  ret (if decide (2 ^ (Z.of_nat w - 1) <= u) then u - 2 ^ Z.of_nat w else u).

Definition ReadUint8 := ReadUint.
Definition ReadUint32 := ReadUint.
Definition ReadInt8 := ReadInt.

(** Modelled from the spec: [utils.WriteBuffer] is defined outside the
    files covered here.  Spec, section 3 and 4.1: a write buffer owns a
    growable sink and a bit cursor; writes append the value in the given
    width; a value that does not fit the width is [OVERFLOW] and leaves
    the cursor where it was. *)
Record WriteBuffer : Type := mkWriteBuffer {
  wb_bits : list bool
}.

Definition NewWriteBuffer : WriteBuffer := mkWriteBuffer [].


Definition write_bits (bs : list bool) : M WriteBuffer unit :=
  fun wb => (Ok tt, mkWriteBuffer (wb_bits wb ++ bs)).

Definition WriteUint (w : nat) (v : Z) : M WriteBuffer unit :=
  if decide (0 <= v < 2 ^ Z.of_nat w)
  then write_bits (bits_of w v)
  else fail (errors_Kind OVERFLOW).

Definition WriteInt (w : nat) (v : Z) : M WriteBuffer unit :=
  if decide (- 2 ^ (Z.of_nat w - 1) <= v < 2 ^ (Z.of_nat w - 1))
  then write_bits (bits_of w (v mod 2 ^ Z.of_nat w))
  else fail (errors_Kind OVERFLOW).

Definition WriteUint8 := WriteUint.
Definition WriteUint32 := WriteUint.
Definition WriteInt8 := WriteInt.

End utils.

(** Serializing into a fresh write buffer, and parsing a bit string from
    its start: the two halves of a round trip. *)
Definition serialized (ser : M utils.WriteBuffer unit) : result (list bool) :=
  match ser utils.NewWriteBuffer with
  | (Ok _, wb) => Ok (utils.wb_bits wb)
  | (Err e, _) => Err e
  | (Panic r, _) => Panic r
  end.

Definition parsed {A} (parse : M utils.ReadBuffer A) (bits : list bool) : result A :=
  fst (parse (utils.mkReadBuffer bits 0)).

(* ===================================================================== *)
(** ** AdsNotificationSample *)
(* ===================================================================== *)

Module AdsNotificationSample.
Import utils.

(** [NotificationHandle uint32; SampleSize uint32; Data []int8] *)
Record AdsNotificationSample : Type := NewAdsNotificationSample {
  NotificationHandle : Z;
  SampleSize : Z;
  Data : list Z
}.

(** The values the Go struct can hold. *)
Definition valid (m : AdsNotificationSample) : Prop :=
  is_uint 32 (NotificationHandle m) /\ is_uint 32 (SampleSize m) /\
  Forall is_int8 (Data m).

(** Well-formed in the sense of the count array: [SampleSize = len(Data)]. *)
Definition well_formed (m : AdsNotificationSample) : Prop :=
  valid m /\ SampleSize m = Z.of_nat (length (Data m)).

Definition LengthInBits (m : AdsNotificationSample) : Z :=
  let lengthInBits := uint16 0 in
  (* Simple field (notificationHandle) *)
  let lengthInBits := uint16 (lengthInBits + 32) in
  (* Simple field (sampleSize) *)
  let lengthInBits := uint16 (lengthInBits + 32) in
  (* Array field *)
  let lengthInBits :=
    if decide (Z.of_nat (length (Data m)) > 0)
    then uint16 (lengthInBits + uint16 (8 * uint16 (Z.of_nat (length (Data m)))))
    else lengthInBits in
  lengthInBits.

Definition LengthInBytes (m : AdsNotificationSample) : Z :=
  LengthInBits m / 8.

(** The body of [for curItem := uint16(0); curItem < uint16(sampleSize);
    curItem++]: [remaining] is the number of iterations still to run.
    [data[curItem] = _item] is always in range, since
    [curItem < uint16(sampleSize) <= sampleSize = len(data)]. *)
Fixpoint parse_data (remaining : nat) (curItem : nat) (data : list Z)
  : M ReadBuffer (list Z) :=
  match remaining with
  | O => ret data
  | S remaining' =>
      _item <- on_error
                 (fun _err => errors_New ("Error parsing 'data' field " +:+ Error _err))
                 (ReadInt8 8) ;;
      parse_data remaining' (S curItem) (<[curItem := _item]> data)
  end.

Definition AdsNotificationSampleParse : M ReadBuffer AdsNotificationSample :=
  (* Simple Field (notificationHandle) *)
  notificationHandle <-
    on_error (fun e => errors_New ("Error parsing 'notificationHandle' field " +:+ Error e))
             (ReadUint32 32) ;;
  (* Simple Field (sampleSize) *)
  sampleSize <-
    on_error (fun e => errors_New ("Error parsing 'sampleSize' field " +:+ Error e))
             (ReadUint32 32) ;;
  (* Array field (data): Count array *)
  let data := replicate (Z.to_nat sampleSize) 0 in
  data <- parse_data (Z.to_nat (uint16 sampleSize)) 0 data ;;
  (* Create the instance *)
  ret (NewAdsNotificationSample notificationHandle sampleSize data).

(** [for _, _element := range m.Data] *)
Fixpoint serialize_data (data : list Z) : M WriteBuffer unit :=
  match data with
  | [] => ret tt
  | _element :: rest =>
      on_error (fun e => errors_New ("Error serializing 'data' field " +:+ Error e))
               (WriteInt8 8 _element) ;;;
      serialize_data rest
  end.

Definition Serialize (m : AdsNotificationSample) : M WriteBuffer unit :=
  (* Simple Field (notificationHandle) *)
  let notificationHandle := uint32 (NotificationHandle m) in
  on_error (fun e => errors_New ("Error serializing 'notificationHandle' field " +:+ Error e))
           (WriteUint32 32 notificationHandle) ;;;
  (* Simple Field (sampleSize) *)
  let sampleSize := uint32 (SampleSize m) in
  on_error (fun e => errors_New ("Error serializing 'sampleSize' field " +:+ Error e))
           (WriteUint32 32 sampleSize) ;;;
  (* Array Field (data); a nil slice and an empty one both write nothing *)
  serialize_data (Data m).

(** The wire image of a sample. *)
Definition wire (m : AdsNotificationSample) : list bool :=
  bits_of 32 (NotificationHandle m) ++ bits_of 32 (SampleSize m) ++
  flat_map int8_bits (Data m).

End AdsNotificationSample.

(* ===================================================================== *)
(** ** COTPParameter (discriminated parent) *)
(* ===================================================================== *)

Module COTPParameter.
Import utils.

(** [ICOTPParameterChild]: what the parent uses of a sub-type.  The five
    sub-types are generated files outside this development, so a child is
    any type [C] with this interface;
    [serializeChildFunction] is the closure a child hands to
    [SerializeParent] to write its own fields. *)
Class ICOTPParameterChild (C : Type) : Type := {
  ParameterType : C -> Z;
  Child_LengthInBits : C -> Z;
  serializeChildFunction : C -> M WriteBuffer unit
}.

Section Parent.
Context {C : Type} `{ICOTPParameterChild C}.

(** [type COTPParameter struct { Child ICOTPParameterChild }]; the
    interface value may be nil. *)
Record COTPParameter : Type := mkCOTPParameter {
  Child : option C
}.

Definition NewCOTPParameter : COTPParameter := mkCOTPParameter None.

Definition LengthInBits (m : COTPParameter) : result Z :=
  let lengthInBits := uint16 0 in
  (* Discriminator Field (parameterType) *)
  let lengthInBits := uint16 (lengthInBits + 8) in
  (* Implicit Field (parameterLength) *)
  let lengthInBits := uint16 (lengthInBits + 8) in
  (* Length of sub-type elements will be added by sub-type... *)
  match Child m with
  | None => Panic "nil pointer dereference"
  | Some child => Ok (uint16 (lengthInBits + uint16 (Child_LengthInBits child)))
  end.

Definition LengthInBytes (m : COTPParameter) : result Z :=
  match LengthInBits m with
  | Ok l => Ok (l / 8)
  | Err e => Err e
  | Panic r => Panic r
  end.

(** The sub-type parsers the switch dispatches to.  Each returns the
    parent with itself attached; here it returns the child and the
    parent is built around it. *)
Variable COTPParameterTpduSizeParse : M ReadBuffer C.
Variable COTPParameterCallingTsapParse : M ReadBuffer C.
Variable COTPParameterCalledTsapParse : M ReadBuffer C.
Variable COTPParameterChecksumParse : M ReadBuffer C.
Variable COTPParameterDisconnectAdditionalInformationParse : Z -> M ReadBuffer C.

Definition typeSwitch (parameterType rest : Z) : option (M ReadBuffer C) :=
  match parameterType with
  | 0xC0 => Some COTPParameterTpduSizeParse
  | 0xC1 => Some COTPParameterCallingTsapParse
  | 0xC2 => Some COTPParameterCalledTsapParse
  | 0xC3 => Some COTPParameterChecksumParse
  | 0xE0 => Some (COTPParameterDisconnectAdditionalInformationParse rest)
  | _ => None
  end.

Definition COTPParameterParse (rest : Z) : M ReadBuffer COTPParameter :=
  (* Discriminator Field (parameterType) *)
  parameterType <-
    on_error (fun e => errors_Wrap e "Error parsing 'parameterType' field")
             (ReadUint8 8) ;;
  (* Implicit Field (parameterLength): read, not stored *)
  _parameterLength <-
    on_error (fun e => errors_Wrap e "Error parsing 'parameterLength' field")
             (ReadUint8 8) ;;
  (* Switch Field *)
  match typeSwitch parameterType rest with
  | Some subTypeParse =>
      child <- on_error (fun e => errors_Wrap e "Error parsing sub-type for type-switch.")
                        subTypeParse ;;
      (* Finish initializing: the parent has no fields to lift *)
      ret (mkCOTPParameter (Some child))
  | None =>
      (* no case taken: [_parent] is nil and [_parent.Child] is dereferenced *)
      panic "nil pointer dereference"
  end.

Definition SerializeParent (m : COTPParameter) (child : C)
    (serializeChild : M WriteBuffer unit) : M WriteBuffer unit :=
  (* Discriminator Field (parameterType) *)
  let parameterType := uint8 (ParameterType child) in
  on_error (fun e => errors_Wrap e "Error serializing 'parameterType' field")
           (WriteUint8 8 parameterType) ;;;
  (* Implicit Field (parameterLength) *)
  match LengthInBytes m with
  | Ok lengthInBytes =>
      let parameterLength := uint8 (uint8 (uint8 lengthInBytes) - uint8 2) in
      on_error (fun e => errors_Wrap e "Error serializing 'parameterLength' field")
               (WriteUint8 8 parameterLength) ;;;
      (* Switch field *)
      on_error (fun e => errors_Wrap e "Error serializing sub-type field")
               serializeChild
  | Err e => fail e
  | Panic r => panic r
  end.

(** Modelled from the spec: the [Serialize] methods of the five
    sub-types are defined outside the files covered here.  Spec, section 4.2:
    the parent writes the discriminator from the child's accessor and
    then delegates to the child's serializer; every generated child
    does so by calling [m.Parent.SerializeParent(io, m, ser)]. *)
Definition Child_Serialize (parent : COTPParameter) (child : C) : M WriteBuffer unit :=
  SerializeParent parent child (serializeChildFunction child).

(** [func (m *COTPParameter) Serialize(io) error { return m.Child.Serialize(io) }] *)
Definition Serialize (m : COTPParameter) : M WriteBuffer unit :=
  match Child m with
  | None => panic "nil pointer dereference"
  | Some child => Child_Serialize m child
  end.

End Parent.
Arguments COTPParameter C : clear implicits.

End COTPParameter.

(* ===================================================================== *)
(** ** ApduDataExt (discriminated parent) *)
(* ===================================================================== *)

Module ApduDataExt.
Import utils.

(** The sub-types named in the type switch of [ApduDataExtParse]. *)
Inductive SubType : Type :=
| ApduDataExtOpenRoutingTableRequest
| ApduDataExtReadRoutingTableRequest
| ApduDataExtReadRoutingTableResponse
| ApduDataExtWriteRoutingTableRequest
| ApduDataExtReadRouterMemoryRequest
| ApduDataExtReadRouterMemoryResponse
| ApduDataExtWriteRouterMemoryRequest
| ApduDataExtReadRouterStatusRequest
| ApduDataExtReadRouterStatusResponse
| ApduDataExtWriteRouterStatusRequest
| ApduDataExtMemoryBitWrite
| ApduDataExtAuthorizeRequest
| ApduDataExtAuthorizeResponse
| ApduDataExtKeyWrite
| ApduDataExtKeyResponse
| ApduDataExtPropertyValueRead
| ApduDataExtPropertyValueResponse
| ApduDataExtPropertyValueWrite
| ApduDataExtPropertyDescriptionRead
| ApduDataExtPropertyDescriptionResponse
| ApduDataExtNetworkParameterRead
| ApduDataExtNetworkParameterResponse
| ApduDataExtIndividualAddressSerialNumberRead
| ApduDataExtIndividualAddressSerialNumberResponse
| ApduDataExtIndividualAddressSerialNumberWrite
| ApduDataExtDomainAddressWrite
| ApduDataExtDomainAddressRead
| ApduDataExtDomainAddressResponse
| ApduDataExtDomainAddressSelectiveRead
| ApduDataExtNetworkParameterWrite
| ApduDataExtLinkRead
| ApduDataExtLinkResponse
| ApduDataExtLinkWrite
| ApduDataExtGroupPropertyValueRead
| ApduDataExtGroupPropertyValueResponse
| ApduDataExtGroupPropertyValueWrite
| ApduDataExtGroupPropertyValueInfoReport
| ApduDataExtDomainAddressSerialNumberRead
| ApduDataExtDomainAddressSerialNumberResponse
| ApduDataExtDomainAddressSerialNumberWrite
| ApduDataExtFileStreamInfoReport.

(** The [switch] of [ApduDataExtParse], case by case. *)
Definition typeSwitch (extApciType : Z) : option SubType :=
  match extApciType with
  | 0x00 => Some ApduDataExtOpenRoutingTableRequest
  | 0x01 => Some ApduDataExtReadRoutingTableRequest
  | 0x02 => Some ApduDataExtReadRoutingTableResponse
  | 0x03 => Some ApduDataExtWriteRoutingTableRequest
  | 0x08 => Some ApduDataExtReadRouterMemoryRequest
  | 0x09 => Some ApduDataExtReadRouterMemoryResponse
  | 0x0A => Some ApduDataExtWriteRouterMemoryRequest
  | 0x0D => Some ApduDataExtReadRouterStatusRequest
  | 0x0E => Some ApduDataExtReadRouterStatusResponse
  | 0x0F => Some ApduDataExtWriteRouterStatusRequest
  | 0x10 => Some ApduDataExtMemoryBitWrite
  | 0x11 => Some ApduDataExtAuthorizeRequest
  | 0x12 => Some ApduDataExtAuthorizeResponse
  | 0x13 => Some ApduDataExtKeyWrite
  | 0x14 => Some ApduDataExtKeyResponse
  | 0x15 => Some ApduDataExtPropertyValueRead
  | 0x16 => Some ApduDataExtPropertyValueResponse
  | 0x17 => Some ApduDataExtPropertyValueWrite
  | 0x18 => Some ApduDataExtPropertyDescriptionRead
  | 0x19 => Some ApduDataExtPropertyDescriptionResponse
  | 0x1A => Some ApduDataExtNetworkParameterRead
  | 0x1B => Some ApduDataExtNetworkParameterResponse
  | 0x1C => Some ApduDataExtIndividualAddressSerialNumberRead
  | 0x1D => Some ApduDataExtIndividualAddressSerialNumberResponse
  | 0x1E => Some ApduDataExtIndividualAddressSerialNumberWrite
  | 0x20 => Some ApduDataExtDomainAddressWrite
  | 0x21 => Some ApduDataExtDomainAddressRead
  | 0x22 => Some ApduDataExtDomainAddressResponse
  | 0x23 => Some ApduDataExtDomainAddressSelectiveRead
  | 0x24 => Some ApduDataExtNetworkParameterWrite
  | 0x25 => Some ApduDataExtLinkRead
  | 0x26 => Some ApduDataExtLinkResponse
  | 0x27 => Some ApduDataExtLinkWrite
  | 0x28 => Some ApduDataExtGroupPropertyValueRead
  | 0x29 => Some ApduDataExtGroupPropertyValueResponse
  | 0x2A => Some ApduDataExtGroupPropertyValueWrite
  | 0x2B => Some ApduDataExtGroupPropertyValueInfoReport
  | 0x2C => Some ApduDataExtDomainAddressSerialNumberRead
  | 0x2D => Some ApduDataExtDomainAddressSerialNumberResponse
  | 0x2E => Some ApduDataExtDomainAddressSerialNumberWrite
  | 0x30 => Some ApduDataExtFileStreamInfoReport
  | _ => None
  end.

(** The discriminator values of the generated table, as a list. *)
Definition table : list Z :=
  [0x00; 0x01; 0x02; 0x03; 0x08; 0x09; 0x0A; 0x0D; 0x0E; 0x0F;
   0x10; 0x11; 0x12; 0x13; 0x14; 0x15; 0x16; 0x17; 0x18; 0x19;
   0x1A; 0x1B; 0x1C; 0x1D; 0x1E;
   0x20; 0x21; 0x22; 0x23; 0x24; 0x25; 0x26; 0x27; 0x28; 0x29;
   0x2A; 0x2B; 0x2C; 0x2D; 0x2E; 0x30].

Section Parent.
(** The children ([IApduDataExtChild] values); their files are generated
    code outside this development. *)
Variable C : Type.

Record ApduDataExt : Type := mkApduDataExt {
  Child : option C
}.

(** [<SubType>Parse(io)], and [<SubType>Parse(io, length)] for the two
    property-value sub-types that take the length. *)
Variable subTypeParse : SubType -> M ReadBuffer C.
Variable subTypeParseLength : SubType -> Z -> M ReadBuffer C.

Definition callSubTypeParse (t : SubType) (length : Z) : M ReadBuffer C :=
  match t with
  | ApduDataExtPropertyValueResponse
  | ApduDataExtPropertyValueWrite => subTypeParseLength t length
  | _ => subTypeParse t
  end.

Definition ApduDataExtParse (length : Z) : M ReadBuffer ApduDataExt :=
  (* Discriminator Field (extApciType) *)
  extApciType <-
    on_error (fun e => errors_Wrap e "Error parsing 'extApciType' field")
             (ReadUint8 6) ;;
  (* Switch Field *)
  match typeSwitch extApciType with
  | Some t =>
      child <- on_error (fun e => errors_Wrap e "Error parsing sub-type for type-switch.")
                        (callSubTypeParse t length) ;;
      (* Finish initializing *)
      ret (mkApduDataExt (Some child))
  | None =>
      (* no case taken: [_parent] is nil and [_parent.Child] is dereferenced *)
      panic "nil pointer dereference"
  end.

End Parent.

End ApduDataExt.

(* ===================================================================== *)
(** ** ApduControlContainer (child of Apdu) *)
(* ===================================================================== *)

Module ApduControlContainer.
Import utils.

Section Container.
(** [ApduControl] and the parent [Apdu] are generated files outside this
    development. *)
Variable ApduControl : Type.
Variable ApduControl_LengthInBits : ApduControl -> Z.
Variable ApduControl_Serialize : ApduControl -> M WriteBuffer unit.
Variable ApduControlParse : M ReadBuffer ApduControl.

(** A container with the two fields of its parent [Apdu] that the sources
    show ([m.Parent.Numbered], [m.Parent.Counter]). *)
Record ApduControlContainer : Type := mkApduControlContainer {
  ControlApdu : ApduControl;
  Numbered : bool;
  Counter : Z
}.

(** Accessor for the discriminator value. *)
Definition Control (m : ApduControlContainer) : Z := 1.

Definition InitializeParent (m : ApduControlContainer) (numbered : bool) (counter : Z)
  : ApduControlContainer :=
  mkApduControlContainer (ControlApdu m) numbered counter.

Definition NewApduControlContainer (controlApdu : ApduControl) (numbered : bool)
    (counter : Z) : ApduControlContainer :=
  mkApduControlContainer controlApdu numbered counter.

Definition LengthInBits (m : ApduControlContainer) : Z :=
  let lengthInBits := uint16 0 in
  (* Simple field (controlApdu) *)
  let lengthInBits := uint16 (lengthInBits + ApduControl_LengthInBits (ControlApdu m)) in
  lengthInBits.

Definition LengthInBytes (m : ApduControlContainer) : Z :=
  LengthInBits m / 8.

(** The closure [ser] of [Serialize]: the container's own fields. *)
Definition ser (m : ApduControlContainer) : M WriteBuffer unit :=
  (* Simple Field (controlApdu) *)
  on_error (fun e => errors_Wrap e "Error serializing 'controlApdu' field")
           (ApduControl_Serialize (ControlApdu m)).

(** [Apdu.SerializeParent(io, child, serializeChildFunction)] *)
Variable Apdu_SerializeParent :
  ApduControlContainer -> M WriteBuffer unit -> M WriteBuffer unit.

Definition Serialize (m : ApduControlContainer) : M WriteBuffer unit :=
  Apdu_SerializeParent m (ser m).

Definition ApduControlContainerParse : M ReadBuffer ApduControlContainer :=
  (* Simple Field (controlApdu) *)
  controlApdu <-
    on_error (fun e => errors_Wrap e "Error parsing 'controlApdu' field")
             ApduControlParse ;;
  (* Create a partially initialized instance: Parent is [&Apdu{}] *)
  ret (mkApduControlContainer controlApdu false 0).

End Container.

End ApduControlContainer.

(* ===================================================================== *)
(** ** Transport instances *)
(* ===================================================================== *)

Module transports.

(** [transports.TransportInstance]: the three operations the message
    codec uses, over the state [T] of the carrier. *)
Record TransportInstance (T : Type) : Type := mkTransportInstance {
  GetNumReadableBytes : M T Z;
  PeekReadableBytes : Z -> M T (list Z);
  Read : Z -> M T (list Z)
}.
Arguments GetNumReadableBytes {T} _.
Arguments PeekReadableBytes {T} _ _.
Arguments Read {T} _ _.

(** Modelled from the spec: a carrier that holds the bytes buffered
    locally (the concrete transports are outside this development).  Spec,
    section 4.3: [get_num_readable_bytes] returns what is buffered;
    [peek_readable_bytes(n)] is non-advancing and fails if fewer than [n]
    bytes are present; [read(n)] returns [n] bytes and advances. *)
Definition Buffered : TransportInstance (list Z) := {|
  GetNumReadableBytes := fun buf => (Ok (Z.of_nat (length buf)), buf);
  PeekReadableBytes := fun n buf =>
    if decide (n <= Z.of_nat (length buf))
    then (Ok (take (Z.to_nat n) buf), buf)
    else (Err (errors_Kind TRUNCATED), buf);
  Read := fun n buf =>
    if decide (n <= Z.of_nat (length buf))
    then (Ok (take (Z.to_nat n) buf), drop (Z.to_nat n) buf)
    else (Err (errors_Kind TRUNCATED), buf)
|}.

End transports.

(* ===================================================================== *)
(** ** s7.MessageCodec *)
(* ===================================================================== *)

Module MessageCodec.
Import utils transports.

Section Codec.
Variable T : Type.
Variable TransportInstance : transports.TransportInstance T.

(** [model.COTPPacket] and [model.COTPPacketParse(io, cotpLen)] are
    generated code outside this development. *)
Variable COTPPacket : Type.
Variable COTPPacketParse : Z -> M ReadBuffer COTPPacket.

(** [(uint32(data[4]) << 8) + uint32(data[5]) + 6] *)
Definition packetSize_of (d4 d5 : Z) : Z :=
  uint32 (uint32 (uint32 (Z.shiftl (uint32 d4) 8) + uint32 d5) + 6).

(** [Receive() (interface{}, error)].  The returned pair is read as:
    [Ok (Some msg)] for [(msg, nil)], [Ok None] for [(nil, nil)] and
    [Err e] for [(nil, e)]. *)
Definition Receive : M T (option COTPPacket) :=
  fun t =>
    (* We need at least 6 bytes in order to know how big the packet is in total *)
    match GetNumReadableBytes TransportInstance t with
    | (Panic r, t) => (Panic r, t)
    | (Err err, t) =>
        (* else if err != nil *)
        (Ok None, t)
    | (Ok num, t) =>
        if decide (num >= 6) then
          match PeekReadableBytes TransportInstance 6 t with
          | (Panic r, t) => (Panic r, t)
          | (Err err, t) => (Ok None, t)
          | (Ok data, t) =>
              (* Get the size of the entire packet *)
              match data !! 4%nat, data !! 5%nat with
              | Some d4, Some d5 =>
                  let packetSize := packetSize_of d4 d5 in
                  if decide (num < packetSize) then (Ok None, t)
                  else
                    match Read TransportInstance packetSize t with
                    | (Panic r, t) => (Panic r, t)
                    | (Err err, t) => (Ok None, t)
                    | (Ok data, t) =>
                        let rb := NewReadBuffer data in
                        match fst (COTPPacketParse (uint16 packetSize) rb) with
                        | Panic r => (Panic r, t)
                        | Err err => (Ok None, t)
                        | Ok tcpAdu => (Ok (Some tcpAdu), t)
                        end
                    end
              | _, _ => (Panic "index out of range", t)
              end
          end
        else
          (Ok None, t)
    end.

(** The packet size [Receive] computes from a buffer of six bytes or
    more. *)
Definition packetSize (data : list Z) : Z :=
  packetSize_of (data !!! 4%nat) (data !!! 5%nat).

End Codec.

(** The framing the specification describes (RFC 1006): the total length
    of the packet, header included, in bytes 2 and 3 of the TPKT header,
    big-endian.  This follows the specification, not the code. *)
Definition spec_minimum_peek : Z := 4.
Definition spec_packetSize (data : list Z) : Z :=
  Z.shiftl (data !!! 2%nat) 8 + data !!! 3%nat.

End MessageCodec.

(* ===================================================================== *)
(** ** Calls to collaborators *)
(* ===================================================================== *)

(** A computation that calls into collaborators of which only the
    signature is known: [Call e k] asks for the answer to [e] and goes on
    with [k]; the calls made, in order, are what running it shows. *)
Inductive Prog (E : Type -> Type) (R : Type) : Type :=
| Return (r : R)
| Call {X : Type} (e : E X) (k : X -> Prog E R).
Arguments Return {E R} r.
Arguments Call {E R X} e k.

(** An environment answers every call. *)
Definition Env (E : Type -> Type) : Type := forall X, E X -> X.

(** The calls made under an environment, oldest first, and the result. *)
Fixpoint run {E R} (env : Env E) (p : Prog E R) : list (sigT E) * R :=
  match p with
  | Return r => ([], r)
  | Call e k =>
      let '(calls, r) := run env (k (env _ e)) in
      (existT _ e :: calls, r)
  end.

Definition calls_of {E R} (env : Env E) (p : Prog E R) : list (sigT E) := fst (run env p).
Definition result_of {E R} (env : Env E) (p : Prog E R) : R := snd (run env p).

(* ===================================================================== *)
(** ** URLs, options, channels *)
(* ===================================================================== *)

(** The fields of Go's [url.URL] the sources read or set. *)
Record URL : Type := mkURL {
  Scheme : string;
  Opaque : string;
  Host : string;
  RawQuery : string
}.

(** [map[string][]string] *)
Abbreviation Options := (gmap string (list string)).

Section Plc4go.
(** Collaborators declared elsewhere in plc4go. *)
Variable Transport : Type.
Variable PlcConnection : Type.

(** [NewPlcConnectionConnectResult(connection, err)] *)
Record PlcConnectionConnectResult : Type := NewPlcConnectionConnectResult {
  GetConnection_ : option PlcConnection;
  GetErr : option error
}.

(** A receive-only channel, as the sequence of values that are sent on
    it.  [ch := make(chan T); go func() { ch <- v }(); return ch] is the
    channel [[v]]. *)
Definition Channel : Type := list PlcConnectionConnectResult.

Definition single_shot (r : PlcConnectionConnectResult) : Channel := [r].

(** A channel that delivers exactly one result, an error. *)
Definition single_error (ch : Channel) : Prop :=
  exists e, ch = single_shot (NewPlcConnectionConnectResult None (Some e)).

(** [PlcDriver]: the accessors of a driver; [GetConnection] is a call. *)
Record PlcDriver : Type := mkPlcDriver {
  GetProtocolCode : string;
  GetProtocolName : string;
  GetDefaultTransport : string;
  SupportsDiscovery : bool
}.

(* =================================================================== *)
(** *** s7.Driver *)
(* =================================================================== *)

Section S7Driver.
Variable TransportInstance : Type.
Variable MessageCodec : Type.
Variable Configuration : Type.
Variable DriverContext : Type.
Variable Connection : Type.

(** [fmt]'s [%#v] of a URL, [transportUrl.String()], and the
    transport's code. *)
Variable URL_GoString : URL -> string.
Variable URL_String : URL -> string.

(** The calls [Driver.GetConnection] makes into other files. *)
Inductive S7Call : Type -> Type :=
| CreateTransportInstance (transport : Transport) (transportUrl : URL) (options : Options)
    : S7Call (TransportInstance + error)
| NewMessageCodec (transportInstance : TransportInstance)
    : S7Call MessageCodec
| ParseFromOptions (options : Options)
    : S7Call (Configuration + error)
| NewDriverContext (configuration : Configuration)
    : S7Call (DriverContext * option error)
| NewConnection (codec : MessageCodec) (configuration : Configuration)
                (driverContext : DriverContext)
    : S7Call Connection
| Connect (connection : Connection)
    : S7Call Channel.

Definition s7_Driver : PlcDriver := {|
  GetProtocolCode := "s7";
  GetProtocolName := "Siemens S7 (Basic)";
  GetDefaultTransport := "tcp";
  SupportsDiscovery := false
|}.

(** [Driver.GetConnection(transportUrl, transports, options)].  The
    options map is the caller's: the second component of the result is
    that map as the call leaves it. *)
Definition s7_GetConnection (transportUrl : URL) (transports : gmap string Transport)
    (options : Options) : Prog S7Call (Channel * Options) :=
  (* Get an the transport specified in the url *)
  match transports !! Scheme transportUrl with
  | None =>
      Return (single_shot (NewPlcConnectionConnectResult None
                (Some (errors_New ("couldn't find transport for given transport url "
                                   +:+ URL_GoString transportUrl)))),
              options)
  | Some transport =>
      (* Provide a default-port to the transport (the map is never nil
         here: the manager passes the result of [Query]) *)
      let options := <["defaultTcpPort" := ["102"]]> options in
      (* Have the transport create a new transport-instance. *)
      Call (CreateTransportInstance transport transportUrl options) (fun r =>
      match r with
      | inr err =>
          Return (single_shot (NewPlcConnectionConnectResult None
                    (Some (errors_New ("couldn't initialize transport configuration for given transport url "
                                       +:+ URL_String transportUrl)))),
                  options)
      | inl transportInstance =>
          Call (NewMessageCodec transportInstance) (fun codec =>
          Call (ParseFromOptions options) (fun r =>
          match r with
          | inr err =>
              Return (single_shot (NewPlcConnectionConnectResult None
                        (Some (errors_Wrap err "Invalid options"))),
                      options)
          | inl configuration =>
              Call (NewDriverContext configuration) (fun '(driverContext, err) =>
              (* Create the new connection *)
              Call (NewConnection codec configuration driverContext) (fun connection =>
              Call (Connect connection) (fun ch =>
              Return (ch, options))))
          end))
      end)
  end.

(** The steps of [GetConnection], by name. *)
Inductive Step : Type :=
| StepCreateTransportInstance
| StepNewMessageCodec
| StepParseFromOptions
| StepNewDriverContext
| StepNewConnection
| StepConnect.

Definition step_of (c : sigT S7Call) : Step :=
  match projT2 c with
  | CreateTransportInstance _ _ _ => StepCreateTransportInstance
  | NewMessageCodec _ => StepNewMessageCodec
  | ParseFromOptions _ => StepParseFromOptions
  | NewDriverContext _ => StepNewDriverContext
  | NewConnection _ _ _ => StepNewConnection
  | Connect _ => StepConnect
  end.

Definition steps (env : Env S7Call) (p : Prog S7Call (Channel * Options)) : list Step :=
  step_of <$> calls_of env p.

(** The order of the steps after the transport lookup and the
    injection of the defaults, as the specification lists them.  This
    follows the specification, not the code. *)
Definition spec_steps : list Step :=
  [StepCreateTransportInstance; StepParseFromOptions; StepNewMessageCodec;
   StepNewDriverContext; StepNewConnection; StepConnect].

End S7Driver.

(* =================================================================== *)
(** *** plc4go.PlcDriverManger *)
(* =================================================================== *)

Section DriverManager.
Variable GetTransportCode : Transport -> string.

(** Go's [url.Parse] and [URL.Query]. *)
Variable url_Parse : string -> URL + error.
Variable url_Query : URL -> Options.

Record PlcDriverManger : Type := mkPlcDriverManger {
  drivers : gmap string PlcDriver;
  transports : gmap string Transport
}.

Definition NewPlcDriverManager : PlcDriverManger :=
  mkPlcDriverManger ∅ ∅.

(** [for name := range m { if name == code { ... return } }] *)
Definition range_has_key {V} (m : gmap string V) (code : string) : bool :=
  existsb (fun name => bool_decide (name = code)) (fst <$> map_to_list m).

(** [RegisterDriver(driver)]; the interface value may be nil. *)
Definition RegisterDriver (driver : option PlcDriver) (m : PlcDriverManger)
  : result PlcDriverManger :=
  match driver with
  | None => Panic "driver must not be nil"
  | Some driver =>
      (* If this driver is already registered, just skip resetting it *)
      if range_has_key (drivers m) (GetProtocolCode driver) then Ok m
      else Ok (mkPlcDriverManger
                 (<[GetProtocolCode driver := driver]> (drivers m))
                 (transports m))
  end.

Definition ListDriverNames (m : PlcDriverManger) : list string :=
  fst <$> map_to_list (drivers m).

Definition GetDriver (m : PlcDriverManger) (driverName : string) : result PlcDriver :=
  match drivers m !! driverName with
  | Some val => Ok val
  | None => Err (errors_New ("couldn't find driver " +:+ driverName))
  end.

Definition RegisterTransport (transport : option Transport) (m : PlcDriverManger)
  : result PlcDriverManger :=
  match transport with
  | None => Panic "transport must not be nil"
  | Some transport =>
      (* If this transport is already registered, just skip resetting it *)
      if range_has_key (transports m) (GetTransportCode transport) then Ok m
      else Ok (mkPlcDriverManger
                 (drivers m)
                 (<[GetTransportCode transport := transport]> (transports m)))
  end.

Definition ListTransportNames (m : PlcDriverManger) : list string :=
  fst <$> map_to_list (transports m).

Definition GetTransport (m : PlcDriverManger) (transportName : string) : result Transport :=
  match transports m !! transportName with
  | Some val => Ok val
  | None => Err (errors_New ("couldn't find transport " +:+ transportName))
  end.

(** The one call [GetConnection] makes into a driver. *)
Inductive ManagerCall : Type -> Type :=
| Driver_GetConnection (driver : PlcDriver) (transportUrl : URL)
                       (transports : gmap string Transport) (options : Options)
    : ManagerCall Channel.

(** [GetConnection(connectionString)].  The function has no error
    result: it returns a channel ([Ok]) or panics. *)
Definition GetConnection (m : PlcDriverManger) (connectionString : string)
  : Prog ManagerCall (result Channel) :=
  (* Parse the connection string. *)
  match url_Parse connectionString with
  | inr err =>
      Return (Ok (single_shot (NewPlcConnectionConnectResult None
                    (Some (errors_Wrap err "error parsing connection string")))))
  | inl connectionUrl =>
      (* The options will be used to configure both the transports as
         well as the connections/drivers *)
      let configOptions := url_Query connectionUrl in
      (* Find the driver specified in the url. *)
      let driverName := Scheme connectionUrl in
      match GetDriver m driverName with
      | Err err =>
          Return (Ok (single_shot (NewPlcConnectionConnectResult None
                        (Some (errors_Wrap err "error getting driver for connection string")))))
      | Panic r => Return (Panic r)
      | Ok driver =>
          let finish (transportName transportConnectionString : string)
              : Prog ManagerCall (result Channel) :=
            (* If no transport has been specified explicitly or per
               default, we have to abort. *)
            if decide (transportName = "") then
              Return (Ok (single_shot (NewPlcConnectionConnectResult None
                            (Some (errors_New "no transport specified and no default defined by driver")))))
            else
              (* Assemble a correct transport url *)
              let transportUrl := mkURL transportName "" transportConnectionString "" in
              (* Create a new connection *)
              Call (Driver_GetConnection driver transportUrl (transports m) configOptions)
                   (fun ch => Return (Ok ch))
          in
          if decide (0 < String.length (Opaque connectionUrl))%nat then
            match url_Parse (Opaque connectionUrl) with
            | inr err =>
                (* [url.Parse] has returned a nil URL, and the log line of
                   this branch reads [connectionUrl.Opaque] of the inner,
                   shadowing [connectionUrl] *)
                Return (Panic "nil pointer dereference")
            | inl connectionUrl =>
                finish (Scheme connectionUrl) (Host connectionUrl)
            end
          else
            (* If no transport was provided the driver has to provide a
               default transport. *)
            finish (GetDefaultTransport driver) (Host connectionUrl)
      end
  end.

(** The operations of the manager that write to its maps. *)
Inductive Registration : Type :=
| DoRegisterDriver (driver : PlcDriver)
| DoRegisterTransport (transport : Transport).

Definition register (op : Registration) (m : PlcDriverManger) : PlcDriverManger :=
  match (match op with
         | DoRegisterDriver d => RegisterDriver (Some d) m
         | DoRegisterTransport t => RegisterTransport (Some t) m
         end) with
  | Ok m' => m'
  | _ => m
  end.

Definition register_all (ops : list Registration) (m : PlcDriverManger)
  : PlcDriverManger :=
  fold_left (fun m op => register op m) ops m.

End DriverManager.
End Plc4go.

(* ===================================================================== *)
(** ** Instances used in the examples *)
(* ===================================================================== *)

Module Examples.
Import utils.

(** A sample whose count no longer fits the 16-bit loop counter. *)
Definition sample_65536 : AdsNotificationSample.AdsNotificationSample :=
  AdsNotificationSample.NewAdsNotificationSample 0 65536 (replicate (Z.to_nat 65536) 1).

(** What [Parse] makes of its wire image. *)
Definition sample_65536_parsed : AdsNotificationSample.AdsNotificationSample :=
  AdsNotificationSample.NewAdsNotificationSample 0 65536 (replicate (Z.to_nat 65536) 0).


Definition sample_3 : AdsNotificationSample.AdsNotificationSample :=
  AdsNotificationSample.NewAdsNotificationSample 7 3 [1; -2; 3].

(** A child of [COTPParameter] with a one-byte body under parameter type
    [0xC3], and the parsers of a switch in which only that case reads. *)
Definition Checksum : Type := Z.

#[global] Instance Checksum_child : COTPParameter.ICOTPParameterChild Checksum := {|
  COTPParameter.ParameterType := fun _ => 0xC3;
  COTPParameter.Child_LengthInBits := fun _ => 8;
  COTPParameter.serializeChildFunction := fun crc => WriteUint8 8 crc
|}.

Definition ChecksumParse : M ReadBuffer Checksum := ReadUint8 8.
Definition NoParse : M ReadBuffer Checksum := fail (errors_Kind PROTOCOL_VIOLATION).

Definition COTPParameterParse (rest : Z)
  : M ReadBuffer (COTPParameter.COTPParameter Checksum) :=
  COTPParameter.COTPParameterParse NoParse NoParse NoParse ChecksumParse (fun _ => NoParse) rest.

(** Sub-type parsers of [ApduDataExt] that read a one-byte body. *)
Definition subTypeParse (t : ApduDataExt.SubType) : M ReadBuffer Z := ReadUint8 8.
Definition subTypeParseLength (t : ApduDataExt.SubType) (length : Z) : M ReadBuffer Z :=
  ReadUint8 8.

(** The 22-byte TPKT packet of an S7 connection request: TPKT header
    [03 00 00 16], then the COTP connection request. *)
Definition tpkt_connection_request : list Z :=
  [0x03; 0x00; 0x00; 0x16;
   0x11; 0xE0; 0x00; 0x00; 0x00; 0x01; 0x00;
   0xC0; 0x01; 0x0A; 0xC1; 0x02; 0x01; 0x00; 0xC2; 0x02; 0x01; 0x02].

(** A packet parser that returns the bits it is given. *)
Definition COTPPacketParse (cotpLen : Z) : M ReadBuffer (list bool) :=
  fun rb => (Ok (rb_data rb), rb).

(** Eight bytes that [Receive] frames as one packet. *)
Definition framed_8 : list Z := [0x03; 0x00; 0x00; 0x08; 0x00; 0x02; 0xAA; 0xBB].

(** A carrier on which every operation fails. *)
Definition Closed : transports.TransportInstance unit := {|
  transports.GetNumReadableBytes := fail (errors_New "closed");
  transports.PeekReadableBytes := fun _ => fail (errors_New "closed");
  transports.Read := fun _ => fail (errors_New "closed")
|}.

(** Go's [url.Parse] on the connection strings of the examples, and
    [Query] on the URLs it returns for them.  The last case of [url_Parse]
    is what Go returns for text without a scheme, an authority, a query or
    an escape: a URL that has only a path; the examples use the cases
    before it. *)
Definition url_Parse (s : string) : URL + error :=
  if decide (s = "s7://10.0.0.1") then inl (mkURL "s7" "" "10.0.0.1" "")
  else if decide (s = "s7:tcp://10.0.0.1:102?rack=0&slot=1")
    then inl (mkURL "s7" "tcp://10.0.0.1:102" "" "rack=0&slot=1")
  else if decide (s = "tcp://10.0.0.1:102") then inl (mkURL "tcp" "" "10.0.0.1:102" "")
  else if decide (s = "xyz://host") then inl (mkURL "xyz" "" "host" "")
  else inl (mkURL "" "" "" "").

Definition url_Query (u : URL) : Options :=
  if decide (RawQuery u = "rack=0&slot=1")
  then <["rack" := ["0"]]> (<["slot" := ["1"]]> ∅)
  else ∅.

(** A manager in which the S7 driver and a TCP transport (a [unit]) are
    registered. *)
Definition TcpTransportCode (t : unit) : string := "tcp".

Definition manager : PlcDriverManger unit :=
  mkPlcDriverManger unit (<["s7" := s7_Driver]> ∅) (<["tcp" := tt]> ∅).

Definition modbus_Driver : PlcDriver := mkPlcDriver "modbus" "Modbus" "tcp" false.

(** Collaborators of the S7 driver that all succeed, and the same with
    an option parser that fails, and with a driver context that fails. *)
Definition connected : Channel unit :=
  [NewPlcConnectionConnectResult unit (Some tt) None].

Definition env_ok : Env (S7Call unit unit unit unit unit unit unit) :=
  fun X c =>
    match c in S7Call _ _ _ _ _ _ _ X return X with
    | CreateTransportInstance _ _ _ _ _ _ _ _ _ _ => inl tt
    | NewMessageCodec _ _ _ _ _ _ _ _ => tt
    | ParseFromOptions _ _ _ _ _ _ _ _ => inl tt
    | NewDriverContext _ _ _ _ _ _ _ _ => (tt, None)
    | NewConnection _ _ _ _ _ _ _ _ _ _ => tt
    | Connect _ _ _ _ _ _ _ _ => connected
    end.

Definition env_invalid_options : Env (S7Call unit unit unit unit unit unit unit) :=
  fun X c =>
    match c in S7Call _ _ _ _ _ _ _ X return X with
    | ParseFromOptions _ _ _ _ _ _ _ _ => inr (errors_New "invalid rack")
    | c' => env_ok _ c'
    end.

Definition env_no_driver_context : Env (S7Call unit unit unit unit unit unit unit) :=
  fun X c =>
    match c in S7Call _ _ _ _ _ _ _ X return X with
    | NewDriverContext _ _ _ _ _ _ _ _ => (tt, Some (errors_New "no driver context"))
    | c' => env_ok _ c'
    end.

Definition tcp_url : URL := mkURL "tcp" "" "10.0.0.1" "".

Definition s7_GetConnection :=
  s7_GetConnection unit unit unit unit unit unit unit
    (fun u => Scheme u) (fun u => Scheme u +:+ "://" +:+ Host u)
    tcp_url (<["tcp" := tt]> ∅) ∅.

(** An [ApduControl] that is written as two bits. *)
Definition ApduControl2 : Type := Z.
Definition ApduControl2_Serialize (c : ApduControl2) : M WriteBuffer unit := WriteUint8 2 c.

End Examples.

(** [s] occurs in [t]. *)
Definition mentions (t s : string) : Prop :=
  exists pre post, t = pre +:+ s +:+ post.

(* ===================================================================== *)
(** ** ApduDataExt: length and serialization *)
(* ===================================================================== *)

Module ApduDataExtSerialize.
Import utils.

(** [IApduDataExtChild]: what the parent uses of a sub-type;
    [serializeChildFunction] is the closure a child hands to
    [SerializeParent] to write its own fields. *)
Class IApduDataExtChild (C : Type) : Type := {
  ExtApciType : C -> Z;
  Child_LengthInBits : C -> Z;
  serializeChildFunction : C -> M WriteBuffer unit
}.

Section Parent.
Context {C : Type} `{IApduDataExtChild C}.

Definition LengthInBits (m : ApduDataExt.ApduDataExt C) : result Z :=
  let lengthInBits := uint16 0 in
  (* Discriminator Field (extApciType) *)
  let lengthInBits := uint16 (lengthInBits + 6) in
  (* Length of sub-type elements will be added by sub-type... *)
  match ApduDataExt.Child C m with
  | None => Panic "nil pointer dereference"
  | Some child => Ok (uint16 (lengthInBits + uint16 (Child_LengthInBits child)))
  end.

Definition LengthInBytes (m : ApduDataExt.ApduDataExt C) : result Z :=
  match LengthInBits m with
  | Ok l => Ok (l / 8)
  | Err e => Err e
  | Panic r => Panic r
  end.

Definition SerializeParent (m : ApduDataExt.ApduDataExt C) (child : C)
    (serializeChild : M WriteBuffer unit) : M WriteBuffer unit :=
  (* Discriminator Field (extApciType) *)
  let extApciType := uint8 (ExtApciType child) in
  on_error (fun e => errors_Wrap e "Error serializing 'extApciType' field")
           (WriteUint8 6 extApciType) ;;;
  (* Switch field *)
  on_error (fun e => errors_Wrap e "Error serializing sub-type field")
           serializeChild.

(** Modelled from the spec: the [Serialize] methods of the sub-types are
    defined outside the files covered here.  Spec, section 4.2: the parent
    writes the discriminator from the child's accessor and then delegates
    to the child's serializer; every generated child does so by calling
    [m.Parent.SerializeParent(io, m, ser)]. *)
Definition Child_Serialize (parent : ApduDataExt.ApduDataExt C) (child : C)
  : M WriteBuffer unit :=
  SerializeParent parent child (serializeChildFunction child).

(** [func (m *ApduDataExt) Serialize(io) error { return m.Child.Serialize(io) }] *)
Definition Serialize (m : ApduDataExt.ApduDataExt C) : M WriteBuffer unit :=
  match ApduDataExt.Child C m with
  | None => panic "nil pointer dereference"
  | Some child => Child_Serialize m child
  end.

End Parent.

End ApduDataExtSerialize.

(* ===================================================================== *)
(** ** Composing computations that call collaborators *)
(* ===================================================================== *)

Fixpoint Prog_bind {E R S} (p : Prog E R) (k : R -> Prog E S) : Prog E S :=
  match p with
  | Return r => k r
  | Call e c => Call e (fun x => Prog_bind (c x) k)
  end.

(** Replacing every call by the computation that implements it. *)
Fixpoint interp {E F R} (h : forall X, E X -> Prog F X) (p : Prog E R) : Prog F R :=
  match p with
  | Return r => Return r
  | Call e c => Prog_bind (h _ e) (fun x => interp h (c x))
  end.

(* ===================================================================== *)
(** ** The driver manager: discovery, and the S7 driver behind it *)
(* ===================================================================== *)

Section Discovery.
Variable Transport : Type.
(** [func(event model.PlcDiscoveryEvent)] *)
Variable Callback : Type.

(** The call [Discover] makes into a driver; [Ok tt] is a nil error. *)
Inductive DiscoverCall : Type -> Type :=
| Driver_Discover (driver : PlcDriver) (callback : Callback) : DiscoverCall (result unit).

(** The loop of [Discover] over the drivers in the order [ds]. *)
Fixpoint Discover_over (ds : list PlcDriver) (callback : Callback)
  : Prog DiscoverCall (result unit) :=
  match ds with
  | [] => Return (Ok tt)
  | driver :: rest =>
      if SupportsDiscovery driver then
        Call (Driver_Discover driver callback) (fun err =>
        match err with
        | Err err =>
            Return (Err (errors_Wrap err ("Error running Discover on driver "
                                          +:+ GetProtocolName driver)))
        | Panic r => Return (Panic r)
        | Ok _ => Discover_over rest callback
        end)
      else Discover_over rest callback
  end.

(** [Discover(callback)].  Go ranges over a map in an order of its own
    choosing; [Discover] is the loop in the order of [map_to_list], and
    the properties of the loop are stated for every order. *)
Definition Discover (m : PlcDriverManger Transport) (callback : Callback)
  : Prog DiscoverCall (result unit) :=
  Discover_over (snd <$> map_to_list (drivers Transport m)) callback.

(** [func (m *Driver) Discover(callback) error { panic("implement me") }] *)
Definition s7_Discover (callback : Callback) : result unit := Panic "implement me".

Definition discover_driver (c : sigT DiscoverCall) : PlcDriver :=
  match projT2 c with
  | Driver_Discover driver _ => driver
  end.

End Discovery.

Section Linking.
Variables Transport PlcConnection TransportInstance MessageCodec
          Configuration DriverContext Connection : Type.
Variables URL_GoString URL_String : URL -> string.

(** What a call of the manager asks for. *)
Definition called_driver (c : sigT (ManagerCall Transport PlcConnection)) : PlcDriver :=
  match projT2 c with
  | Driver_GetConnection _ _ driver _ _ _ => driver
  end.

Definition called_transportUrl (c : sigT (ManagerCall Transport PlcConnection)) : URL :=
  match projT2 c with
  | Driver_GetConnection _ _ _ transportUrl _ _ => transportUrl
  end.

Definition called_transports (c : sigT (ManagerCall Transport PlcConnection))
  : gmap string Transport :=
  match projT2 c with
  | Driver_GetConnection _ _ _ _ transports _ => transports
  end.

Definition called_options (c : sigT (ManagerCall Transport PlcConnection)) : Options :=
  match projT2 c with
  | Driver_GetConnection _ _ _ _ _ options => options
  end.

(** The manager's call into a driver, answered by the S7 driver. *)
Definition by_s7_Driver (X : Type) (e : ManagerCall Transport PlcConnection X)
  : Prog (S7Call Transport PlcConnection TransportInstance MessageCodec
                 Configuration DriverContext Connection) X :=
  match e in ManagerCall _ _ X
        return Prog (S7Call Transport PlcConnection TransportInstance MessageCodec
                            Configuration DriverContext Connection) X with
  | Driver_GetConnection _ _ driver transportUrl transports options =>
      Prog_bind
        (s7_GetConnection Transport PlcConnection TransportInstance MessageCodec
           Configuration DriverContext Connection URL_GoString URL_String
           transportUrl transports options)
        (fun r => Return (fst r))
  end.

End Linking.

(* ===================================================================== *)
(** ** Further instances used in the examples *)
(* ===================================================================== *)

Module MoreExamples.
Import utils.

(** A child of [ApduDataExt] with a one-byte body under the discriminator
    [0x11]. *)
#[global] Instance Authorize_child : ApduDataExtSerialize.IApduDataExtChild Z := {|
  ApduDataExtSerialize.ExtApciType := fun _ => 0x11;
  ApduDataExtSerialize.Child_LengthInBits := fun _ => 8;
  ApduDataExtSerialize.serializeChildFunction := fun level => WriteUint8 8 level
|}.

Definition sample_2 : AdsNotificationSample.AdsNotificationSample :=
  AdsNotificationSample.NewAdsNotificationSample 9 2 [-1; 5].


(** A packet parser that rejects every packet. *)
Definition RejectingParse (cotpLen : Z) : M ReadBuffer (list bool) :=
  fail (errors_Kind PROTOCOL_VIOLATION).

(** A carrier whose peek delivers fewer bytes than it was asked for. *)
Definition ShortPeek : transports.TransportInstance unit := {|
  transports.GetNumReadableBytes := ret 6;
  transports.PeekReadableBytes := fun _ => ret [0x03; 0x00; 0x00; 0x16; 0x11];
  transports.Read := fun _ => ret []
|}.

(** Drivers with and without discovery. *)
Definition knx_Driver : PlcDriver := mkPlcDriver "knxnet-ip" "KNXNet/IP" "udp" true.

Definition discover_ok : Env (DiscoverCall unit) :=
  fun X c =>
    match c in DiscoverCall _ X return X with
    | Driver_Discover _ _ _ => Ok tt
    end.

Definition udp_manager : PlcDriverManger unit :=
  mkPlcDriverManger unit (<["s7" := s7_Driver]> ∅) (<["udp" := tt]> ∅).

(** A manager whose transports are named by their code. *)
Definition named_manager : PlcDriverManger string :=
  mkPlcDriverManger string (<["s7" := s7_Driver]> ∅) (<["tcp" := "tcp"]> ∅).

Definition TransportName (t : string) : string := t.

(** Go's [url.Parse] on a connection string with a rootless opaque part
    that has a bad escape.  The outer string parses: after the scheme the
    rest does not start with a slash and is kept as the opaque part,
    unescaped.  The opaque part alone does not parse: it has no scheme
    and is read as a path, whose escape [%zz] is not hexadecimal (Go's
    message puts the two strings in quotes).  Text without a scheme, an
    authority, a query or an escape is a URL that has only a path, which
    is the last case; the examples use the first two. *)
Definition url_Parse (s : string) : URL + error :=
  if decide (s = "s7:%zz") then inl (mkURL "s7" "%zz" "" "")
  else if decide (s = "%zz") then inr (errors_New "parse %zz: invalid URL escape %zz")
  else inl (mkURL "" "" "" "").

(** A driver whose [GetConnection] connects. *)
Definition env_driver : Env (ManagerCall unit unit) :=
  fun X c =>
    match c in ManagerCall _ _ X return X with
    | Driver_GetConnection _ _ _ _ _ _ => Examples.connected
    end.

(** A discovery in which the KNX driver fails. *)
Definition discover_knx_fails : Env (DiscoverCall unit) :=
  fun X c =>
    match c in DiscoverCall _ X return X with
    | Driver_Discover _ driver _ =>
        if decide (GetProtocolCode driver = "knxnet-ip")
        then Err (errors_New "no route to host")
        else Ok tt
    end.

End MoreExamples.

(* ===================================================================== *)
(** * Properties *)
(* ===================================================================== *)

(** ** Sequencing *)

Section MonadFacts.
Context {S A B : Type}.

Lemma bind_ok (m : M S A) (k : A -> M S B) (s s' : S) (a : A) :
  m s = (Ok a, s') -> bind m k s = k a s'.
Proof. intros H. unfold bind. now rewrite H. Qed.

Lemma bind_err (m : M S A) (k : A -> M S B) (s s' : S) (e : error) :
  m s = (Err e, s') -> bind m k s = (Err e, s').
Proof. intros H. unfold bind. now rewrite H. Qed.

Lemma bind_panic (m : M S A) (k : A -> M S B) (s s' : S) (r : string) :
  m s = (Panic r, s') -> bind m k s = (Panic r, s').
Proof. intros H. unfold bind. now rewrite H. Qed.

Lemma on_error_ok (f : error -> error) (m : M S A) (s s' : S) (a : A) :
  m s = (Ok a, s') -> on_error f m s = (Ok a, s').
Proof. intros H. unfold on_error. now rewrite H. Qed.

Lemma on_error_err (f : error -> error) (m : M S A) (s s' : S) (e : error) :
  m s = (Err e, s') -> on_error f m s = (Err (f e), s').
Proof. intros H. unfold on_error. now rewrite H. Qed.

Lemma on_error_panic (f : error -> error) (m : M S A) (s s' : S) (r : string) :
  m s = (Panic r, s') -> on_error f m s = (Panic r, s').
Proof. intros H. unfold on_error. now rewrite H. Qed.

End MonadFacts.

(** ** Bit strings *)

Section BitFacts.
Import utils.

Lemma length_bits_of (w : nat) (v : Z) : length (bits_of w v) = w.
Proof. induction w as [|w IH]; simpl; [reflexivity | now rewrite IH]. Qed.

Lemma fold_uint_acc (bs : list bool) (acc : Z) :
  fold_left (fun a (b : bool) => 2 * a + Z.b2z b) bs acc
  = acc * 2 ^ Z.of_nat (length bs) + uint_of bs.
Proof.
  unfold uint_of. revert acc.
  induction bs as [|b bs IH]; intros acc.
  - simpl. lia.
  - cbn [fold_left length]. rewrite IH, (IH (2 * 0 + Z.b2z b)).
    rewrite Nat2Z.inj_succ, Z.pow_succ_r by lia. ring.
Qed.

Lemma uint_of_cons (b : bool) (bs : list bool) :
  uint_of (b :: bs) = Z.b2z b * 2 ^ Z.of_nat (length bs) + uint_of bs.
Proof.
  unfold uint_of at 1. cbn [fold_left]. rewrite fold_uint_acc. f_equal.
Qed.

Lemma uint_of_bits_of_mod (w : nat) (v : Z) :
  uint_of (bits_of w v) = v mod 2 ^ Z.of_nat w.
Proof.
  induction w as [|w IH].
  - simpl. now rewrite Z.mod_1_r.
  - cbn [bits_of]. rewrite uint_of_cons, length_bits_of, IH.
    rewrite Z.testbit_spec' by lia.
    rewrite Nat2Z.inj_succ, Z.pow_succ_r by lia.
    rewrite (Z.mul_comm 2), Z.rem_mul_r by lia. lia.
Qed.

Lemma uint_of_bits_of (w : nat) (v : Z) :
  is_uint w v -> uint_of (bits_of w v) = v.
Proof.
  intros Hv. rewrite uint_of_bits_of_mod. now apply Z.mod_small.
Qed.

(** Reading [w] bits where the cursor stands on [bs]. *)
Lemma read_bits_at (pre bs post : list bool) :
  read_bits (length bs) (mkReadBuffer (pre ++ bs ++ post) (length pre))
  = (Ok bs, mkReadBuffer (pre ++ bs ++ post) (length pre + length bs)).
Proof.
  unfold read_bits. cbn [rb_pos rb_data].
  rewrite decide_True by (rewrite !length_app; lia).
  rewrite drop_app_length, take_app_length. reflexivity.
Qed.

Lemma ReadUint_at (w : nat) (v : Z) (pre post : list bool) :
  is_uint w v ->
  ReadUint w (mkReadBuffer (pre ++ bits_of w v ++ post) (length pre))
  = (Ok v, mkReadBuffer (pre ++ bits_of w v ++ post) (length pre + w)).
Proof.
  intros Hv. unfold ReadUint, bind.
  pose proof (read_bits_at pre (bits_of w v) post) as Hr.
  rewrite length_bits_of in Hr. rewrite Hr.
  unfold ret. now rewrite uint_of_bits_of.
Qed.

Lemma ReadInt8_at (x : Z) (pre post : list bool) :
  is_int8 x ->
  ReadInt8 8 (mkReadBuffer (pre ++ bits_of 8 (x mod 2 ^ 8) ++ post) (length pre))
  = (Ok x, mkReadBuffer (pre ++ bits_of 8 (x mod 2 ^ 8) ++ post) (length pre + 8)).
Proof.
  intros Hx. unfold ReadInt8, ReadInt, bind.
  pose proof (read_bits_at pre (bits_of 8 (x mod 2 ^ 8)) post) as Hr.
  rewrite length_bits_of in Hr. rewrite Hr. unfold ret.
  rewrite uint_of_bits_of_mod.
  change (Z.of_nat 8) with 8. rewrite Z.mod_mod by lia.
  unfold is_int8 in Hx. f_equal. f_equal.
  destruct (decide (0 <= x)) as [Hp|Hn].
  - rewrite Z.mod_small by lia. rewrite decide_False by lia. reflexivity.
  - replace (x mod 2 ^ 8) with (x + 2 ^ 8).
    + rewrite decide_True by lia. lia.
    + apply Z.mod_unique with (q := -1); lia.
Qed.

Lemma WriteUint_ok (w : nat) (v : Z) (wb : WriteBuffer) :
  is_uint w v ->
  WriteUint w v wb = (Ok tt, mkWriteBuffer (wb_bits wb ++ bits_of w v)).
Proof.
  intros Hv. unfold WriteUint. now rewrite decide_True by exact Hv.
Qed.

Lemma WriteInt8_ok (x : Z) (wb : WriteBuffer) :
  is_int8 x ->
  WriteInt8 8 x wb = (Ok tt, mkWriteBuffer (wb_bits wb ++ bits_of 8 (x mod 2 ^ 8))).
Proof.
  intros Hx. unfold WriteInt8, WriteInt. unfold is_int8 in Hx.
  rewrite decide_True by (change (Z.of_nat 8 - 1) with 7; lia).
  reflexivity.
Qed.

Lemma uint32_id (x : Z) : is_uint 32 x -> uint32 x = x.
Proof. intros H. apply Z.mod_small. exact H. Qed.

Lemma uint16_id (x : Z) : is_uint 16 x -> uint16 x = x.
Proof. intros H. apply Z.mod_small. exact H. Qed.

Lemma uint8_id (x : Z) : is_uint 8 x -> uint8 x = x.
Proof. intros H. apply Z.mod_small. exact H. Qed.

End BitFacts.

(** ** AdsNotificationSample: what [Serialize] writes and [Parse] reads *)

Section AdsFacts.
Import utils AdsNotificationSample.

Lemma length_flat_int8 (xs : list Z) :
  length (flat_map int8_bits xs) = (8 * length xs)%nat.
Proof.
  induction xs as [|x xs IH]; [reflexivity|].
  cbn [flat_map]. rewrite length_app, IH. unfold int8_bits.
  rewrite length_bits_of. cbn [length]. lia.
Qed.

Lemma length_wire (m : AdsNotificationSample) :
  Z.of_nat (length (wire m)) = 32 + 32 + 8 * Z.of_nat (length (Data m)).
Proof.
  unfold wire. rewrite !length_app, !length_bits_of.
  rewrite length_flat_int8. lia.
Qed.

Lemma serialize_data_ok (data : list Z) (wb : WriteBuffer) :
  Forall is_int8 data ->
  serialize_data data wb
  = (Ok tt, mkWriteBuffer (wb_bits wb ++ flat_map int8_bits data)).
Proof.
  intros Hd. revert wb.
  induction Hd as [|x xs Hx _ IH]; intros wb.
  - cbn. rewrite app_nil_r. now destruct wb.
  - cbn [serialize_data flat_map]. unfold bind, on_error.
    rewrite WriteInt8_ok by exact Hx. rewrite IH. cbn [wb_bits].
    now rewrite <- app_assoc.
Qed.

(** [Serialize] never fails on a value of the Go struct type and appends
    the wire image to the buffer. *)
Lemma Serialize_ok (m : AdsNotificationSample) (wb : WriteBuffer) :
  valid m ->
  Serialize m wb = (Ok tt, mkWriteBuffer (wb_bits wb ++ wire m)).
Proof.
  intros (Hh & Hs & Hd). unfold Serialize, bind, on_error.
  rewrite !uint32_id by assumption.
  unfold WriteUint32. rewrite WriteUint_ok by exact Hh.
  rewrite WriteUint_ok by exact Hs.
  rewrite serialize_data_ok by exact Hd. cbn [wb_bits].
  unfold wire. now rewrite <- !app_assoc.
Qed.

(** The count loop: it stores the [length xs] items it reads at the
    indices [curItem ..] of [data] and leaves the other slots alone. *)
Lemma parse_data_at (xs : list Z) :
  Forall is_int8 xs ->
  forall (curItem : nat) (data : list Z) (pre post : list bool),
    (curItem + length xs <= length data)%nat ->
    parse_data (length xs) curItem data
      (mkReadBuffer (pre ++ flat_map int8_bits xs ++ post) (length pre))
    = (Ok (take curItem data ++ xs ++ drop (curItem + length xs) data),
       mkReadBuffer (pre ++ flat_map int8_bits xs ++ post)
                    (length pre + 8 * length xs)).
Proof.
  induction 1 as [|x xs Hx _ IH]; intros curItem data pre post Hlen.
  - cbn [parse_data length flat_map]. unfold ret. f_equal.
    + f_equal. rewrite Nat.add_0_r. cbn [app]. now rewrite take_drop.
    + f_equal. lia.
  - cbn [parse_data length flat_map] in *. unfold bind at 1, on_error.
    rewrite <- (app_assoc (int8_bits x)). unfold int8_bits at 1.
    rewrite ReadInt8_at by exact Hx.
    fold (int8_bits x).
    replace (length pre + 8)%nat with (length (pre ++ int8_bits x))
      by (rewrite length_app; unfold int8_bits; now rewrite length_bits_of).
    rewrite (app_assoc pre (int8_bits x)).
    rewrite IH by (rewrite length_insert; lia).
    f_equal.
    + f_equal.
      rewrite (take_S_r _ _ x) by (apply list_lookup_insert_eq; lia).
      rewrite take_insert_ge by lia.
      rewrite drop_insert_lt by lia.
      rewrite <- app_assoc. cbn [app].
      now replace (S curItem + length xs)%nat with (curItem + S (length xs))%nat by lia.
    + f_equal. rewrite length_app. unfold int8_bits. rewrite length_bits_of. lia.
Qed.

(** What [Parse] returns on the wire image of a well-formed sample: the
    loop runs [uint16(sampleSize)] times, and the remaining slots of the
    array made with [sampleSize] entries keep their zero value. *)
Lemma Parse_wire (m : AdsNotificationSample) :
  well_formed m ->
  let n := Z.to_nat (uint16 (SampleSize m)) in
  AdsNotificationSampleParse (mkReadBuffer (wire m) 0)
  = (Ok (NewAdsNotificationSample (NotificationHandle m) (SampleSize m)
           (take n (Data m) ++ replicate (length (Data m) - n) 0)),
     mkReadBuffer (wire m) (64 + 8 * n)).
Proof.
  intros ((Hh & Hs & Hd) & Hsz) n.
  assert (Hn : (n <= length (Data m))%nat).
  { subst n. unfold uint16. rewrite Hsz.
    pose proof (Z.mod_le (Z.of_nat (length (Data m))) (2 ^ 16)). 
    pose proof (Z.mod_pos_bound (Z.of_nat (length (Data m))) (2 ^ 16)). lia. }
  unfold AdsNotificationSampleParse, ReadUint32.
  pose proof (ReadUint_at 32 (NotificationHandle m) []
                (bits_of 32 (SampleSize m) ++ flat_map int8_bits (Data m)) Hh) as Hr1.
  pose proof (ReadUint_at 32 (SampleSize m) (bits_of 32 (NotificationHandle m))
                (flat_map int8_bits (Data m)) Hs) as Hr2.
  rewrite length_bits_of in Hr2. cbn [app length Nat.add] in Hr1, Hr2.
  pose proof (parse_data_at (take n (Data m)) (Forall_take _ n _ Hd) 0
                (replicate (Z.to_nat (SampleSize m)) 0)
                (bits_of 32 (NotificationHandle m) ++ bits_of 32 (SampleSize m))
                (flat_map int8_bits (drop n (Data m)))) as Hp.
  rewrite length_take, Nat.min_l in Hp by exact Hn.
  rewrite length_app, !length_bits_of in Hp.
  rewrite <- !app_assoc, <- flat_map_app, take_drop in Hp.
  change (32 + 32)%nat with 64%nat in Hp. change (0 + n)%nat with n in Hp.
  rewrite take_0 in Hp. cbn [app] in Hp.
  specialize (Hp ltac:(rewrite length_replicate, Hsz, Nat2Z.id; lia)).
  unfold wire.
  erewrite bind_ok by (eapply on_error_ok; exact Hr1).
  erewrite bind_ok by (eapply on_error_ok; exact Hr2).
  fold n. erewrite bind_ok by exact Hp.
  unfold ret. rewrite drop_replicate, Hsz, Nat2Z.id. reflexivity.
Qed.

End AdsFacts.

(** ** C1: parse after serialize *)

Section RoundTrip.
Import utils.

(** AdsNotificationSample: the round trip is the identity as long as the
    count fits the 16-bit loop counter of [Parse]. *)
Lemma AdsNotificationSample_roundtrip (m : AdsNotificationSample.AdsNotificationSample) :
  AdsNotificationSample.well_formed m ->
  AdsNotificationSample.SampleSize m < 2 ^ 16 ->
  exists bits,
    serialized (AdsNotificationSample.Serialize m) = Ok bits /\
    parsed AdsNotificationSample.AdsNotificationSampleParse bits = Ok m.
Proof.
  intros Hwf Hsmall. exists (AdsNotificationSample.wire m). split.
  - unfold serialized. destruct Hwf as [Hv _].
    now rewrite (Serialize_ok m NewWriteBuffer Hv).
  - unfold parsed. rewrite (Parse_wire m Hwf). cbn [fst].
    destruct Hwf as ((_ & Hs & _) & Hsz). f_equal.
    rewrite uint16_id by (unfold is_uint in *; change (Z.of_nat 16) with 16; lia).
    rewrite Hsz, Nat2Z.id, Nat.sub_diag, firstn_all. cbn [replicate].
    rewrite app_nil_r. destruct m; cbn in *. now subst.
Qed.

Example AdsNotificationSample_roundtrip_sample_3 :
  exists bits,
    serialized (AdsNotificationSample.Serialize Examples.sample_3) = Ok bits /\
    parsed AdsNotificationSample.AdsNotificationSampleParse bits = Ok Examples.sample_3.
Proof.
  apply AdsNotificationSample_roundtrip.
  - repeat split; cbn; try lia.
    repeat constructor; unfold is_int8; lia.
  - cbn. lia.
Qed.

Lemma sample_65536_well_formed :
  AdsNotificationSample.well_formed Examples.sample_65536.
Proof.
  unfold AdsNotificationSample.well_formed, AdsNotificationSample.valid, Examples.sample_65536.
  cbn [AdsNotificationSample.NotificationHandle AdsNotificationSample.SampleSize
       AdsNotificationSample.Data].
  split; [split; [|split] |].
  - unfold is_uint. change (Z.of_nat 32) with 32. lia.
  - unfold is_uint. change (Z.of_nat 32) with 32. lia.
  - apply Forall_replicate. unfold is_int8. lia.
  - rewrite length_replicate, Z2Nat.id; lia.
Qed.

(** C1 (AdsNotificationSample), evaluated at a sample of 65536 items
    with [SampleSize = len(Data) = 65536]: [Serialize] succeeds, and
    parsing what it wrote returns a sample whose [Data] is 65536 zeros
    instead of the 65536 ones that were written: the loop of [Parse] runs
    [uint16(65536) = 0] times over an array made with 65536 entries.
    Parse after serialize is not the identity there. *)
Theorem C1_AdsNotificationSample_roundtrip_breaks_at_65536 :
  AdsNotificationSample.well_formed Examples.sample_65536 /\
  exists bits,
    serialized (AdsNotificationSample.Serialize Examples.sample_65536) = Ok bits /\
    parsed AdsNotificationSample.AdsNotificationSampleParse bits
      = Ok Examples.sample_65536_parsed /\
    Examples.sample_65536_parsed <> Examples.sample_65536.
Proof.
  split; [exact sample_65536_well_formed|].
  exists (AdsNotificationSample.wire Examples.sample_65536). split; [|split].
  - unfold serialized.
    now rewrite (Serialize_ok _ NewWriteBuffer (proj1 sample_65536_well_formed)).
  - unfold parsed. rewrite (Parse_wire _ sample_65536_well_formed). cbn [fst].
    unfold Examples.sample_65536, Examples.sample_65536_parsed.
    cbn [AdsNotificationSample.NotificationHandle AdsNotificationSample.SampleSize
         AdsNotificationSample.Data].
    change (uint16 65536) with 0. change (Z.to_nat 0) with 0%nat.
    rewrite take_0, Nat.sub_0_r, length_replicate. reflexivity.
  - unfold Examples.sample_65536, Examples.sample_65536_parsed.
    intros Heq.
    apply (f_equal (fun m => AdsNotificationSample.Data m !! 0%nat)) in Heq.
    cbn beta iota delta [AdsNotificationSample.Data] in Heq.
    rewrite !lookup_replicate_2 in Heq by lia. discriminate Heq.
Qed.

End RoundTrip.

Section COTPParameterRoundTrip.
Import utils COTPParameter.
Context {C : Type} `{ICOTPParameterChild C}.
Variables (TpduSizeParse CallingTsapParse CalledTsapParse ChecksumParse : M ReadBuffer C)
          (DisconnectAdditionalInformationParse : Z -> M ReadBuffer C).

Local Abbreviation typeSwitch :=
  (typeSwitch TpduSizeParse CallingTsapParse CalledTsapParse ChecksumParse
              DisconnectAdditionalInformationParse).
Local Abbreviation COTPParameterParse :=
  (COTPParameterParse TpduSizeParse CallingTsapParse CalledTsapParse ChecksumParse
                      DisconnectAdditionalInformationParse).

(** The switch takes a case only on a value that fits the 8-bit field. *)
Lemma typeSwitch_uint8 (parameterType rest : Z) (p : M ReadBuffer C) :
  typeSwitch parameterType rest = Some p -> is_uint 8 parameterType.
Proof.
  unfold COTPParameter.typeSwitch, is_uint. change (Z.of_nat 8) with 8.
  intros Hp.
  destruct (decide (0 <= parameterType < 2 ^ 8)) as [|Hout]; [assumption|].
  exfalso.
  destruct parameterType as [|q|q]; [lia| |discriminate].
  do 8 (destruct q as [q|q|]; try discriminate); lia.
Qed.

(** COTPParameter: with a child attached whose serializer writes [w] and
    whose parser, the one the switch selects for the child's parameter
    type, reads the child back from [w], parse after serialize returns
    the parameter. *)
Lemma COTPParameter_roundtrip (m : COTPParameter C) (child : C) (rest : Z)
    (w : list bool) (subTypeParse : M ReadBuffer C) :
  Child m = Some child ->
  (forall wb, serializeChildFunction child wb = (Ok tt, mkWriteBuffer (wb_bits wb ++ w))) ->
  typeSwitch (ParameterType child) rest = Some subTypeParse ->
  (forall pre, length pre = 16%nat ->
     exists rb', subTypeParse (mkReadBuffer (pre ++ w) 16) = (Ok child, rb')) ->
  exists bits,
    serialized (Serialize m) = Ok bits /\
    parsed (COTPParameterParse rest) bits = Ok m.
Proof.
  intros Hchild Hser Hswitch Hparse.
  pose proof (typeSwitch_uint8 _ _ _ Hswitch) as Htype.
  destruct m as [c]. cbn [Child] in Hchild. subst c.
  set (len := uint8 (uint8 (uint8 (uint16 (uint16 (uint16 (uint16 0 + 8) + 8)
                + uint16 (Child_LengthInBits child)) / 8)) - uint8 2)).
  assert (Hlen : is_uint 8 len).
  { unfold len, uint8 at 1, is_uint. change (Z.of_nat 8) with 8.
    apply Z.mod_pos_bound. lia. }
  exists (bits_of 8 (ParameterType child) ++ bits_of 8 len ++ w). split.
  - unfold serialized, Serialize. cbn [Child]. unfold Child_Serialize, SerializeParent.
    rewrite uint8_id by exact Htype.
    erewrite bind_ok by (eapply on_error_ok; apply WriteUint_ok; exact Htype).
    unfold LengthInBytes, LengthInBits. cbn [Child]. fold len.
    erewrite bind_ok by (eapply on_error_ok; apply WriteUint_ok; exact Hlen).
    erewrite on_error_ok by apply Hser.
    cbn [wb_bits NewWriteBuffer app]. now rewrite <- app_assoc.
  - unfold parsed, COTPParameter.COTPParameterParse.
    pose proof (ReadUint_at 8 (ParameterType child) [] (bits_of 8 len ++ w) Htype) as Hr1.
    pose proof (ReadUint_at 8 len (bits_of 8 (ParameterType child)) w Hlen) as Hr2.
    rewrite length_bits_of in Hr2. cbn [app length Nat.add] in Hr1, Hr2.
    erewrite bind_ok by (eapply on_error_ok; exact Hr1).
    erewrite bind_ok by (eapply on_error_ok; exact Hr2).
    rewrite Hswitch.
    destruct (Hparse (bits_of 8 (ParameterType child) ++ bits_of 8 len)) as [rb' Hp].
    { now rewrite length_app, !length_bits_of. }
    rewrite <- app_assoc in Hp.
    erewrite bind_ok by (eapply on_error_ok; exact Hp).
    reflexivity.
Qed.

End COTPParameterRoundTrip.

Example COTPParameter_roundtrip_checksum :
  exists bits,
    serialized (COTPParameter.Serialize (COTPParameter.mkCOTPParameter (Some (0x5A : Examples.Checksum))))
      = Ok bits /\
    parsed (Examples.COTPParameterParse 0) bits
      = Ok (COTPParameter.mkCOTPParameter (Some (0x5A : Examples.Checksum))).
Proof.
  eapply (COTPParameter_roundtrip _ _ _ _ _ _ (0x5A : Examples.Checksum) 0
            (utils.bits_of 8 0x5A) Examples.ChecksumParse).
  - reflexivity.
  - intros wb. reflexivity.
  - reflexivity.
  - intros pre Hpre. eexists. unfold Examples.ChecksumParse, utils.ReadUint8.
    rewrite <- Hpre. rewrite <- (app_nil_r (utils.bits_of 8 90)).
    apply ReadUint_at. unfold is_uint. cbn. lia.
Qed.

(** ** C2: length in bits and bits written *)

Section Lengths.
Import utils.

(** [LengthInBits] of a sample is the bit count reduced to a [uint16]. *)
Lemma AdsNotificationSample_LengthInBits_mod (m : AdsNotificationSample.AdsNotificationSample) :
  AdsNotificationSample.LengthInBits m
  = (32 + 32 + 8 * Z.of_nat (length (AdsNotificationSample.Data m))) mod 2 ^ 16.
Proof.
  unfold AdsNotificationSample.LengthInBits, uint16.
  set (n := Z.of_nat (length (AdsNotificationSample.Data m))).
  change (((0 mod 2 ^ 16 + 32) mod 2 ^ 16 + 32) mod 2 ^ 16) with 64.
  change (32 + 32) with 64.
  destruct (decide (n > 0)) as [Hpos|Hzero].
  - rewrite Z.mul_mod_idemp_r, Z.add_mod_idemp_r by lia. reflexivity.
  - replace n with 0 by lia. reflexivity.
Qed.

Lemma AdsNotificationSample_LengthInBits_small (m : AdsNotificationSample.AdsNotificationSample) :
  Z.of_nat (length (AdsNotificationSample.Data m)) <= 8183 ->
  AdsNotificationSample.LengthInBits m
  = 32 + 32 + 8 * Z.of_nat (length (AdsNotificationSample.Data m)).
Proof.
  intros Hlen. rewrite AdsNotificationSample_LengthInBits_mod.
  apply Z.mod_small. change (2 ^ 16) with 65536. lia.
Qed.






End Lengths.

(** ** C3: the type switch of ApduDataExtParse *)

Section TypeSwitch.
Import utils ApduDataExt.

(** The switch takes a case exactly on the values of the table. *)
Lemma typeSwitch_table (v : Z) :
  bool_decide (v ∈ table) = match typeSwitch v with Some _ => true | None => false end.
Proof.
  destruct v as [|p|p]; [reflexivity| |reflexivity].
  do 7 (destruct p as [p|p|]; try reflexivity).
Qed.

Lemma typeSwitch_Some_iff (v : Z) : is_Some (typeSwitch v) <-> v ∈ table.
Proof.
  rewrite <- (bool_decide_spec (v ∈ table)), typeSwitch_table.
  destruct (typeSwitch v) as [t|]; cbn.
  - split; [intros _; exact I | intros _; eexists; reflexivity].
  - split; [intros [? Hx]; discriminate | intros []].
Qed.

Lemma typeSwitch_None_iff (v : Z) : typeSwitch v = None <-> v ∉ table.
Proof.
  rewrite <- typeSwitch_Some_iff, eq_None_not_Some. reflexivity.
Qed.

Lemma table_length : length table = 41%nat.
Proof. reflexivity. Qed.

Example typeSwitch_0x11 : typeSwitch 0x11 = Some ApduDataExtAuthorizeRequest.
Proof. reflexivity. Qed.

Example typeSwitch_0x30 : typeSwitch 0x30 = Some ApduDataExtFileStreamInfoReport.
Proof. reflexivity. Qed.

Example typeSwitch_0x1F : typeSwitch 0x1F = None.
Proof. reflexivity. Qed.

Example bits_of_0x11 : bits_of 6 0x11 = [false; true; false; false; false; true].
Proof. reflexivity. Qed.

Lemma table_6_bit (v : Z) : v ∈ table -> is_uint 6 v.
Proof.
  intros Hv. unfold is_uint. change (Z.of_nat 6) with 6.
  unfold table in Hv. repeat (apply elem_of_cons in Hv as [->|Hv]; [lia|]).
  now apply elem_of_nil in Hv.
Qed.

Variable C : Type.
Variable subTypeParse : SubType -> M ReadBuffer C.
Variable subTypeParseLength : SubType -> Z -> M ReadBuffer C.

(** C3, as the code has it.  With the cursor on a 6-bit value [v],
    [ApduDataExtParse] hands the buffer, six bits on, to a sub-type
    parser exactly when [v] is one of the 41 values of the table, and
    then returns a message exactly when that parser returns a child; on
    every other 6-bit value no message is returned.  In both cases the
    six bits of the discriminator stay consumed. *)
Theorem C3_ApduDataExtParse_type_switch (length v : Z) (pre post : list bool)
    (Hv : is_uint 6 v) :
  let rb := mkReadBuffer (pre ++ bits_of 6 v ++ post) (List.length pre) in
  let rb6 := mkReadBuffer (pre ++ bits_of 6 v ++ post) (List.length pre + 6) in
  (v ∈ table <-> is_Some (typeSwitch v)) /\
  (forall t, typeSwitch v = Some t ->
     ApduDataExtParse C subTypeParse subTypeParseLength length rb
     = match callSubTypeParse C subTypeParse subTypeParseLength t length rb6 with
       | (Ok child, rb') => (Ok (mkApduDataExt C (Some child)), rb')
       | (Err e, rb') => (Err (errors_Wrap e "Error parsing sub-type for type-switch."), rb')
       | (Panic r, rb') => (Panic r, rb')
       end) /\
  (typeSwitch v = None ->
     exists r,
       ApduDataExtParse C subTypeParse subTypeParseLength length rb = (r, rb6) /\
       (forall msg, r <> Ok msg) /\
       rb_pos rb6 <> rb_pos rb).
Proof.
  intros rb rb6.
  assert (Hread : on_error (fun e => errors_Wrap e "Error parsing 'extApciType' field")
                           (ReadUint8 6) rb = (Ok v, rb6)).
  { apply on_error_ok. apply ReadUint_at. exact Hv. }
  split; [symmetry; apply typeSwitch_Some_iff|]. split.
  - intros t Ht. unfold ApduDataExtParse.
    erewrite bind_ok by exact Hread. rewrite Ht.
    unfold bind, on_error, ret.
    destruct (callSubTypeParse C subTypeParse subTypeParseLength t length rb6)
      as [[child|e|r] rb']; reflexivity.
  - intros Hnone. exists (Panic "nil pointer dereference").
    split; [|split].
    + unfold ApduDataExtParse. erewrite bind_ok by exact Hread.
      rewrite Hnone. reflexivity.
    + intros msg. discriminate.
    + cbn. lia.
Qed.

End TypeSwitch.

Lemma C3_ApduDataExtParse_type_switch_witness :
  let parse := ApduDataExt.ApduDataExtParse Z Examples.subTypeParse Examples.subTypeParseLength 0 in
  let rb := utils.mkReadBuffer (utils.bits_of 6 0x11 ++ utils.bits_of 8 0x2A) 0 in
  let rb6 := utils.mkReadBuffer (utils.bits_of 6 0x11 ++ utils.bits_of 8 0x2A) 6 in
  (0x11 ∈ ApduDataExt.table <-> is_Some (ApduDataExt.typeSwitch 0x11)) /\
  (forall t, ApduDataExt.typeSwitch 0x11 = Some t ->
     parse rb
     = match ApduDataExt.callSubTypeParse Z Examples.subTypeParse Examples.subTypeParseLength
               t 0 rb6 with
       | (Ok child, rb') => (Ok (ApduDataExt.mkApduDataExt Z (Some child)), rb')
       | (Err e, rb') => (Err (errors_Wrap e "Error parsing sub-type for type-switch."), rb')
       | (Panic r, rb') => (Panic r, rb')
       end) /\
  (ApduDataExt.typeSwitch 0x11 = None ->
     exists r,
       parse rb = (r, rb6) /\
       (forall msg, r <> Ok msg) /\
       utils.rb_pos rb6 <> utils.rb_pos rb).
Proof.
  apply (C3_ApduDataExtParse_type_switch Z Examples.subTypeParse Examples.subTypeParseLength
           0 0x11 [] (utils.bits_of 8 0x2A)).
  unfold is_uint. cbn. lia.
Defined.

(** C3 as the specification states it fails: on the 6-bit value [0x04], which is not in the
    table, [ApduDataExtParse] does not return an error at all (no case of
    the switch is taken and the nil parent is dereferenced), and the
    cursor stands six bits further. *)
Lemma C3_counterexample_discriminator_0x04 :
  let parse := ApduDataExt.ApduDataExtParse unit
                 (fun _ => fail (errors_Kind TRUNCATED))
                 (fun _ _ => fail (errors_Kind TRUNCATED)) 0 in
  let rb := utils.mkReadBuffer (utils.bits_of 6 0x04) 0 in
  (0x04 ∉ ApduDataExt.table) /\
  parse rb = (Panic "nil pointer dereference", utils.mkReadBuffer (utils.bits_of 6 0x04) 6) /\
  (forall e, fst (parse rb) <> Err e) /\
  utils.rb_pos (snd (parse rb)) <> utils.rb_pos rb.
Proof.
  cbv zeta. split; [|split; [|split]].
  - apply typeSwitch_None_iff. reflexivity.
  - reflexivity.
  - intros e. discriminate.
  - vm_compute. discriminate.
Qed.

(** ** C10, C4, C5: the S7 message codec *)

Section ReceiveFacts.
Import utils transports MessageCodec.

Variable T : Type.
Variable TI : TransportInstance T.
Variable COTPPacket : Type.
Variable COTPPacketParse : Z -> M ReadBuffer COTPPacket.

Local Abbreviation Receive := (Receive T TI COTPPacket COTPPacketParse).

(** C10.  Over any transport and any packet parser, [Receive] never
    returns an error: when counting the readable bytes fails, when
    fewer than six bytes are readable, when peeking fails, when fewer
    bytes are readable than the packet size, when reading fails and when
    parsing fails, it returns [(nil, nil)]. *)
Theorem C10_Receive_never_returns_error (t : T) :
  (forall e, fst (Receive t) <> Err e) /\
  (forall err t1,
     GetNumReadableBytes TI t = (Err err, t1) -> Receive t = (Ok None, t1)) /\
  (forall num t1,
     GetNumReadableBytes TI t = (Ok num, t1) -> num < 6 -> Receive t = (Ok None, t1)) /\
  (forall num t1 err t2,
     GetNumReadableBytes TI t = (Ok num, t1) -> num >= 6 ->
     PeekReadableBytes TI 6 t1 = (Err err, t2) -> Receive t = (Ok None, t2)) /\
  (forall num t1 data t2 d4 d5,
     GetNumReadableBytes TI t = (Ok num, t1) -> num >= 6 ->
     PeekReadableBytes TI 6 t1 = (Ok data, t2) ->
     data !! 4%nat = Some d4 -> data !! 5%nat = Some d5 ->
     (num < packetSize_of d4 d5 -> Receive t = (Ok None, t2)) /\
     (forall err t3,
        ~ num < packetSize_of d4 d5 ->
        Read TI (packetSize_of d4 d5) t2 = (Err err, t3) -> Receive t = (Ok None, t3)) /\
     (forall packet t3 err,
        ~ num < packetSize_of d4 d5 ->
        Read TI (packetSize_of d4 d5) t2 = (Ok packet, t3) ->
        fst (COTPPacketParse (uint16 (packetSize_of d4 d5)) (NewReadBuffer packet)) = Err err ->
        Receive t = (Ok None, t3))).
Proof.
  split; [|split; [|split; [|split]]].
  - intros e. unfold MessageCodec.Receive.
    destruct (GetNumReadableBytes TI t) as [[num|err|r] t1]; cbn; try discriminate.
    destruct (decide (num >= 6)); cbn; try discriminate.
    destruct (PeekReadableBytes TI 6 t1) as [[data|err|r] t2]; cbn; try discriminate.
    destruct (data !! 4%nat) as [d4|]; cbn; try discriminate.
    destruct (data !! 5%nat) as [d5|]; cbn; try discriminate.
    destruct (decide (num < packetSize_of d4 d5)); cbn; try discriminate.
    destruct (Read TI (packetSize_of d4 d5) t2) as [[packet|err|r] t3]; cbn; try discriminate.
    destruct (fst (COTPPacketParse _ _)); cbn; discriminate.
  - intros err t1 Hnum. unfold MessageCodec.Receive. now rewrite Hnum.
  - intros num t1 Hnum Hlt. unfold MessageCodec.Receive. rewrite Hnum.
    now rewrite decide_False by lia.
  - intros num t1 err t2 Hnum Hge Hpeek. unfold MessageCodec.Receive.
    rewrite Hnum, decide_True by exact Hge. now rewrite Hpeek.
  - intros num t1 data t2 d4 d5 Hnum Hge Hpeek H4 H5.
    unfold MessageCodec.Receive.
    rewrite Hnum, decide_True by exact Hge. rewrite Hpeek, H4, H5.
    split; [|split].
    + intros Hlt. now rewrite decide_True by exact Hlt.
    + intros err t3 Hnlt Hread. rewrite decide_False by exact Hnlt. now rewrite Hread.
    + intros packet t3 err Hnlt Hread Hparse.
      rewrite decide_False by exact Hnlt. now rewrite Hread, Hparse.
Qed.

End ReceiveFacts.

Lemma C10_Receive_never_returns_error_witness :
  MessageCodec.Receive unit Examples.Closed (list bool) Examples.COTPPacketParse tt
  = (Ok None, tt).
Proof.
  apply (proj1 (proj2 (C10_Receive_never_returns_error unit Examples.Closed (list bool)
                         Examples.COTPPacketParse tt)) (errors_New "closed") tt).
  reflexivity.
Defined.

Section BufferedReceive.
Import utils transports MessageCodec.

Variable COTPPacket : Type.
Variable COTPPacketParse : Z -> M ReadBuffer COTPPacket.

Local Abbreviation Receive := (Receive (list Z) Buffered COTPPacket COTPPacketParse).

Lemma Receive_short (buf : list Z) :
  Z.of_nat (length buf) < 6 -> Receive buf = (Ok None, buf).
Proof.
  intros Hlt. unfold MessageCodec.Receive. cbn [GetNumReadableBytes Buffered].
  now rewrite decide_False by lia.
Qed.

Lemma lookup_total_Some (data : list Z) (i : nat) :
  (i < length data)%nat -> data !! i = Some (data !!! i).
Proof. intros Hi. now apply list_lookup_lookup_total_lt. Qed.

Lemma Receive_peek (buf : list Z) :
  6 <= Z.of_nat (length buf) ->
  Receive buf
  = if decide (Z.of_nat (length buf) < packetSize buf) then (Ok None, buf)
    else match fst (COTPPacketParse (uint16 (packetSize buf))
                      (NewReadBuffer (take (Z.to_nat (packetSize buf)) buf))) with
         | Panic r => (Panic r, drop (Z.to_nat (packetSize buf)) buf)
         | Err err => (Ok None, drop (Z.to_nat (packetSize buf)) buf)
         | Ok tcpAdu => (Ok (Some tcpAdu), drop (Z.to_nat (packetSize buf)) buf)
         end.
Proof.
  intros Hge. unfold MessageCodec.Receive.
  cbn [GetNumReadableBytes PeekReadableBytes Read Buffered].
  rewrite decide_True by lia. rewrite decide_True by lia.
  change (Z.to_nat 6) with 6%nat.
  rewrite !lookup_take_lt by lia.
  rewrite !lookup_total_Some by lia. fold (packetSize buf).
  destruct (decide (Z.of_nat (length buf) < packetSize buf)) as [Hlt|Hnlt]; [reflexivity|].
  rewrite decide_True by lia. reflexivity.
Qed.


(** C5.  The first half holds: while the carrier holds fewer bytes than
    the minimum of six, or fewer than the packet size [Receive] computes
    from them, [Receive] returns no message and leaves every byte in the
    carrier.  The second half fails on a TPKT packet: after the first 3
    bytes of the 22-byte connection request [Receive] returns no message,
    and after the remaining 19 bytes have arrived it still returns no
    message and takes no byte, whatever the packet parser, since it waits
    for the 4582 bytes it computes from bytes 4 and 5. *)
Theorem C5_Receive_complete_tpkt_packet_not_returned :
  (forall partial : list Z,
     Z.of_nat (length partial) < 6 \/ Z.of_nat (length partial) < packetSize partial ->
     Receive partial = (Ok None, partial)) /\
  (let packet := Examples.tpkt_connection_request in
   let partial := take 3 packet in
   let rest := drop 3 packet in
   length partial = 3%nat /\ length rest = 19%nat /\ partial ++ rest = packet /\
   spec_packetSize (partial ++ rest) = Z.of_nat (length (partial ++ rest)) /\
   Receive partial = (Ok None, partial) /\
   Receive (partial ++ rest) = (Ok None, partial ++ rest)).
Proof.
  assert (Hfirst : forall partial : list Z,
            Z.of_nat (length partial) < 6 \/ Z.of_nat (length partial) < packetSize partial ->
            Receive partial = (Ok None, partial)).
  { intros partial Hpartial.
    destruct (decide (Z.of_nat (length partial) < 6)) as [Hshort|Hlong].
    - now apply Receive_short.
    - destruct Hpartial as [Hp|Hp]; [lia|].
      rewrite Receive_peek by lia. now rewrite decide_True by exact Hp. }
  split; [exact Hfirst|].
  cbv zeta. split; [reflexivity|]. split; [reflexivity|]. split; [reflexivity|].
  split; [reflexivity|]. split.
  - apply Hfirst. left. cbn. lia.
  - apply Hfirst. right. vm_compute. reflexivity.
Qed.

(** C4, evaluated on the 22-byte TPKT packet of a connection request.
    Its TPKT header gives the total length 22 in bytes 2 and 3, and all
    22 bytes are in the carrier; [Receive] computes the packet size from
    bytes 4 and 5 plus 6, gets 4582, and returns no message.  With five
    bytes in the carrier, one more than the four of a TPKT header, it
    does not get as far as looking at them. *)
Theorem C4_Receive_frames_on_bytes_4_5 :
  spec_packetSize Examples.tpkt_connection_request = 22 /\
  Z.of_nat (length Examples.tpkt_connection_request) = 22 /\
  packetSize Examples.tpkt_connection_request = 4582 /\
  Receive Examples.tpkt_connection_request = (Ok None, Examples.tpkt_connection_request) /\
  spec_minimum_peek <= Z.of_nat (length (take 5 Examples.tpkt_connection_request)) < 6 /\
  Receive (take 5 Examples.tpkt_connection_request)
  = (Ok None, take 5 Examples.tpkt_connection_request).
Proof.
  split; [reflexivity|]. split; [reflexivity|]. split; [reflexivity|]. split; [|split].
  - rewrite Receive_peek by (cbn; lia). reflexivity.
  - unfold spec_minimum_peek. cbn. lia.
  - apply Receive_short. cbn. lia.
Qed.

End BufferedReceive.

Lemma C5_Receive_complete_tpkt_packet_not_returned_witness :
  MessageCodec.Receive (list Z) transports.Buffered (list bool) Examples.COTPPacketParse
    [0x03; 0x00; 0x00]
  = (Ok None, [0x03; 0x00; 0x00]) /\
  MessageCodec.Receive (list Z) transports.Buffered (list bool) Examples.COTPPacketParse
    Examples.tpkt_connection_request
  = (Ok None, Examples.tpkt_connection_request).
Proof.
  split.
  - apply (proj1 (C5_Receive_complete_tpkt_packet_not_returned (list bool)
                    Examples.COTPPacketParse) [0x03; 0x00; 0x00]).
    left. cbn. lia.
  - apply (proj1 (C5_Receive_complete_tpkt_packet_not_returned (list bool)
                    Examples.COTPPacketParse) Examples.tpkt_connection_request).
    right. vm_compute. reflexivity.
Defined.

(** ** C9, C7, C6: the driver manager *)

Lemma append_empty_r (s : string) : s +:+ "" = s.
Proof.
  induction s as [|a s IH]; [reflexivity|].
  change (String a (s +:+ "") = String a s). now f_equal.
Qed.

Lemma append_assoc (a b c : string) : (a +:+ b) +:+ c = a +:+ (b +:+ c).
Proof.
  induction a as [|x a IH]; [reflexivity|].
  change (String x ((a +:+ b) +:+ c) = String x (a +:+ (b +:+ c))). now f_equal.
Qed.

Lemma length_zero_empty (s : string) : String.length s = 0%nat <-> s = "".
Proof. destruct s; cbn; split; intros Hs; try reflexivity; discriminate. Qed.

Lemma mentions_suffix (pre s : string) : mentions (pre +:+ s) s.
Proof. exists pre, "". now rewrite append_empty_r. Qed.

Section ManagerFacts.
Variable Transport : Type.
Variable PlcConnection : Type.
Variable GetTransportCode : Transport -> string.
Variable url_Parse : string -> URL + error.
Variable url_Query : URL -> Options.

Local Abbreviation Manager := (PlcDriverManger Transport).
Local Abbreviation RegisterDriver := (RegisterDriver Transport).
Local Abbreviation RegisterTransport := (RegisterTransport Transport GetTransportCode).
Local Abbreviation GetDriver := (GetDriver Transport).
Local Abbreviation GetConnection :=
  (GetConnection Transport PlcConnection url_Parse url_Query).
Local Abbreviation register_all := (register_all Transport GetTransportCode).
Local Abbreviation register := (register Transport GetTransportCode).

(** The [for ... range] search finds a key exactly when the map has it. *)
Lemma range_has_key_lookup {V} (m : gmap string V) (code : string) :
  range_has_key m code = true <-> is_Some (m !! code).
Proof.
  unfold range_has_key. rewrite existsb_exists. split.
  - intros (name & Hin & Heq). apply bool_decide_eq_true in Heq. subst name.
    apply list_elem_of_In, list_elem_of_fmap in Hin as ([k v] & Hk & Hin).
    cbn in Hk. subst k. apply elem_of_map_to_list in Hin. eauto.
  - intros [v Hv]. exists code. split; [|now apply bool_decide_eq_true].
    apply list_elem_of_In, list_elem_of_fmap. exists (code, v). split; [reflexivity|].
    now apply elem_of_map_to_list.
Qed.

Lemma range_has_key_None {V} (m : gmap string V) (code : string) :
  range_has_key m code = false <-> m !! code = None.
Proof.
  rewrite <- not_true_iff_false, range_has_key_lookup, eq_None_not_Some. reflexivity.
Qed.

Lemma RegisterDriver_taken (m : Manager) (d : PlcDriver) :
  is_Some (drivers _ m !! GetProtocolCode d) -> RegisterDriver (Some d) m = Ok m.
Proof.
  intros Hd. unfold RegisterDriver.
  now rewrite (proj2 (range_has_key_lookup _ _) Hd).
Qed.

Lemma RegisterDriver_new (m : Manager) (d : PlcDriver) :
  drivers _ m !! GetProtocolCode d = None ->
  RegisterDriver (Some d) m
  = Ok (mkPlcDriverManger _ (<[GetProtocolCode d := d]> (drivers _ m)) (transports _ m)).
Proof.
  intros Hd. unfold RegisterDriver.
  now rewrite (proj2 (range_has_key_None _ _) Hd).
Qed.

(** No registration removes or replaces a driver that is registered. *)
Lemma register_keeps (op : Registration Transport) (m : Manager) (code : string)
    (d : PlcDriver) :
  drivers _ m !! code = Some d -> drivers _ (register op m) !! code = Some d.
Proof.
  intros Hd. unfold register. destruct op as [d'|t].
  - unfold RegisterDriver.
    destruct (range_has_key (drivers _ m) (GetProtocolCode d')) eqn:Hkey; [exact Hd|].
    cbn [drivers]. apply range_has_key_None in Hkey.
    rewrite lookup_insert_ne; [exact Hd|].
    intros Heq. rewrite Heq in Hkey. congruence.
  - unfold RegisterTransport.
    destruct (range_has_key (transports _ m) (GetTransportCode t)); exact Hd.
Qed.

Lemma register_all_keeps (ops : list (Registration Transport)) (m : Manager)
    (code : string) (d : PlcDriver) :
  drivers _ m !! code = Some d -> drivers _ (register_all ops m) !! code = Some d.
Proof.
  revert m. induction ops as [|op ops IH]; intros m Hd; [exact Hd|].
  cbn. apply IH. now apply register_keeps.
Qed.

Lemma GetDriver_lookup (m : Manager) (code : string) (d : PlcDriver) :
  drivers _ m !! code = Some d -> GetDriver m code = Ok d.
Proof. intros Hd. unfold GetDriver. now rewrite Hd. Qed.

(** C9.  For every manager, the one of [NewPlcDriverManager] included:
    registering a driver under a protocol code that is already a key
    leaves the manager as it is.  Registering a driver [d] under a code
    that is not yet a key stores [d] under that code and nothing else:
    [GetDriver] returns [d] for that code, and it keeps returning [d]
    after any further registrations of drivers and transports (the only
    operations that write to the maps); registering under that code again
    changes nothing. *)
Theorem C9_RegisterDriver_idempotent
    (m : Manager) (d : PlcDriver) (ops : list (Registration Transport)) :
  (is_Some (drivers _ m !! GetProtocolCode d) -> RegisterDriver (Some d) m = Ok m) /\
  (drivers _ m !! GetProtocolCode d = None ->
   exists m',
     RegisterDriver (Some d) m = Ok m' /\
     GetDriver m' (GetProtocolCode d) = Ok d /\
     (forall code, code <> GetProtocolCode d -> GetDriver m' code = GetDriver m code) /\
     GetDriver (register_all ops m') (GetProtocolCode d) = Ok d /\
     (forall d2, GetProtocolCode d2 = GetProtocolCode d ->
                 RegisterDriver (Some d2) m' = Ok m')).
Proof.
  split; [apply RegisterDriver_taken|].
  intros Hnew.
  eexists. split; [now apply RegisterDriver_new|].
  assert (Hd : drivers _ (mkPlcDriverManger Transport
                            (<[GetProtocolCode d := d]> (drivers _ m)) (transports _ m))
               !! GetProtocolCode d = Some d)
    by (cbn [drivers]; apply lookup_insert_eq).
  split; [now apply GetDriver_lookup|].
  split.
  { intros code Hcode. unfold GetDriver. cbn [drivers].
    now rewrite lookup_insert_ne by congruence. }
  split; [apply GetDriver_lookup; now apply register_all_keeps|].
  intros d2 Hcode. apply RegisterDriver_taken. rewrite Hcode, Hd. eauto.
Qed.

Lemma GetDriver_absent (m : Manager) (code : string) :
  drivers _ m !! code = None ->
  GetDriver m code = Err (errors_New ("couldn't find driver " +:+ code)).
Proof. intros Hd. unfold GetDriver. now rewrite Hd. Qed.

(** C7.  When the scheme of the connection string is not the code of a
    registered driver, [GetConnection] returns, without calling any
    driver, a channel that delivers exactly one result, whose error
    names the scheme; and [GetDriver] returns an error naming the code
    for every code that is not a key of the driver map. *)
Theorem C7_unknown_driver
    (m : Manager) (connectionString : string) (connectionUrl : URL) (code : string)
    (Hparse : url_Parse connectionString = inl connectionUrl)
    (Hunknown : drivers _ m !! Scheme connectionUrl = None)
    (Habsent : drivers _ m !! code = None) :
  (exists e,
     GetConnection m connectionString
     = Return (Ok (single_shot _ (NewPlcConnectionConnectResult _ None (Some e)))) /\
     mentions (Error e) (Scheme connectionUrl)) /\
  (exists e, GetDriver m code = Err e /\ mentions (Error e) code).
Proof.
  split.
  - eexists. split.
    + unfold GetConnection. rewrite Hparse.
      rewrite (GetDriver_absent _ _ Hunknown). reflexivity.
    + cbn [Error]. rewrite <- !append_assoc. apply mentions_suffix.
  - eexists. split; [now apply GetDriver_absent|].
    cbn [Error]. apply mentions_suffix.
Qed.

(** C6.  With the driver resolved: for an opaque URL whose opaque part
    parses, the transport URL handed to the driver has the scheme and
    the host of the inner URL; for a non-opaque URL it has the driver's
    default transport and the host of the URL itself; and when the
    transport name so found is empty, the channel delivers the single
    error "no transport specified ..." and the driver is not called. *)
Theorem C6_transport_resolution
    (m : Manager) (connectionString : string) (connectionUrl : URL) (driver : PlcDriver)
    (Hparse : url_Parse connectionString = inl connectionUrl)
    (Hdriver : GetDriver m (Scheme connectionUrl) = Ok driver) :
  let delegate transportName transportHost :=
    Call (Driver_GetConnection Transport PlcConnection driver
            (mkURL transportName "" transportHost "")
            (transports _ m) (url_Query connectionUrl))
         (fun ch => Return (Ok ch)) in
  let no_transport :=
    Return (Ok (single_shot PlcConnection
                  (NewPlcConnectionConnectResult _ None
                     (Some (errors_New "no transport specified and no default defined by driver"))))) in
  (forall inner,
     Opaque connectionUrl <> "" ->
     url_Parse (Opaque connectionUrl) = inl inner ->
     (Scheme inner <> "" ->
      GetConnection m connectionString = delegate (Scheme inner) (Host inner)) /\
     (Scheme inner = "" ->
      GetConnection m connectionString = no_transport)) /\
  (Opaque connectionUrl = "" ->
     (GetDefaultTransport driver <> "" ->
      GetConnection m connectionString
      = delegate (GetDefaultTransport driver) (Host connectionUrl)) /\
     (GetDefaultTransport driver = "" ->
      GetConnection m connectionString = no_transport)) /\
  (forall env, calls_of env no_transport = []).
Proof.
  intros delegate no_transport. split; [|split].
  - intros inner Hopaque Hinner.
    assert (Hlen : (0 < String.length (Opaque connectionUrl))%nat).
    { destruct (Opaque connectionUrl); [congruence | cbn; lia]. }
    unfold GetConnection. rewrite Hparse, Hdriver.
    rewrite decide_True by exact Hlen. rewrite Hinner. split; intros Hs.
    + now rewrite decide_False by exact Hs.
    + now rewrite decide_True by exact Hs.
  - intros Hopaque.
    unfold GetConnection. rewrite Hparse, Hdriver.
    rewrite decide_False by (rewrite Hopaque; cbn; lia). split; intros Hs.
    + now rewrite decide_False by exact Hs.
    + now rewrite decide_True by exact Hs.
  - intros env. reflexivity.
Qed.

End ManagerFacts.

Lemma C9_RegisterDriver_idempotent_witness :
  (exists m',
     RegisterDriver unit (Some s7_Driver) (NewPlcDriverManager unit) = Ok m' /\
     GetDriver unit m' "s7" = Ok s7_Driver /\
     (forall code, code <> "s7" ->
                   GetDriver unit m' code = GetDriver unit (NewPlcDriverManager unit) code) /\
     GetDriver unit
       (register_all unit Examples.TcpTransportCode
          [DoRegisterTransport unit tt; DoRegisterDriver unit Examples.modbus_Driver;
           DoRegisterDriver unit (mkPlcDriver "s7" "Another S7" "udp" false)] m')
       "s7" = Ok s7_Driver /\
     (forall d2, GetProtocolCode d2 = "s7" -> RegisterDriver unit (Some d2) m' = Ok m')) /\
  RegisterDriver unit (Some s7_Driver) Examples.manager = Ok Examples.manager.
Proof.
  split.
  - apply (proj2 (C9_RegisterDriver_idempotent unit Examples.TcpTransportCode
                    (NewPlcDriverManager unit) s7_Driver
                    [DoRegisterTransport unit tt; DoRegisterDriver unit Examples.modbus_Driver;
                     DoRegisterDriver unit (mkPlcDriver "s7" "Another S7" "udp" false)])).
    reflexivity.
  - apply (proj1 (C9_RegisterDriver_idempotent unit Examples.TcpTransportCode
                    Examples.manager s7_Driver [])).
    exists s7_Driver. reflexivity.
Defined.

Lemma C7_unknown_driver_witness :
  (exists e,
     GetConnection unit unit Examples.url_Parse Examples.url_Query Examples.manager "xyz://host"
     = Return (Ok (single_shot _ (NewPlcConnectionConnectResult _ None (Some e)))) /\
     mentions (Error e) "xyz") /\
  (exists e, GetDriver unit Examples.manager "modbus" = Err e /\ mentions (Error e) "modbus").
Proof.
  apply (C7_unknown_driver unit unit Examples.url_Parse Examples.url_Query
           Examples.manager "xyz://host" (mkURL "xyz" "" "host" "") "modbus").
  - reflexivity.
  - reflexivity.
  - reflexivity.
Defined.

Lemma C6_transport_resolution_witness :
  GetConnection unit unit Examples.url_Parse Examples.url_Query Examples.manager
    "s7://10.0.0.1"
  = Call (Driver_GetConnection unit unit s7_Driver (mkURL "tcp" "" "10.0.0.1" "")
            (transports _ Examples.manager) ∅)
         (fun ch => Return (Ok ch)) /\
  GetConnection unit unit Examples.url_Parse Examples.url_Query Examples.manager
    "s7:tcp://10.0.0.1:102?rack=0&slot=1"
  = Call (Driver_GetConnection unit unit s7_Driver (mkURL "tcp" "" "10.0.0.1:102" "")
            (transports _ Examples.manager) (<["rack" := ["0"]]> (<["slot" := ["1"]]> ∅)))
         (fun ch => Return (Ok ch)).
Proof.
  split.
  - apply (C6_transport_resolution unit unit Examples.url_Parse Examples.url_Query
             Examples.manager "s7://10.0.0.1" (mkURL "s7" "" "10.0.0.1" "") s7_Driver
             eq_refl eq_refl).
    + reflexivity.
    + discriminate.
  - apply (proj1 (C6_transport_resolution unit unit Examples.url_Parse Examples.url_Query
             Examples.manager "s7:tcp://10.0.0.1:102?rack=0&slot=1"
             (mkURL "s7" "tcp://10.0.0.1:102" "" "rack=0&slot=1") s7_Driver
             eq_refl eq_refl) (mkURL "tcp" "" "10.0.0.1:102" "")).
    + discriminate.
    + reflexivity.
    + discriminate.
Defined.

(** ** C8: the steps of the S7 driver's GetConnection *)

Section S7Facts.
Variables Transport PlcConnection TransportInstance MessageCodec
          Configuration DriverContext Connection : Type.
Variables URL_GoString URL_String : URL -> string.

Local Abbreviation Call_ :=
  (S7Call Transport PlcConnection TransportInstance MessageCodec
          Configuration DriverContext Connection).
Local Abbreviation GetConnection :=
  (s7_GetConnection Transport PlcConnection TransportInstance MessageCodec
                    Configuration DriverContext Connection URL_GoString URL_String).
Local Abbreviation steps :=
  (steps Transport PlcConnection TransportInstance MessageCodec
         Configuration DriverContext Connection).

(** C8, as the code has it.  [GetConnection] looks the transport up by the scheme
    of the transport URL; if there is none it calls nothing, leaves the
    options alone and delivers a single error.  Otherwise it sets
    [defaultTcpPort] to [102] in the options and then calls, in this
    order: [CreateTransportInstance] (with those options),
    [NewMessageCodec], [ParseFromOptions], [NewDriverContext],
    [NewConnection], [Connect].  When [CreateTransportInstance] or
    [ParseFromOptions] fails, a single error is delivered and no further
    call is made; when no call fails, the channel returned is the one
    [Connect] returns. *)
Theorem C8_s7_GetConnection_steps
    (env : Env Call_) (transportUrl : URL) (transports : gmap string Transport)
    (options : Options) :
  let p := GetConnection transportUrl transports options in
  let options' := <["defaultTcpPort" := ["102"]]> options in
  match transports !! Scheme transportUrl with
  | None =>
      steps env p = [] /\
      single_error _ (fst (result_of env p)) /\ snd (result_of env p) = options
  | Some transport =>
      snd (result_of env p) = options' /\
      match env _ (CreateTransportInstance _ _ _ _ _ _ _ transport transportUrl options') with
      | inr _ =>
          steps env p = [StepCreateTransportInstance] /\
          single_error _ (fst (result_of env p))
      | inl transportInstance =>
          match env _ (ParseFromOptions _ _ _ _ _ _ _ options') with
          | inr _ =>
              steps env p
              = [StepCreateTransportInstance; StepNewMessageCodec; StepParseFromOptions] /\
              single_error _ (fst (result_of env p))
          | inl configuration =>
              match env _ (NewDriverContext _ _ _ _ _ _ _ configuration) with
              | (driverContext, None) =>
                  steps env p
                  = [StepCreateTransportInstance; StepNewMessageCodec; StepParseFromOptions;
                     StepNewDriverContext; StepNewConnection; StepConnect] /\
                  fst (result_of env p)
                  = env _ (Connect _ _ _ _ _ _ _
                             (env _ (NewConnection _ _ _ _ _ _ _
                                       (env _ (NewMessageCodec _ _ _ _ _ _ _ transportInstance))
                                       configuration driverContext)))
              | (_, Some _) => True
              end
          end
      end
  end.
Proof.
  intros p options'. subst p. unfold steps, calls_of, result_of, s7_GetConnection.
  destruct (transports !! Scheme transportUrl) as [transport|].
  2: { cbn. split; [reflexivity|]. split; [eexists; reflexivity | reflexivity]. }
  fold options'. cbn [run].
  destruct (env _ (CreateTransportInstance _ _ _ _ _ _ _ transport transportUrl options'))
    as [transportInstance|err].
  2: { cbn. split; [reflexivity|]. split; [reflexivity | eexists; reflexivity]. }
  cbn [run].
  destruct (env _ (ParseFromOptions _ _ _ _ _ _ _ options')) as [configuration|err].
  2: { cbn. split; [reflexivity|]. split; [reflexivity | eexists; reflexivity]. }
  cbn [run].
  destruct (env _ (NewDriverContext _ _ _ _ _ _ _ configuration)) as [driverContext [err|]].
  - cbn. split; [reflexivity | exact I].
  - cbn. split; [reflexivity|]. split; reflexivity.
Qed.

End S7Facts.

(** C8 as the specification states it fails.  With an option parser that fails, the message
    codec has already been constructed when the options are parsed: the
    calls made are not an initial part of the order the specification
    gives.  And with a driver context that cannot be built, the connection
    is constructed and connected all the same. *)
Lemma C8_counterexample_codec_before_options :
  steps _ _ _ _ _ _ _ Examples.env_invalid_options Examples.s7_GetConnection
  = [StepCreateTransportInstance; StepNewMessageCodec; StepParseFromOptions] /\
  ~ (steps _ _ _ _ _ _ _ Examples.env_invalid_options Examples.s7_GetConnection
       `prefix_of` spec_steps) /\
  steps _ _ _ _ _ _ _ Examples.env_no_driver_context Examples.s7_GetConnection
  = [StepCreateTransportInstance; StepNewMessageCodec; StepParseFromOptions;
     StepNewDriverContext; StepNewConnection; StepConnect] /\
  fst (result_of Examples.env_no_driver_context Examples.s7_GetConnection)
  = Examples.connected.
Proof.
  split; [reflexivity|]. split; [|split; reflexivity].
  intros [k Hk]. vm_compute in Hk. discriminate Hk.
Qed.

(* ===================================================================== *)
(** * Further properties of the code *)
(* ===================================================================== *)

(** ** AdsNotificationSample: parsing any buffer *)

Section AdsParse.
Import utils AdsNotificationSample.

Lemma uint_of_range (bs : list bool) : 0 <= uint_of bs < 2 ^ Z.of_nat (length bs).
Proof.
  induction bs as [|b bs IH].
  - cbn. lia.
  - rewrite uint_of_cons. cbn [length]. rewrite Nat2Z.inj_succ, Z.pow_succ_r by lia.
    destruct b; cbn [Z.b2z]; lia.
Qed.

Lemma read_bits_enough (w : nat) (bits : list bool) (pos : nat) :
  (pos + w <= length bits)%nat ->
  read_bits w (mkReadBuffer bits pos)
  = (Ok (take w (drop pos bits)), mkReadBuffer bits (pos + w)) /\
  length (take w (drop pos bits)) = w.
Proof.
  intros Hlen. unfold read_bits. cbn [rb_pos rb_data].
  rewrite decide_True by exact Hlen. split; [reflexivity|].
  rewrite length_take, length_drop. lia.
Qed.

Lemma read_bits_short (w : nat) (bits : list bool) (pos : nat) :
  (length bits < pos + w)%nat ->
  read_bits w (mkReadBuffer bits pos) = (Err (errors_Kind TRUNCATED), mkReadBuffer bits pos).
Proof.
  intros Hlen. unfold read_bits. cbn [rb_pos rb_data].
  now rewrite decide_False by lia.
Qed.

Lemma ReadUint_enough (w : nat) (bits : list bool) (pos : nat) :
  (pos + w <= length bits)%nat ->
  ReadUint w (mkReadBuffer bits pos)
  = (Ok (uint_of (take w (drop pos bits))), mkReadBuffer bits (pos + w)) /\
  is_uint w (uint_of (take w (drop pos bits))).
Proof.
  intros Hlen. destruct (read_bits_enough w bits pos Hlen) as [Hr Hl].
  unfold ReadUint. erewrite bind_ok by exact Hr. split; [reflexivity|].
  pose proof (uint_of_range (take w (drop pos bits))) as Hu.
  rewrite Hl in Hu. exact Hu.
Qed.

Lemma ReadUint_short (w : nat) (bits : list bool) (pos : nat) :
  (length bits < pos + w)%nat ->
  ReadUint w (mkReadBuffer bits pos) = (Err (errors_Kind TRUNCATED), mkReadBuffer bits pos).
Proof.
  intros Hlen. unfold ReadUint. erewrite bind_err by (now apply read_bits_short).
  reflexivity.
Qed.

Lemma ReadInt8_enough (bits : list bool) (pos : nat) :
  (pos + 8 <= length bits)%nat ->
  exists x, ReadInt8 8 (mkReadBuffer bits pos) = (Ok x, mkReadBuffer bits (pos + 8)) /\
            is_int8 x.
Proof.
  intros Hlen. destruct (read_bits_enough 8 bits pos Hlen) as [Hr Hl].
  pose proof (uint_of_range (take 8 (drop pos bits))) as Hu. rewrite Hl in Hu.
  change (Z.of_nat 8) with 8 in Hu.
  eexists. split.
  - unfold ReadInt8, ReadInt. erewrite bind_ok by exact Hr. reflexivity.
  - cbv zeta. change (Z.of_nat 8) with 8. unfold is_int8.
    destruct (decide (2 ^ (8 - 1) <= uint_of (take 8 (drop pos bits)))); lia.
Qed.

Lemma ReadInt8_short (bits : list bool) (pos : nat) :
  (length bits < pos + 8)%nat ->
  ReadInt8 8 (mkReadBuffer bits pos) = (Err (errors_Kind TRUNCATED), mkReadBuffer bits pos).
Proof.
  intros Hlen. unfold ReadInt8, ReadInt. erewrite bind_err by (now apply read_bits_short).
  reflexivity.
Qed.

(** The count loop on a buffer that holds the items: it succeeds, moves
    the cursor past them and keeps the length of the array. *)
Lemma parse_data_enough (n : nat) :
  forall (curItem : nat) (data : list Z) (bits : list bool) (pos : nat),
    (pos + 8 * n <= length bits)%nat ->
    exists data',
      parse_data n curItem data (mkReadBuffer bits pos)
      = (Ok data', mkReadBuffer bits (pos + 8 * n)) /\
      length data' = length data /\
      (Forall is_int8 data -> Forall is_int8 data').
Proof.
  induction n as [|n IH]; intros curItem data bits pos Hlen.
  - exists data. cbn [parse_data]. unfold ret.
    replace (pos + 8 * 0)%nat with pos by lia. auto.
  - cbn [parse_data].
    destruct (ReadInt8_enough bits pos ltac:(lia)) as (x & Hx & Hrange).
    destruct (IH (S curItem) (<[curItem := x]> data) bits (pos + 8)%nat ltac:(lia))
      as (data' & Hp & Hl & Hall).
    exists data'. split; [|split].
    + erewrite bind_ok by (eapply on_error_ok; exact Hx).
      rewrite Hp. do 2 f_equal. lia.
    + now rewrite Hl, length_insert.
    + intros Hd. apply Hall. now apply Forall_insert.
Qed.

(** The count loop on a buffer that ends before the last item. *)
Lemma parse_data_short (n : nat) :
  forall (curItem : nat) (data : list Z) (bits : list bool) (pos : nat),
    (pos <= length bits)%nat ->
    (length bits < pos + 8 * n)%nat ->
    exists rb',
      parse_data n curItem data (mkReadBuffer bits pos)
      = (Err (errors_New "Error parsing 'data' field TRUNCATED"), rb').
Proof.
  induction n as [|n IH]; intros curItem data bits pos Hpos Hlen; [lia|].
  cbn [parse_data].
  destruct (decide (pos + 8 <= length bits)%nat) as [Hone|Hnone].
  - destruct (ReadInt8_enough bits pos Hone) as (x & Hx & _).
    destruct (IH (S curItem) (<[curItem := x]> data) bits (pos + 8)%nat
                ltac:(lia) ltac:(lia)) as (rb' & Hp).
    exists rb'. erewrite bind_ok by (eapply on_error_ok; exact Hx). exact Hp.
  - eexists. erewrite bind_err; [reflexivity|].
    erewrite on_error_err by (apply ReadInt8_short; lia). reflexivity.
Qed.

(** [Parse] on any buffer, by the number of bits left after the cursor:
    it fails on the first field that does not fit, and otherwise returns
    a sample with the two header fields and as many data items as the
    second of them says. *)
Lemma Parse_cases (bits : list bool) (pos : nat) :
  let rb := mkReadBuffer bits pos in
  let handle := uint_of (take 32 (drop pos bits)) in
  let size := uint_of (take 32 (drop (pos + 32) bits)) in
  let n := Z.to_nat (uint16 size) in
  (pos <= length bits)%nat ->
  ((length bits < pos + 32)%nat /\
   AdsNotificationSampleParse rb
   = (Err (errors_New "Error parsing 'notificationHandle' field TRUNCATED"), rb)) \/
  ((pos + 32 <= length bits < pos + 64)%nat /\
   AdsNotificationSampleParse rb
   = (Err (errors_New "Error parsing 'sampleSize' field TRUNCATED"),
      mkReadBuffer bits (pos + 32))) \/
  ((pos + 64 <= length bits < pos + 64 + 8 * n)%nat /\
   exists rb',
     AdsNotificationSampleParse rb
     = (Err (errors_New "Error parsing 'data' field TRUNCATED"), rb')) \/
  ((pos + 64 + 8 * n <= length bits)%nat /\
   exists data,
     AdsNotificationSampleParse rb
     = (Ok (NewAdsNotificationSample handle size data),
        mkReadBuffer bits (pos + 64 + 8 * n)) /\
     well_formed (NewAdsNotificationSample handle size data)).
Proof.
  intros rb handle size n Hpos. subst rb.
  unfold AdsNotificationSampleParse, ReadUint32.
  destruct (decide (pos + 32 <= length bits)%nat) as [H32|H32].
  2: { left. split; [lia|].
       erewrite bind_err; [reflexivity|].
       erewrite on_error_err by (apply ReadUint_short; lia). reflexivity. }
  destruct (ReadUint_enough 32 bits pos H32) as [Hr1 Hu1].
  erewrite bind_ok by (eapply on_error_ok; exact Hr1).
  destruct (decide (pos + 64 <= length bits)%nat) as [H64|H64].
  2: { right. left. split; [lia|].
       erewrite bind_err; [reflexivity|].
       erewrite on_error_err by (apply ReadUint_short; lia). reflexivity. }
  destruct (ReadUint_enough 32 bits (pos + 32) ltac:(lia)) as [Hr2 Hu2].
  erewrite bind_ok by (eapply on_error_ok; exact Hr2).
  fold handle size n. fold handle in Hu1. fold size in Hu2.
  replace (pos + 32 + 32)%nat with (pos + 64)%nat by lia.
  destruct (decide (pos + 64 + 8 * n <= length bits)%nat) as [Hall|Hnot].
  - right. right. right. split; [exact Hall|].
    destruct (parse_data_enough n 0 (replicate (Z.to_nat size) 0) bits (pos + 64)%nat Hall)
      as (data & Hp & Hl & Hf).
    exists data. erewrite bind_ok by exact Hp. split; [reflexivity|].
    unfold well_formed, valid.
    cbn [NotificationHandle SampleSize Data].
    split; [split; [exact Hu1 | split; [exact Hu2|]]|].
    + apply Hf, Forall_replicate. unfold is_int8. lia.
    + rewrite Hl, length_replicate, Z2Nat.id; [reflexivity|]. apply Hu2.
  - right. right. left. split; [lia|].
    destruct (parse_data_short n 0 (replicate (Z.to_nat size) 0) bits (pos + 64)%nat
                ltac:(lia) ltac:(lia)) as (rb' & Hp).
    exists rb'. erewrite bind_err by exact Hp. reflexivity.
Qed.

End AdsParse.

Section AdsStream.
Import utils AdsNotificationSample.

(** X1.  When the buffer ends before the sample does (before the 64
    header bits, or before the [uint16(sampleSize)] items the header
    announces), [AdsNotificationSampleParse] returns an error that names
    the field it could not read; it returns no sample. *)
Theorem AdsNotificationSampleParse_truncated (bits : list bool) (pos : nat)
    (Hpos : (pos <= length bits)%nat)
    (Hshort : (length bits
               < pos + 64 + 8 * Z.to_nat (uint16 (uint_of (take 32 (drop (pos + 32) bits)))))%nat) :
  exists field rb',
    AdsNotificationSampleParse (mkReadBuffer bits pos)
    = (Err (errors_New ("Error parsing '" +:+ field +:+ "' field TRUNCATED")), rb') /\
    (field = "notificationHandle" \/ field = "sampleSize" \/ field = "data").
Proof.
  destruct (Parse_cases bits pos Hpos) as [[_ H]|[[_ H]|[[_ (rb' & H)]|[Hlen _]]]].
  - exists "notificationHandle". eexists. split; [exact H | auto].
  - exists "sampleSize". eexists. split; [exact H | auto].
  - exists "data", rb'. split; [exact H | auto].
  - lia.
Qed.

Lemma AdsNotificationSampleParse_truncated_witness :
  exists field rb',
    AdsNotificationSampleParse
      (mkReadBuffer (bits_of 32 7 ++ bits_of 32 3 ++ bits_of 8 1 ++ bits_of 8 2) 0)
    = (Err (errors_New ("Error parsing '" +:+ field +:+ "' field TRUNCATED")), rb') /\
    (field = "notificationHandle" \/ field = "sampleSize" \/ field = "data").
Proof.
  apply (AdsNotificationSampleParse_truncated
           (bits_of 32 7 ++ bits_of 32 3 ++ bits_of 8 1 ++ bits_of 8 2) 0).
  - vm_compute. lia.
  - vm_compute. lia.
Defined.

(** X2.  Every sample [AdsNotificationSampleParse] returns is well
    formed: its fields are in the range of their Go types and
    [SampleSize = len(Data)]; and the cursor has moved by the 64 header
    bits and 8 bits for each of the [uint16(SampleSize)] items read. *)
Theorem AdsNotificationSampleParse_well_formed (bits : list bool) (pos : nat)
    (m : AdsNotificationSample) (rb' : ReadBuffer)
    (Hpos : (pos <= length bits)%nat)
    (Hparse : AdsNotificationSampleParse (mkReadBuffer bits pos) = (Ok m, rb')) :
  well_formed m /\
  rb' = mkReadBuffer bits (pos + 64 + 8 * Z.to_nat (uint16 (SampleSize m))) /\
  (rb_pos rb' <= length bits)%nat.
Proof.
  destruct (Parse_cases bits pos Hpos)
    as [[_ H]|[[_ H]|[[_ (rb1 & H)]|[Hlen (data & H & Hwf)]]]];
    rewrite H in Hparse; try discriminate Hparse.
  injection Hparse as <- <-. cbn [SampleSize rb_pos]. auto.
Qed.

Lemma AdsNotificationSampleParse_well_formed_witness :
  well_formed Examples.sample_3 /\
  mkReadBuffer (wire Examples.sample_3) 88
  = mkReadBuffer (wire Examples.sample_3)
      (0 + 64 + 8 * Z.to_nat (uint16 (SampleSize Examples.sample_3))) /\
  (rb_pos (mkReadBuffer (wire Examples.sample_3) 88) <= length (wire Examples.sample_3))%nat.
Proof.
  apply (AdsNotificationSampleParse_well_formed (wire Examples.sample_3) 0
           Examples.sample_3 (mkReadBuffer (wire Examples.sample_3) 88)).
  - vm_compute. lia.
  - reflexivity.
Defined.

(** [Parse] with the cursor on the wire image of a sample, anywhere in a
    buffer. *)
Lemma Parse_at (m : AdsNotificationSample) (pre post : list bool) :
  well_formed m ->
  SampleSize m < 2 ^ 16 ->
  AdsNotificationSampleParse (mkReadBuffer (pre ++ wire m ++ post) (length pre))
  = (Ok m, mkReadBuffer (pre ++ wire m ++ post) (length pre + length (wire m))).
Proof.
  intros ((Hh & Hs & Hd) & Hsz) Hsmall.
  assert (Hn : Z.to_nat (uint16 (SampleSize m)) = length (Data m)).
  { rewrite uint16_id by (unfold is_uint in *; change (Z.of_nat 16) with 16; lia).
    now rewrite Hsz, Nat2Z.id. }
  assert (Hz : Z.to_nat (SampleSize m) = length (Data m)) by now rewrite Hsz, Nat2Z.id.
  pose proof (ReadUint_at 32 (NotificationHandle m) pre
                (bits_of 32 (SampleSize m) ++ flat_map int8_bits (Data m) ++ post) Hh) as Hr1.
  pose proof (ReadUint_at 32 (SampleSize m) (pre ++ bits_of 32 (NotificationHandle m))
                (flat_map int8_bits (Data m) ++ post) Hs) as Hr2.
  pose proof (parse_data_at (Data m) Hd 0 (replicate (length (Data m)) 0)
                (pre ++ bits_of 32 (NotificationHandle m) ++ bits_of 32 (SampleSize m))
                post) as Hp.
  specialize (Hp ltac:(rewrite length_replicate; lia)).
  rewrite !length_app, !length_bits_of in Hr2.
  rewrite !length_app, !length_bits_of in Hp.
  rewrite <- !app_assoc in Hr2. rewrite <- !app_assoc in Hp.
  rewrite take_0, drop_replicate in Hp. cbn [app] in Hp.
  replace (length (Data m) - (0 + length (Data m)))%nat with 0%nat in Hp by lia.
  cbn [replicate] in Hp. rewrite app_nil_r, Nat.add_assoc in Hp.
  unfold AdsNotificationSampleParse, ReadUint32, wire.
  rewrite <- !app_assoc.
  erewrite bind_ok by (eapply on_error_ok; exact Hr1).
  erewrite bind_ok by (eapply on_error_ok; exact Hr2).
  rewrite Hn, Hz. erewrite bind_ok by exact Hp.
  unfold ret. f_equal.
  - f_equal. now destruct m.
  - f_equal. rewrite !length_app, !length_bits_of, length_flat_int8. lia.
Qed.

(** X3.  Samples written one after the other are read back one after
    the other: parsing twice from the start of what two [Serialize] calls
    wrote returns the first sample and then the second, and the cursor
    ends at the end of the buffer. *)
Theorem AdsNotificationSample_two_in_a_row (m1 m2 : AdsNotificationSample)
    (Hwf1 : well_formed m1) (Hwf2 : well_formed m2)
    (Hsmall1 : SampleSize m1 < 2 ^ 16) (Hsmall2 : SampleSize m2 < 2 ^ 16) :
  exists bits,
    serialized (Serialize m1 ;;; Serialize m2) = Ok bits /\
    (a <- AdsNotificationSampleParse ;; b <- AdsNotificationSampleParse ;; ret (a, b))
      (mkReadBuffer bits 0)
    = (Ok (m1, m2), mkReadBuffer bits (length bits)).
Proof.
  exists (wire m1 ++ wire m2). split.
  - unfold serialized.
    erewrite bind_ok by (apply Serialize_ok; apply Hwf1).
    rewrite Serialize_ok by apply Hwf2. cbn [wb_bits NewWriteBuffer app]. reflexivity.
  - pose proof (Parse_at m1 [] (wire m2) Hwf1 Hsmall1) as H1.
    pose proof (Parse_at m2 (wire m1) [] Hwf2 Hsmall2) as H2.
    cbn [app length Nat.add] in H1. rewrite app_nil_r in H2.
    erewrite bind_ok by exact H1. erewrite bind_ok by exact H2.
    unfold ret. now rewrite length_app.
Qed.

Lemma AdsNotificationSample_two_in_a_row_witness :
  exists bits,
    serialized (Serialize Examples.sample_3 ;;; Serialize MoreExamples.sample_2) = Ok bits /\
    (a <- AdsNotificationSampleParse ;; b <- AdsNotificationSampleParse ;; ret (a, b))
      (mkReadBuffer bits 0)
    = (Ok (Examples.sample_3, MoreExamples.sample_2), mkReadBuffer bits (length bits)).
Proof.
  apply (AdsNotificationSample_two_in_a_row Examples.sample_3 MoreExamples.sample_2).
  - unfold well_formed, valid, is_uint, is_int8. cbn.
    repeat split; try lia. repeat constructor; lia.
  - unfold well_formed, valid, is_uint, is_int8. cbn.
    repeat split; try lia. repeat constructor; lia.
  - cbn. lia.
  - cbn. lia.
Defined.

(** The round trip of a well-formed sample of fewer than 65536
    items, at a concrete sample. *)
Lemma AdsNotificationSample_roundtrip_witness :
  exists bits,
    serialized (Serialize Examples.sample_3) = Ok bits /\
    parsed AdsNotificationSampleParse bits = Ok Examples.sample_3.
Proof.
  apply (AdsNotificationSample_roundtrip Examples.sample_3).
  - unfold well_formed, valid, is_uint, is_int8. cbn.
    repeat split; try lia. repeat constructor; lia.
  - cbn. lia.
Defined.

(** X4.  For a well-formed sample of at most 8183 items,
    [LengthInBytes()] is [8 + len(Data)]; [Serialize] succeeds and writes
    that many bytes, [LengthInBits()] bits; and parsing what [Serialize]
    wrote returns the sample and moves the cursor by exactly
    [LengthInBits()] bits. *)
Theorem AdsNotificationSample_length_consumed (m : AdsNotificationSample)
    (Hwf : well_formed m) (Hlen : Z.of_nat (length (Data m)) <= 8183) :
  LengthInBytes m = 8 + Z.of_nat (length (Data m)) /\
  exists bits,
    serialized (Serialize m) = Ok bits /\
    8 * LengthInBytes m = Z.of_nat (length bits) /\
    LengthInBits m = Z.of_nat (length bits) /\
    AdsNotificationSampleParse (mkReadBuffer bits 0)
    = (Ok m, mkReadBuffer bits (Z.to_nat (LengthInBits m))).
Proof.
  pose proof (AdsNotificationSample_LengthInBits_small m Hlen) as Hbits.
  assert (Hbytes : LengthInBytes m = 8 + Z.of_nat (length (Data m))).
  { unfold LengthInBytes. rewrite Hbits.
    replace (32 + 32 + 8 * Z.of_nat (length (Data m)))
      with ((8 + Z.of_nat (length (Data m))) * 8) by lia.
    now rewrite Z.div_mul by lia. }
  split; [exact Hbytes|].
  exists (wire m). split.
  { unfold serialized. destruct Hwf as [Hv _].
    now rewrite (Serialize_ok m NewWriteBuffer Hv). }
  split; [rewrite Hbytes, length_wire; lia|].
  split; [rewrite Hbits, length_wire; reflexivity|].
  assert (Hsmall : SampleSize m < 2 ^ 16) by (destruct Hwf as [_ ->]; lia).
  pose proof (Parse_at m [] [] Hwf Hsmall) as Hp.
  cbn [app length Nat.add] in Hp. rewrite app_nil_r in Hp.
  rewrite Hp. do 2 f_equal.
  rewrite Hbits, <- length_wire. now rewrite Nat2Z.id.
Qed.

Lemma AdsNotificationSample_length_consumed_witness :
  LengthInBytes Examples.sample_3 = 8 + 3 /\
  exists bits,
    serialized (Serialize Examples.sample_3) = Ok bits /\
    8 * LengthInBytes Examples.sample_3 = Z.of_nat (length bits) /\
    LengthInBits Examples.sample_3 = Z.of_nat (length bits) /\
    AdsNotificationSampleParse (mkReadBuffer bits 0)
    = (Ok Examples.sample_3,
       mkReadBuffer bits (Z.to_nat (LengthInBits Examples.sample_3))).
Proof.
  apply (AdsNotificationSample_length_consumed Examples.sample_3).
  - unfold well_formed, valid, is_uint, is_int8. cbn.
    repeat split; try lia. repeat constructor; lia.
  - cbn. lia.
Defined.

End AdsStream.

(** ** COTPParameter: unknown types, and what is written *)

(** The round trip of a COTPParameter with a child attached, at a
    checksum parameter. *)
Lemma COTPParameter_roundtrip_witness :
  exists bits,
    serialized (COTPParameter.Serialize
                  (COTPParameter.mkCOTPParameter (Some (0x5A : Examples.Checksum))))
    = Ok bits /\
    parsed (Examples.COTPParameterParse 0) bits
    = Ok (COTPParameter.mkCOTPParameter (Some (0x5A : Examples.Checksum))).
Proof.
  apply (COTPParameter_roundtrip Examples.NoParse Examples.NoParse Examples.NoParse
           Examples.ChecksumParse (fun _ => Examples.NoParse)
           (COTPParameter.mkCOTPParameter (Some (0x5A : Examples.Checksum)))
           (0x5A : Examples.Checksum) 0 (utils.bits_of 8 0x5A) Examples.ChecksumParse).
  - reflexivity.
  - intros wb. reflexivity.
  - reflexivity.
  - intros pre Hpre. eexists. unfold Examples.ChecksumParse, utils.ReadUint8.
    rewrite <- Hpre. rewrite <- (app_nil_r (utils.bits_of 8 90)).
    apply ReadUint_at. unfold is_uint. cbn. lia.
Defined.

Section COTPParameterMore.
Import utils COTPParameter.
Context {C : Type} `{ICOTPParameterChild C}.
Variables (TpduSizeParse CallingTsapParse CalledTsapParse ChecksumParse : M ReadBuffer C)
          (DisconnectAdditionalInformationParse : Z -> M ReadBuffer C).

Local Abbreviation typeSwitch :=
  (typeSwitch TpduSizeParse CallingTsapParse CalledTsapParse ChecksumParse
              DisconnectAdditionalInformationParse).
Local Abbreviation COTPParameterParse :=
  (COTPParameterParse TpduSizeParse CallingTsapParse CalledTsapParse ChecksumParse
                      DisconnectAdditionalInformationParse).

Lemma typeSwitch_other (parameterType rest : Z) :
  parameterType ∉ [0xC0; 0xC1; 0xC2; 0xC3; 0xE0] ->
  typeSwitch parameterType rest = None.
Proof.
  intros Hnot. unfold COTPParameter.typeSwitch.
  destruct parameterType as [|p|p]; [reflexivity| |reflexivity].
  do 8 (destruct p as [p|p|]; try reflexivity).
  all: exfalso; apply Hnot; set_solver.
Qed.

(** X5.  On a parameter type other than [0xC0], [0xC1], [0xC2], [0xC3]
    and [0xE0], [COTPParameterParse] reads the type and the length byte
    and then dereferences the nil parent: it returns neither a parameter
    nor an error, and the cursor stands 16 bits on. *)
Theorem COTPParameterParse_unknown_type
    (parameterType parameterLength rest : Z) (pre post : list bool)
    (Htype : is_uint 8 parameterType) (Hlength : is_uint 8 parameterLength)
    (Hunknown : parameterType ∉ [0xC0; 0xC1; 0xC2; 0xC3; 0xE0]) :
  COTPParameterParse rest
    (mkReadBuffer (pre ++ bits_of 8 parameterType ++ bits_of 8 parameterLength ++ post)
                  (length pre))
  = (Panic "nil pointer dereference",
     mkReadBuffer (pre ++ bits_of 8 parameterType ++ bits_of 8 parameterLength ++ post)
                  (length pre + 16)).
Proof.
  pose proof (ReadUint_at 8 parameterType pre (bits_of 8 parameterLength ++ post) Htype)
    as Hr1.
  pose proof (ReadUint_at 8 parameterLength (pre ++ bits_of 8 parameterType) post Hlength)
    as Hr2.
  rewrite length_app, length_bits_of, <- app_assoc in Hr2.
  unfold COTPParameter.COTPParameterParse.
  erewrite bind_ok by (eapply on_error_ok; exact Hr1).
  erewrite bind_ok by (eapply on_error_ok; exact Hr2).
  rewrite typeSwitch_other by exact Hunknown.
  unfold panic. do 2 f_equal. lia.
Qed.

(** X6.  What [Serialize] writes for a parameter with a child attached,
    when the child's serializer writes the [Child_LengthInBits] bits [w]
    and the whole stays below 65536 bits: the type byte, then one byte
    with the child's length in bytes (modulo 256), then [w]; that is
    [LengthInBits()] bits. *)
Theorem COTPParameter_Serialize_layout (m : COTPParameter C) (child : C) (w : list bool)
    (Hchild : Child m = Some child)
    (Htype : is_uint 8 (ParameterType child))
    (Hbits : 0 <= Child_LengthInBits child < 2 ^ 16 - 16)
    (Hw : Z.of_nat (length w) = Child_LengthInBits child)
    (Hser : forall wb, serializeChildFunction child wb
                       = (Ok tt, mkWriteBuffer (wb_bits wb ++ w))) :
  serialized (Serialize m)
  = Ok (bits_of 8 (ParameterType child)
        ++ bits_of 8 ((Child_LengthInBits child / 8) mod 2 ^ 8) ++ w) /\
  LengthInBits m = Ok (16 + Child_LengthInBits child) /\
  LengthInBits m
  = Ok (Z.of_nat (length (bits_of 8 (ParameterType child)
                          ++ bits_of 8 ((Child_LengthInBits child / 8) mod 2 ^ 8) ++ w))).
Proof.
  assert (Hl : LengthInBits m = Ok (16 + Child_LengthInBits child)).
  { unfold LengthInBits. rewrite Hchild. f_equal. unfold uint16.
    change ((0 mod 2 ^ 16 + 8) mod 2 ^ 16 + 8) with 16.
    change (16 mod 2 ^ 16) with 16.
    rewrite (Z.mod_small (Child_LengthInBits child)) by lia.
    apply Z.mod_small. lia. }
  assert (Hlenbyte : uint8 (uint8 (uint8 ((16 + Child_LengthInBits child) / 8)) - uint8 2)
                     = (Child_LengthInBits child / 8) mod 2 ^ 8).
  { unfold uint8. replace (16 + Child_LengthInBits child)
      with (Child_LengthInBits child + 2 * 8) by lia.
    rewrite Z.div_add by lia. rewrite Z.mod_mod by lia.
    change (2 mod 2 ^ 8) with 2.
    rewrite Zminus_mod_idemp_l. f_equal. lia. }
  split; [|split; [exact Hl|]].
  - unfold serialized, Serialize. rewrite Hchild.
    unfold Child_Serialize, SerializeParent.
    rewrite uint8_id by exact Htype.
    erewrite bind_ok by (eapply on_error_ok; apply WriteUint_ok; exact Htype).
    unfold LengthInBytes. rewrite Hl. rewrite Hlenbyte.
    erewrite bind_ok
      by (eapply on_error_ok; apply WriteUint_ok; unfold is_uint;
          change (Z.of_nat 8) with 8; apply Z.mod_pos_bound; lia).
    erewrite on_error_ok by apply Hser.
    cbn [wb_bits NewWriteBuffer app]. now rewrite <- app_assoc.
  - rewrite Hl. f_equal. rewrite !length_app, !length_bits_of.
    rewrite !Nat2Z.inj_add, Hw. lia.
Qed.

End COTPParameterMore.

Lemma COTPParameterParse_unknown_type_witness :
  Examples.COTPParameterParse 0
    (utils.mkReadBuffer ([] ++ utils.bits_of 8 0xC4 ++ utils.bits_of 8 1 ++ utils.bits_of 8 0) 0)
  = (Panic "nil pointer dereference",
     utils.mkReadBuffer
       ([] ++ utils.bits_of 8 0xC4 ++ utils.bits_of 8 1 ++ utils.bits_of 8 0) (0 + 16)).
Proof.
  apply (COTPParameterParse_unknown_type Examples.NoParse Examples.NoParse Examples.NoParse
           Examples.ChecksumParse (fun _ => Examples.NoParse) 0xC4 1 0 [] (utils.bits_of 8 0)).
  - unfold is_uint. cbn. lia.
  - unfold is_uint. cbn. lia.
  - intros Hin. repeat (apply elem_of_cons in Hin as [Hin|Hin]; [discriminate Hin|]).
    now apply elem_of_nil in Hin.
Defined.

Lemma COTPParameter_Serialize_layout_witness :
  serialized (COTPParameter.Serialize
                (COTPParameter.mkCOTPParameter (Some (0x5A : Examples.Checksum))))
  = Ok (utils.bits_of 8 0xC3 ++ utils.bits_of 8 ((8 / 8) mod 2 ^ 8) ++ utils.bits_of 8 0x5A) /\
  COTPParameter.LengthInBits (COTPParameter.mkCOTPParameter (Some (0x5A : Examples.Checksum)))
  = Ok (16 + 8) /\
  COTPParameter.LengthInBits (COTPParameter.mkCOTPParameter (Some (0x5A : Examples.Checksum)))
  = Ok (Z.of_nat (length (utils.bits_of 8 0xC3 ++ utils.bits_of 8 ((8 / 8) mod 2 ^ 8)
                          ++ utils.bits_of 8 0x5A))).
Proof.
  apply (@COTPParameter_Serialize_layout Examples.Checksum Examples.Checksum_child
           (COTPParameter.mkCOTPParameter (Some (0x5A : Examples.Checksum)))
           (0x5A : Examples.Checksum) (utils.bits_of 8 0x5A)).
  - reflexivity.
  - unfold is_uint. cbn. lia.
  - cbn. lia.
  - reflexivity.
  - intros wb. reflexivity.
Defined.

(** ** ApduDataExt: serialization, and its round trip *)

Section ApduDataExtMore.
Import utils ApduDataExt ApduDataExtSerialize.
Context {C : Type} `{IApduDataExtChild C}.
Variable subTypeParse : SubType -> M ReadBuffer C.
Variable subTypeParseLength : SubType -> Z -> M ReadBuffer C.

(** X7.  An ApduDataExt with a child attached survives the round trip
    when the child's own codec does: if the child's serializer writes
    [w], the switch takes a case on the child's [ExtApciType()], and the
    sub-type parser of that case reads the child back from [w], then
    [Serialize] succeeds, the first six bits written are the
    discriminator, and [ApduDataExtParse] on what was written returns the
    same message. *)
Theorem ApduDataExt_roundtrip (m : ApduDataExt C) (child : C) (length : Z)
    (w : list bool) (t : SubType)
    (Hchild : Child C m = Some child)
    (Hser : forall wb, serializeChildFunction child wb
                       = (Ok tt, mkWriteBuffer (wb_bits wb ++ w)))
    (Hswitch : typeSwitch (ExtApciType child) = Some t)
    (Hparse : forall pre, List.length pre = 6%nat ->
                exists rb', callSubTypeParse C subTypeParse subTypeParseLength t length
                              (mkReadBuffer (pre ++ w) 6) = (Ok child, rb')) :
  exists bits,
    serialized (Serialize m) = Ok bits /\
    take 6 bits = bits_of 6 (ExtApciType child) /\
    parsed (ApduDataExtParse C subTypeParse subTypeParseLength length) bits = Ok m.
Proof.
  assert (Htype : is_uint 6 (ExtApciType child)).
  { apply table_6_bit, typeSwitch_Some_iff. rewrite Hswitch. eauto. }
  assert (Htype8 : is_uint 8 (ExtApciType child)).
  { unfold is_uint in *. change (Z.of_nat 6) with 6 in Htype.
    change (Z.of_nat 8) with 8. lia. }
  destruct m as [c]. cbn [Child] in Hchild. subst c.
  exists (bits_of 6 (ExtApciType child) ++ w). split; [|split].
  - unfold serialized, Serialize. cbn [Child].
    unfold Child_Serialize, SerializeParent.
    rewrite uint8_id by exact Htype8.
    erewrite bind_ok by (eapply on_error_ok; apply WriteUint_ok; exact Htype).
    erewrite on_error_ok by apply Hser. reflexivity.
  - rewrite take_app_length'; [reflexivity|]. now rewrite length_bits_of.
  - unfold parsed, ApduDataExtParse.
    pose proof (ReadUint_at 6 (ExtApciType child) [] w Htype) as Hr.
    cbn [app List.length Nat.add] in Hr.
    erewrite bind_ok by (eapply on_error_ok; exact Hr).
    rewrite Hswitch.
    destruct (Hparse (bits_of 6 (ExtApciType child))) as [rb' Hp].
    { now rewrite length_bits_of. }
    erewrite bind_ok by (eapply on_error_ok; exact Hp). reflexivity.
Qed.

(** X8.  For an ApduDataExt with a child attached whose discriminator
    fits six bits and whose serializer writes [Child_LengthInBits] bits,
    the whole staying below 65536 bits: [LengthInBits()] is six more than
    the child's, and it is the number of bits [Serialize] writes. *)
Theorem ApduDataExt_LengthInBits_written (m : ApduDataExt C) (child : C) (w : list bool)
    (Hchild : Child C m = Some child)
    (Htype : is_uint 6 (ExtApciType child))
    (Hbits : 0 <= Child_LengthInBits child < 2 ^ 16 - 6)
    (Hw : Z.of_nat (List.length w) = Child_LengthInBits child)
    (Hser : forall wb, serializeChildFunction child wb
                       = (Ok tt, mkWriteBuffer (wb_bits wb ++ w))) :
  LengthInBits m = Ok (6 + Child_LengthInBits child) /\
  exists bits,
    serialized (Serialize m) = Ok bits /\
    LengthInBits m = Ok (Z.of_nat (List.length bits)).
Proof.
  assert (Hl : LengthInBits m = Ok (6 + Child_LengthInBits child)).
  { unfold LengthInBits. rewrite Hchild. f_equal. unfold uint16.
    change ((0 mod 2 ^ 16 + 6) mod 2 ^ 16) with 6.
    rewrite (Z.mod_small (Child_LengthInBits child)) by lia.
    apply Z.mod_small. lia. }
  split; [exact Hl|].
  exists (bits_of 6 (ExtApciType child) ++ w). split.
  - unfold serialized, Serialize. rewrite Hchild.
    unfold Child_Serialize, SerializeParent.
    rewrite uint8_id
      by (unfold is_uint in *; change (Z.of_nat 6) with 6 in Htype;
          change (Z.of_nat 8) with 8; lia).
    erewrite bind_ok by (eapply on_error_ok; apply WriteUint_ok; exact Htype).
    erewrite on_error_ok by apply Hser. reflexivity.
  - rewrite Hl. f_equal. rewrite length_app, length_bits_of, Nat2Z.inj_add, Hw. lia.
Qed.

End ApduDataExtMore.

Lemma ApduDataExt_roundtrip_witness :
  exists bits,
    serialized (ApduDataExtSerialize.Serialize (ApduDataExt.mkApduDataExt Z (Some 0x2A)))
    = Ok bits /\
    take 6 bits = utils.bits_of 6 0x11 /\
    parsed (ApduDataExt.ApduDataExtParse Z Examples.subTypeParse Examples.subTypeParseLength 0)
           bits
    = Ok (ApduDataExt.mkApduDataExt Z (Some 0x2A)).
Proof.
  apply (@ApduDataExt_roundtrip Z MoreExamples.Authorize_child
           Examples.subTypeParse Examples.subTypeParseLength
           (ApduDataExt.mkApduDataExt Z (Some 0x2A)) 0x2A 0 (utils.bits_of 8 0x2A)
           ApduDataExt.ApduDataExtAuthorizeRequest).
  - reflexivity.
  - intros wb. reflexivity.
  - reflexivity.
  - intros pre Hpre.
    assert (Hbyte : is_uint 8 0x2A) by (unfold is_uint; cbn; lia).
    pose proof (ReadUint_at 8 0x2A pre [] Hbyte) as Hr.
    rewrite Hpre, app_nil_r in Hr. eexists. exact Hr.
Defined.

Lemma ApduDataExt_LengthInBits_written_witness :
  ApduDataExtSerialize.LengthInBits (ApduDataExt.mkApduDataExt Z (Some 0x2A)) = Ok (6 + 8) /\
  exists bits,
    serialized (ApduDataExtSerialize.Serialize (ApduDataExt.mkApduDataExt Z (Some 0x2A)))
    = Ok bits /\
    ApduDataExtSerialize.LengthInBits (ApduDataExt.mkApduDataExt Z (Some 0x2A))
    = Ok (Z.of_nat (length bits)).
Proof.
  apply (@ApduDataExt_LengthInBits_written Z MoreExamples.Authorize_child
           (ApduDataExt.mkApduDataExt Z (Some 0x2A)) 0x2A (utils.bits_of 8 0x2A)).
  - reflexivity.
  - unfold is_uint. cbn. lia.
  - cbn. lia.
  - reflexivity.
  - intros wb. reflexivity.
Defined.

(** ** ApduControlContainer: parse after serialize *)

Section ApduControlContainerMore.
Import utils ApduControlContainer.
Variable ApduControl : Type.
Variable ApduControl_Serialize : ApduControl -> M WriteBuffer unit.
Variable ApduControlParse : M ReadBuffer ApduControl.

(** X9.  When [ApduControlParse] reads back what [ApduControl.Serialize]
    writes, [ApduControlContainerParse] reads back the container's own
    field from what the container's serializer writes; the parent fields
    of the parsed container are the zero values, and [InitializeParent]
    with the original ones restores the container. *)
Theorem ApduControlContainer_parse_after_ser
    (c : ApduControlContainer ApduControl) (pre w post : list bool)
    (Hser : ApduControl_Serialize (ControlApdu _ c) (mkWriteBuffer pre)
            = (Ok tt, mkWriteBuffer (pre ++ w)))
    (Hparse : ApduControlParse (mkReadBuffer (pre ++ w ++ post) (length pre))
              = (Ok (ControlApdu _ c),
                 mkReadBuffer (pre ++ w ++ post) (length pre + length w))) :
  ser _ ApduControl_Serialize c (mkWriteBuffer pre) = (Ok tt, mkWriteBuffer (pre ++ w)) /\
  exists c0,
    ApduControlContainerParse _ ApduControlParse
      (mkReadBuffer (pre ++ w ++ post) (length pre))
    = (Ok c0, mkReadBuffer (pre ++ w ++ post) (length pre + length w)) /\
    Numbered _ c0 = false /\ Counter _ c0 = 0 /\
    InitializeParent _ c0 (Numbered _ c) (Counter _ c) = c.
Proof.
  split.
  - unfold ser. now apply on_error_ok.
  - eexists. split; [|split; [|split]].
    + unfold ApduControlContainerParse.
      erewrite bind_ok by (eapply on_error_ok; exact Hparse). reflexivity.
    + reflexivity.
    + reflexivity.
    + unfold InitializeParent. now destruct c.
Qed.

End ApduControlContainerMore.

Lemma ApduControlContainer_parse_after_ser_witness :
  ApduControlContainer.ser _ Examples.ApduControl2_Serialize
    (ApduControlContainer.mkApduControlContainer Examples.ApduControl2 3 true 5)
    (utils.mkWriteBuffer [])
  = (Ok tt, utils.mkWriteBuffer ([] ++ [true; true])) /\
  exists c0,
    ApduControlContainer.ApduControlContainerParse _ (utils.ReadUint8 2)
      (utils.mkReadBuffer ([] ++ [true; true] ++ []) (length (@nil bool)))
    = (Ok c0, utils.mkReadBuffer ([] ++ [true; true] ++ [])
                (length (@nil bool) + length [true; true])) /\
    ApduControlContainer.Numbered _ c0 = false /\
    ApduControlContainer.Counter _ c0 = 0 /\
    ApduControlContainer.InitializeParent _ c0 true 5
    = ApduControlContainer.mkApduControlContainer Examples.ApduControl2 3 true 5.
Proof.
  apply (ApduControlContainer_parse_after_ser Examples.ApduControl2
           Examples.ApduControl2_Serialize (utils.ReadUint8 2)
           (ApduControlContainer.mkApduControlContainer Examples.ApduControl2 3 true 5)
           [] [true; true] []).
  - reflexivity.
  - reflexivity.
Defined.

(** ** The S7 message codec: what [Receive] takes from the carrier *)

Section ReceiveMore.
Import utils transports MessageCodec.
Variable COTPPacket : Type.
Variable COTPPacketParse : Z -> M ReadBuffer COTPPacket.

Local Abbreviation Receive := (Receive (list Z) Buffered COTPPacket COTPPacketParse).

Lemma packetSize_of_value (d4 d5 : Z) :
  is_uint 8 d4 -> is_uint 8 d5 -> packetSize_of d4 d5 = 256 * d4 + d5 + 6.
Proof.
  unfold is_uint. change (Z.of_nat 8) with 8. intros H4 H5.
  unfold packetSize_of, uint32. rewrite Z.shiftl_mul_pow2 by lia.
  rewrite (Z.mod_small d4), (Z.mod_small d5) by lia.
  rewrite (Z.mod_small (d4 * 2 ^ 8)) by lia.
  rewrite (Z.mod_small (d4 * 2 ^ 8 + d5)) by lia.
  rewrite Z.mod_small by lia. lia.
Qed.

(** X10.  For the two header bytes [d4], [d5] the packet size that
    [Receive] computes is [256*d4 + d5 + 6], without wrap-around, between
    6 and 65541; the length it hands to [COTPPacketParse] is that size as
    a [uint16], which is the size itself except for the six sizes from
    65536 on, where it is the size minus 65536. *)
Theorem packetSize_of_bounds (d4 d5 : Z) (H4 : is_uint 8 d4) (H5 : is_uint 8 d5) :
  packetSize_of d4 d5 = 256 * d4 + d5 + 6 /\
  6 <= packetSize_of d4 d5 <= 65541 /\
  (packetSize_of d4 d5 < 65536 -> uint16 (packetSize_of d4 d5) = packetSize_of d4 d5) /\
  (65536 <= packetSize_of d4 d5 ->
   d4 = 255 /\ 250 <= d5 /\
   uint16 (packetSize_of d4 d5) = packetSize_of d4 d5 - 65536).
Proof.
  rewrite (packetSize_of_value d4 d5 H4 H5).
  unfold is_uint in *. change (Z.of_nat 8) with 8 in *.
  split; [reflexivity|]. split; [lia|]. split.
  - intros Hsmall. unfold uint16. apply Z.mod_small. lia.
  - intros Hbig. split; [lia|]. split; [lia|].
    unfold uint16. symmetry. apply Z.mod_unique with (q := 1); lia.
Qed.

Lemma packetSize_of_bounds_witness :
  packetSize_of 255 255 = 256 * 255 + 255 + 6 /\
  6 <= packetSize_of 255 255 <= 65541 /\
  (packetSize_of 255 255 < 65536 -> uint16 (packetSize_of 255 255) = packetSize_of 255 255) /\
  (65536 <= packetSize_of 255 255 ->
   255 = 255 /\ 250 <= 255 /\
   uint16 (packetSize_of 255 255) = packetSize_of 255 255 - 65536).
Proof.
  apply (packetSize_of_bounds 255 255).
  - unfold is_uint. cbn. lia.
  - unfold is_uint. cbn. lia.
Defined.

Lemma packetSize_bytes (buf : list Z) :
  Forall (is_uint 8) buf -> 6 <= Z.of_nat (length buf) ->
  6 <= packetSize buf <= 65541.
Proof.
  intros Hbytes Hlen. unfold packetSize.
  assert (H4 : is_uint 8 (buf !!! 4%nat)).
  { eapply Forall_lookup_1; [exact Hbytes|]. apply lookup_total_Some. lia. }
  assert (H5 : is_uint 8 (buf !!! 5%nat)).
  { eapply Forall_lookup_1; [exact Hbytes|]. apply lookup_total_Some. lia. }
  rewrite (packetSize_of_value _ _ H4 H5).
  unfold is_uint in H4, H5. change (Z.of_nat 8) with 8 in H4, H5. lia.
Qed.

(** X11.  A packet that does not parse is lost: when the carrier holds a
    complete packet and [COTPPacketParse] fails on it, [Receive] reports
    nothing (no message and no error), and the bytes of the packet are
    gone from the carrier. *)
Theorem Receive_parse_failure_drops_packet (buf : list Z) (err : error)
    (Hbytes : Forall (is_uint 8) buf)
    (Hheader : 6 <= Z.of_nat (length buf))
    (Hcomplete : packetSize buf <= Z.of_nat (length buf))
    (Hfail : fst (COTPPacketParse (uint16 (packetSize buf))
                    (NewReadBuffer (take (Z.to_nat (packetSize buf)) buf))) = Err err) :
  Receive buf = (Ok None, drop (Z.to_nat (packetSize buf)) buf) /\
  Z.of_nat (length (drop (Z.to_nat (packetSize buf)) buf))
  = Z.of_nat (length buf) - packetSize buf /\
  (length (drop (Z.to_nat (packetSize buf)) buf) < length buf)%nat.
Proof.
  pose proof (packetSize_bytes buf Hbytes Hheader) as Hps.
  split; [|split].
  - rewrite Receive_peek by exact Hheader.
    rewrite decide_False by lia. now rewrite Hfail.
  - rewrite length_drop. lia.
  - rewrite length_drop. lia.
Qed.

(** X12.  [Receive] takes bytes only from the front of the carrier, and
    either none or exactly the packet size it computed; a message it
    returns is the parse of exactly the bytes it took. *)
Theorem Receive_consumes_prefix (buf buf' : list Z) (r : result (option COTPPacket))
    (Hbytes : Forall (is_uint 8) buf)
    (Hreceive : Receive buf = (r, buf')) :
  exists consumed,
    buf = consumed ++ buf' /\
    (consumed = [] \/ Z.of_nat (length consumed) = packetSize buf) /\
    (consumed = [] -> r = Ok None) /\
    (forall msg, r = Ok (Some msg) ->
       Z.of_nat (length consumed) = packetSize buf /\
       fst (COTPPacketParse (uint16 (packetSize buf)) (NewReadBuffer consumed)) = Ok msg).
Proof.
  destruct (decide (Z.of_nat (length buf) < 6)) as [Hshort|Hlong].
  - rewrite Receive_short in Hreceive by exact Hshort.
    injection Hreceive as <- <-. exists [].
    split; [reflexivity|]. split; [now left|]. split; [reflexivity|].
    intros msg Hmsg. discriminate Hmsg.
  - rewrite Receive_peek in Hreceive by lia.
    pose proof (packetSize_bytes buf Hbytes ltac:(lia)) as Hps.
    destruct (decide (Z.of_nat (length buf) < packetSize buf)) as [Hpart|Hfull].
    + injection Hreceive as <- <-. exists [].
      split; [reflexivity|]. split; [now left|]. split; [reflexivity|].
      intros msg Hmsg. discriminate Hmsg.
    + exists (take (Z.to_nat (packetSize buf)) buf).
      assert (Hl : Z.of_nat (length (take (Z.to_nat (packetSize buf)) buf)) = packetSize buf)
        by (rewrite length_take; lia).
      assert (Hne : take (Z.to_nat (packetSize buf)) buf <> []).
      { intros Hnil. rewrite Hnil in Hl. cbn in Hl. lia. }
      destruct (fst (COTPPacketParse _ _)) as [msg|e|p] eqn:Hp;
        injection Hreceive as <- <-;
        (split; [now rewrite take_drop|]); (split; [now right|]);
        (split; [intros Hnil; now destruct Hne|]);
        intros msg' Hmsg; try discriminate Hmsg.
      injection Hmsg as <-. auto.
Qed.


End ReceiveMore.

Lemma Receive_parse_failure_drops_packet_witness :
  MessageCodec.Receive (list Z) transports.Buffered (list bool) MoreExamples.RejectingParse
    (Examples.framed_8 ++ [0x03])
  = (Ok None, drop (Z.to_nat (MessageCodec.packetSize (Examples.framed_8 ++ [0x03])))
                (Examples.framed_8 ++ [0x03])) /\
  Z.of_nat (length (drop (Z.to_nat (MessageCodec.packetSize (Examples.framed_8 ++ [0x03])))
                      (Examples.framed_8 ++ [0x03])))
  = Z.of_nat (length (Examples.framed_8 ++ [0x03]))
    - MessageCodec.packetSize (Examples.framed_8 ++ [0x03]) /\
  (length (drop (Z.to_nat (MessageCodec.packetSize (Examples.framed_8 ++ [0x03%Z])))
             (Examples.framed_8 ++ [0x03%Z]))
   < length (Examples.framed_8 ++ [0x03%Z]))%nat.
Proof.
  apply (Receive_parse_failure_drops_packet (list bool) MoreExamples.RejectingParse
           (Examples.framed_8 ++ [0x03]) (errors_Kind PROTOCOL_VIOLATION)).
  - unfold is_uint. repeat constructor; cbn; lia.
  - cbn. lia.
  - vm_compute. discriminate.
  - reflexivity.
Defined.

Lemma Receive_consumes_prefix_witness :
  exists consumed,
    Examples.framed_8 ++ [0x03; 0x00] = consumed ++ [0x03; 0x00] /\
    (consumed = [] \/
     Z.of_nat (length consumed) = MessageCodec.packetSize (Examples.framed_8 ++ [0x03; 0x00])) /\
    (consumed = [] -> Ok (Some (utils.bits_of_bytes Examples.framed_8)) = Ok None) /\
    (forall msg, Ok (Some (utils.bits_of_bytes Examples.framed_8)) = Ok (Some msg) ->
       Z.of_nat (length consumed) = MessageCodec.packetSize (Examples.framed_8 ++ [0x03; 0x00]) /\
       fst (Examples.COTPPacketParse
              (uint16 (MessageCodec.packetSize (Examples.framed_8 ++ [0x03; 0x00])))
              (utils.NewReadBuffer consumed)) = Ok msg).
Proof.
  apply (Receive_consumes_prefix (list bool) Examples.COTPPacketParse
           (Examples.framed_8 ++ [0x03; 0x00]) [0x03; 0x00]
           (Ok (Some (utils.bits_of_bytes Examples.framed_8)))).
  - unfold is_uint. repeat constructor; cbn; lia.
  - reflexivity.
Defined.


Section ReceivePanics.
Import utils transports MessageCodec.
Variable T : Type.
Variable TI : TransportInstance T.
Variable COTPPacket : Type.
Variable COTPPacketParse : Z -> M ReadBuffer COTPPacket.

(** X14.  [Receive] relies on the carrier to deliver the six bytes it
    peeks: when [PeekReadableBytes(6)] returns fewer than six bytes
    without an error, indexing byte 4 or 5 panics. *)
Theorem Receive_short_peek_panics (t t1 t2 : T) (num : Z) (data : list Z)
    (Hnum : GetNumReadableBytes TI t = (Ok num, t1))
    (Henough : num >= 6)
    (Hpeek : PeekReadableBytes TI 6 t1 = (Ok data, t2))
    (Hshort : (length data < 6)%nat) :
  Receive T TI COTPPacket COTPPacketParse t = (Panic "index out of range", t2).
Proof.
  unfold Receive. rewrite Hnum, decide_True by exact Henough. rewrite Hpeek.
  destruct (data !! 4%nat) as [d4|] eqn:H4; [|reflexivity].
  rewrite (lookup_ge_None_2 data 5) by lia. reflexivity.
Qed.

End ReceivePanics.

Lemma Receive_short_peek_panics_witness :
  MessageCodec.Receive unit MoreExamples.ShortPeek (list bool) Examples.COTPPacketParse tt
  = (Panic "index out of range", tt).
Proof.
  apply (Receive_short_peek_panics unit MoreExamples.ShortPeek (list bool)
           Examples.COTPPacketParse tt tt tt 6 [0x03; 0x00; 0x00; 0x16; 0x11]).
  - reflexivity.
  - lia.
  - reflexivity.
  - cbn. lia.
Defined.

(** ** The S7 driver: a driver context that cannot be built *)

Section S7More.
Variables Transport PlcConnection TransportInstance MessageCodec
          Configuration DriverContext Connection : Type.
Variables URL_GoString URL_String : URL -> string.

Local Abbreviation Call_ :=
  (S7Call Transport PlcConnection TransportInstance MessageCodec
          Configuration DriverContext Connection).
Local Abbreviation GetConnection :=
  (s7_GetConnection Transport PlcConnection TransportInstance MessageCodec
                    Configuration DriverContext Connection URL_GoString URL_String).
Local Abbreviation steps :=
  (steps Transport PlcConnection TransportInstance MessageCodec
         Configuration DriverContext Connection).

(** X15.  The error [NewDriverContext] returns is never looked at: when
    the transport is found, the transport instance is created and the
    options parse, a failing [NewDriverContext] does not stop
    [GetConnection]; [NewConnection] is called with whatever context came
    back, [Connect] is called, and the channel returned is [Connect]'s. *)
Theorem s7_GetConnection_ignores_driver_context_error
    (env : Env Call_) (transportUrl : URL) (transports : gmap string Transport)
    (options : Options) (transport : Transport) (transportInstance : TransportInstance)
    (configuration : Configuration) (driverContext : DriverContext) (err : error)
    (Hlookup : transports !! Scheme transportUrl = Some transport)
    (Hcreate : env _ (CreateTransportInstance _ _ _ _ _ _ _ transport transportUrl
                        (<["defaultTcpPort" := ["102"]]> options)) = inl transportInstance)
    (Hparse : env _ (ParseFromOptions _ _ _ _ _ _ _ (<["defaultTcpPort" := ["102"]]> options))
              = inl configuration)
    (Hcontext : env _ (NewDriverContext _ _ _ _ _ _ _ configuration)
                = (driverContext, Some err)) :
  steps env (GetConnection transportUrl transports options)
  = [StepCreateTransportInstance; StepNewMessageCodec; StepParseFromOptions;
     StepNewDriverContext; StepNewConnection; StepConnect] /\
  fst (result_of env (GetConnection transportUrl transports options))
  = env _ (Connect _ _ _ _ _ _ _
             (env _ (NewConnection _ _ _ _ _ _ _
                       (env _ (NewMessageCodec _ _ _ _ _ _ _ transportInstance))
                       configuration driverContext))).
Proof.
  unfold steps, calls_of, result_of, s7_GetConnection.
  rewrite Hlookup. cbn [run]. rewrite Hcreate. cbn [run].
  rewrite Hparse. cbn [run]. rewrite Hcontext. cbn. split; reflexivity.
Qed.

End S7More.

Lemma s7_GetConnection_ignores_driver_context_error_witness :
  steps _ _ _ _ _ _ _ Examples.env_no_driver_context Examples.s7_GetConnection
  = [StepCreateTransportInstance; StepNewMessageCodec; StepParseFromOptions;
     StepNewDriverContext; StepNewConnection; StepConnect] /\
  fst (result_of Examples.env_no_driver_context Examples.s7_GetConnection)
  = Examples.connected.
Proof.
  apply (s7_GetConnection_ignores_driver_context_error unit unit unit unit unit unit unit
           (fun u => Scheme u) (fun u => Scheme u +:+ "://" +:+ Host u)
           Examples.env_no_driver_context Examples.tcp_url (<["tcp" := tt]> ∅) ∅
           tt tt tt tt (errors_New "no driver context")).
  - reflexivity.
  - reflexivity.
  - reflexivity.
  - reflexivity.
Defined.

(** ** The driver manager: listing, transports, order of registration *)

Section ManagerMore.
Variable Transport : Type.
Variable PlcConnection : Type.
Variable GetTransportCode : Transport -> string.
Variable url_Parse : string -> URL + error.
Variable url_Query : URL -> Options.

Local Abbreviation Manager := (PlcDriverManger Transport).
Local Abbreviation RegisterDriver := (RegisterDriver Transport).
Local Abbreviation RegisterTransport := (RegisterTransport Transport GetTransportCode).
Local Abbreviation GetDriver := (GetDriver Transport).
Local Abbreviation GetTransport := (GetTransport Transport).
Local Abbreviation ListDriverNames := (ListDriverNames Transport).
Local Abbreviation ListTransportNames := (ListTransportNames Transport).
Local Abbreviation GetConnection :=
  (GetConnection Transport PlcConnection url_Parse url_Query).
Local Abbreviation register_all := (register_all Transport GetTransportCode).
Local Abbreviation register := (register Transport GetTransportCode).

Lemma elem_of_keys {V} (m : gmap string V) (name : string) :
  name ∈ (fst <$> map_to_list m) <-> is_Some (m !! name).
Proof.
  rewrite list_elem_of_fmap. split.
  - intros ([k v] & -> & Hin). apply elem_of_map_to_list in Hin. eauto.
  - intros [v Hv]. exists (name, v). split; [reflexivity|].
    now apply elem_of_map_to_list.
Qed.

(** X16.  [ListDriverNames] lists exactly the protocol codes for which
    [GetDriver] succeeds, each of them once; and [ListTransportNames]
    does the same for [GetTransport]. *)
Theorem ListDriverNames_exact (m : Manager) :
  (forall name, name ∈ ListDriverNames m <-> exists d, GetDriver m name = Ok d) /\
  NoDup (ListDriverNames m) /\
  length (ListDriverNames m) = size (drivers _ m) /\
  (forall name, name ∈ ListTransportNames m <-> exists t, GetTransport m name = Ok t) /\
  NoDup (ListTransportNames m).
Proof.
  split; [|split; [|split; [|split]]].
  - intros name. unfold ListDriverNames, GetDriver. rewrite elem_of_keys.
    destruct (drivers _ m !! name) as [d|]; split.
    + intros _. eauto.
    + intros _. eauto.
    + intros [? Hx]. discriminate Hx.
    + intros [d Hd]. discriminate Hd.
  - apply NoDup_fst_map_to_list.
  - unfold ListDriverNames. now rewrite length_fmap, length_map_to_list.
  - intros name. unfold ListTransportNames, GetTransport. rewrite elem_of_keys.
    destruct (transports _ m !! name) as [t|]; split.
    + intros _. eauto.
    + intros _. eauto.
    + intros [? Hx]. discriminate Hx.
    + intros [t Ht]. discriminate Ht.
  - apply NoDup_fst_map_to_list.
Qed.

Lemma RegisterTransport_taken (m : Manager) (t : Transport) :
  is_Some (transports _ m !! GetTransportCode t) -> RegisterTransport (Some t) m = Ok m.
Proof.
  intros Ht. unfold RegisterTransport.
  now rewrite (proj2 (range_has_key_lookup _ _) Ht).
Qed.

Lemma RegisterTransport_new (m : Manager) (t : Transport) :
  transports _ m !! GetTransportCode t = None ->
  RegisterTransport (Some t) m
  = Ok (mkPlcDriverManger _ (drivers _ m) (<[GetTransportCode t := t]> (transports _ m))).
Proof.
  intros Ht. unfold RegisterTransport.
  now rewrite (proj2 (range_has_key_None _ _) Ht).
Qed.

Lemma register_keeps_transport (op : Registration Transport) (m : Manager)
    (code : string) (t : Transport) :
  transports _ m !! code = Some t -> transports _ (register op m) !! code = Some t.
Proof.
  intros Ht. unfold register. destruct op as [d|t'].
  - unfold RegisterDriver.
    destruct (range_has_key (drivers _ m) (GetProtocolCode d)); exact Ht.
  - unfold RegisterTransport.
    destruct (range_has_key (transports _ m) (GetTransportCode t')) eqn:Hkey; [exact Ht|].
    cbn [transports]. apply range_has_key_None in Hkey.
    rewrite lookup_insert_ne; [exact Ht|].
    intros Heq. rewrite Heq in Hkey. congruence.
Qed.

Lemma register_all_keeps_transport (ops : list (Registration Transport)) (m : Manager)
    (code : string) (t : Transport) :
  transports _ m !! code = Some t -> transports _ (register_all ops m) !! code = Some t.
Proof.
  revert m. induction ops as [|op ops IH]; intros m Ht; [exact Ht|].
  cbn. apply IH. now apply register_keeps_transport.
Qed.

(** X17.  The transports are registered as the drivers are, in every
    manager, the one of [NewPlcDriverManager] included: registering under
    a transport code that is taken changes nothing; a transport [t]
    registered under a new code is what [GetTransport] returns for that
    code, also after any further registrations, and its registration
    leaves the other transports and the drivers as they were. *)
Theorem RegisterTransport_idempotent
    (m : Manager) (t : Transport) (ops : list (Registration Transport)) :
  (is_Some (transports _ m !! GetTransportCode t) -> RegisterTransport (Some t) m = Ok m) /\
  (transports _ m !! GetTransportCode t = None ->
   exists m',
     RegisterTransport (Some t) m = Ok m' /\
     GetTransport m' (GetTransportCode t) = Ok t /\
     (forall code, code <> GetTransportCode t -> GetTransport m' code = GetTransport m code) /\
     GetTransport (register_all ops m') (GetTransportCode t) = Ok t /\
     drivers _ m' = drivers _ m).
Proof.
  split; [apply RegisterTransport_taken|].
  intros Hnew.
  eexists. split; [now apply RegisterTransport_new|].
  assert (Ht : transports _ (mkPlcDriverManger Transport (drivers _ m)
                               (<[GetTransportCode t := t]> (transports _ m)))
               !! GetTransportCode t = Some t)
    by (cbn [transports]; apply lookup_insert_eq).
  split; [|split; [|split; [|reflexivity]]].
  - unfold GetTransport. now rewrite Ht.
  - intros code Hcode. unfold GetTransport. cbn [transports].
    now rewrite lookup_insert_ne by congruence.
  - unfold GetTransport. now rewrite (register_all_keeps_transport ops _ _ _ Ht).
Qed.

(** X18.  Drivers with different protocol codes can be registered in
    either order, with the same manager as the result; of two drivers
    with the same protocol code the one registered first stays, the
    second registration having no effect. *)
Theorem RegisterDriver_order (m : Manager) (d1 d2 : PlcDriver) :
  (GetProtocolCode d1 <> GetProtocolCode d2 ->
   register_all [DoRegisterDriver _ d1; DoRegisterDriver _ d2] m
   = register_all [DoRegisterDriver _ d2; DoRegisterDriver _ d1] m) /\
  (GetProtocolCode d1 = GetProtocolCode d2 ->
   register_all [DoRegisterDriver _ d1; DoRegisterDriver _ d2] m
   = register_all [DoRegisterDriver _ d1] m).
Proof.
  assert (Hreg : forall d m0,
            register (DoRegisterDriver _ d) m0
            = match drivers _ m0 !! GetProtocolCode d with
              | Some _ => m0
              | None => mkPlcDriverManger _ (<[GetProtocolCode d := d]> (drivers _ m0))
                                          (transports _ m0)
              end).
  { intros d m0. unfold register.
    destruct (drivers _ m0 !! GetProtocolCode d) as [d0|] eqn:Hd.
    - rewrite RegisterDriver_taken; [reflexivity|]. rewrite Hd. eauto.
    - now rewrite RegisterDriver_new. }
  split; intros Hcode; cbn [register_all fold_left]; rewrite !Hreg.
  - destruct (drivers _ m !! GetProtocolCode d1) as [a|] eqn:H1;
      destruct (drivers _ m !! GetProtocolCode d2) as [b|] eqn:H2;
      cbn [drivers transports];
      rewrite ?lookup_insert_ne by congruence; rewrite ?H1, ?H2; try reflexivity.
    f_equal. apply insert_insert_ne. congruence.
  - destruct (drivers _ m !! GetProtocolCode d1) as [a|] eqn:H1.
    + rewrite <- Hcode, H1. reflexivity.
    + cbn [drivers]. rewrite <- Hcode, lookup_insert_eq. reflexivity.
Qed.

(** X19.  In every manager, with or without drivers, a connection
    string that [url.Parse] rejects is reported as a single error result
    that wraps the parse error, without a call to any driver.  An opaque
    part that [url.Parse] rejects is not reported at all: with the driver
    found, [GetConnection] dereferences the nil URL it got back and
    panics. *)
Theorem GetConnection_parse_failures (m : Manager) :
  (forall (bad : string) (err : error),
     url_Parse bad = inr err ->
     GetConnection m bad
     = Return (Ok (single_shot _ (NewPlcConnectionConnectResult _ None
                     (Some (errors_Wrap err "error parsing connection string")))))) /\
  (forall (opaque : string) (u : URL) (driver : PlcDriver) (err' : error),
     url_Parse opaque = inl u ->
     GetDriver m (Scheme u) = Ok driver ->
     Opaque u <> "" ->
     url_Parse (Opaque u) = inr err' ->
     GetConnection m opaque = Return (Panic "nil pointer dereference")).
Proof.
  split.
  - intros bad err Hbad. unfold GetConnection. now rewrite Hbad.
  - intros opaque u driver err' Hparse Hdriver Hopaque Hinner.
    unfold GetConnection. rewrite Hparse, Hdriver.
    rewrite decide_True
      by (destruct (Opaque u); [congruence | cbn; lia]).
    now rewrite Hinner.
Qed.

(** X20.  [GetConnection] calls at most one driver, and only the one
    that is registered under the scheme of the connection string; it
    hands it the manager's transports, the options of the connection
    string, and a transport URL whose scheme is not empty. *)
Theorem GetConnection_calls (env : Env (ManagerCall Transport PlcConnection))
    (m : Manager) (connectionString : string) :
  (length (calls_of env (GetConnection m connectionString)) <= 1)%nat /\
  forall c, c ∈ calls_of env (GetConnection m connectionString) ->
    exists connectionUrl,
      url_Parse connectionString = inl connectionUrl /\
      GetDriver m (Scheme connectionUrl) = Ok (called_driver _ _ c) /\
      called_transports _ _ c = transports _ m /\
      called_options _ _ c = url_Query connectionUrl /\
      Scheme (called_transportUrl _ _ c) <> "" /\
      Opaque (called_transportUrl _ _ c) = "".
Proof.
  unfold GetConnection, calls_of.
  destruct (url_Parse connectionString) as [connectionUrl|err] eqn:Hparse.
  2: { cbn. split; [lia|]. intros c Hc. now apply elem_of_nil in Hc. }
  assert (Hnone : forall r : result (Channel PlcConnection),
            (length (run env (Return r : Prog (ManagerCall Transport PlcConnection) _)).1
             <= 1)%nat /\
            forall c, c ∈ (run env (Return r : Prog (ManagerCall Transport PlcConnection) _)).1 ->
              exists connectionUrl0,
                (inl connectionUrl : URL + error) = inl connectionUrl0 /\
                GetDriver m (Scheme connectionUrl0) = Ok (called_driver _ _ c) /\
                called_transports _ _ c = transports _ m /\
                called_options _ _ c = url_Query connectionUrl0 /\
                Scheme (called_transportUrl _ _ c) <> "" /\
                Opaque (called_transportUrl _ _ c) = "").
  { intros r. cbn. split; [lia|]. intros c Hc. now apply elem_of_nil in Hc. }
  destruct (GetDriver m (Scheme connectionUrl)) as [driver|e|r] eqn:Hdriver;
    [|apply Hnone|apply Hnone].
  assert (Hfinish : forall transportName transportHost,
            let p := (if decide (transportName = "")
                      then Return (Ok (single_shot PlcConnection
                             (NewPlcConnectionConnectResult _ None
                                (Some (errors_New "no transport specified and no default defined by driver")))))
                      else Call (Driver_GetConnection Transport PlcConnection driver
                                   (mkURL transportName "" transportHost "")
                                   (transports _ m) (url_Query connectionUrl))
                                (fun ch => Return (Ok ch))) in
            (length (run env p).1 <= 1)%nat /\
            forall c, c ∈ (run env p).1 ->
              exists connectionUrl0,
                (inl connectionUrl : URL + error) = inl connectionUrl0 /\
                GetDriver m (Scheme connectionUrl0) = Ok (called_driver _ _ c) /\
                called_transports _ _ c = transports _ m /\
                called_options _ _ c = url_Query connectionUrl0 /\
                Scheme (called_transportUrl _ _ c) <> "" /\
                Opaque (called_transportUrl _ _ c) = "").
  { intros transportName transportHost p. subst p.
    destruct (decide (transportName = "")) as [Hempty|Hname]; [apply Hnone|].
    cbn. split; [lia|]. intros c Hc. apply list_elem_of_singleton in Hc. subst c.
    exists connectionUrl. cbn. repeat split; auto. }
  cbv zeta.
  destruct (decide (0 < String.length (Opaque connectionUrl))%nat) as [Hopaque|Hplain].
  - destruct (url_Parse (Opaque connectionUrl)) as [inner|err]; [apply Hfinish|apply Hnone].
  - apply Hfinish.
Qed.

End ManagerMore.

Lemma RegisterDriver_order_witness :
  register_all unit Examples.TcpTransportCode
    [DoRegisterDriver unit Examples.modbus_Driver; DoRegisterDriver unit MoreExamples.knx_Driver]
    Examples.manager
  = register_all unit Examples.TcpTransportCode
      [DoRegisterDriver unit MoreExamples.knx_Driver; DoRegisterDriver unit Examples.modbus_Driver]
      Examples.manager /\
  register_all unit Examples.TcpTransportCode
    [DoRegisterDriver unit Examples.modbus_Driver;
     DoRegisterDriver unit (mkPlcDriver "modbus" "Another Modbus" "udp" true)]
    Examples.manager
  = register_all unit Examples.TcpTransportCode
      [DoRegisterDriver unit Examples.modbus_Driver] Examples.manager.
Proof.
  split.
  - apply (proj1 (RegisterDriver_order unit Examples.TcpTransportCode Examples.manager
                    Examples.modbus_Driver MoreExamples.knx_Driver)).
    discriminate.
  - apply (proj2 (RegisterDriver_order unit Examples.TcpTransportCode Examples.manager
                    Examples.modbus_Driver
                    (mkPlcDriver "modbus" "Another Modbus" "udp" true))).
    reflexivity.
Defined.

Lemma GetConnection_calls_witness :
  let p := GetConnection unit unit Examples.url_Parse Examples.url_Query Examples.manager
             "s7:tcp://10.0.0.1:102?rack=0&slot=1" in
  exists c,
    calls_of MoreExamples.env_driver p = [c] /\
    exists connectionUrl,
      Examples.url_Parse "s7:tcp://10.0.0.1:102?rack=0&slot=1" = inl connectionUrl /\
      GetDriver unit Examples.manager (Scheme connectionUrl) = Ok (called_driver _ _ c) /\
      called_transports _ _ c = transports _ Examples.manager /\
      called_options _ _ c = Examples.url_Query connectionUrl /\
      Scheme (called_transportUrl _ _ c) <> "" /\
      Opaque (called_transportUrl _ _ c) = "".
Proof.
  intros p.
  exists (existT _ (Driver_GetConnection unit unit s7_Driver
                      (mkURL "tcp" "" "10.0.0.1:102" "") (transports _ Examples.manager)
                      (<["rack" := ["0"]]> (<["slot" := ["1"]]> ∅)))).
  split; [reflexivity|].
  apply (proj2 (GetConnection_calls unit unit Examples.url_Parse Examples.url_Query
                  MoreExamples.env_driver Examples.manager
                  "s7:tcp://10.0.0.1:102?rack=0&slot=1")).
  left.
Defined.

Lemma RegisterTransport_idempotent_witness :
  (exists m',
     RegisterTransport string MoreExamples.TransportName (Some "tcp")
       (NewPlcDriverManager string) = Ok m' /\
     GetTransport string m' "tcp" = Ok "tcp" /\
     (forall code, code <> "tcp" ->
                   GetTransport string m' code
                   = GetTransport string (NewPlcDriverManager string) code) /\
     GetTransport string
       (register_all string MoreExamples.TransportName
          [DoRegisterDriver string Examples.modbus_Driver; DoRegisterTransport string "udp";
           DoRegisterTransport string "tcp"] m')
       "tcp" = Ok "tcp" /\
     drivers string m' = drivers string (NewPlcDriverManager string)) /\
  RegisterTransport string MoreExamples.TransportName (Some "tcp") MoreExamples.named_manager
  = Ok MoreExamples.named_manager.
Proof.
  split.
  - apply (proj2 (RegisterTransport_idempotent string MoreExamples.TransportName
                    (NewPlcDriverManager string) "tcp"
                    [DoRegisterDriver string Examples.modbus_Driver;
                     DoRegisterTransport string "udp"; DoRegisterTransport string "tcp"])).
    reflexivity.
  - apply (proj1 (RegisterTransport_idempotent string MoreExamples.TransportName
                    MoreExamples.named_manager "tcp" [])).
    exists "tcp". reflexivity.
Defined.

Lemma GetConnection_parse_failures_witness :
  GetConnection unit unit MoreExamples.url_Parse Examples.url_Query (NewPlcDriverManager unit)
    "%zz"
  = Return (Ok (single_shot _ (NewPlcConnectionConnectResult _ None
                  (Some (errors_Wrap (errors_New "parse %zz: invalid URL escape %zz")
                           "error parsing connection string"))))) /\
  GetConnection unit unit MoreExamples.url_Parse Examples.url_Query Examples.manager "s7:%zz"
  = Return (Panic "nil pointer dereference").
Proof.
  split.
  - apply (proj1 (GetConnection_parse_failures unit unit MoreExamples.url_Parse
                    Examples.url_Query (NewPlcDriverManager unit))).
    reflexivity.
  - apply (proj2 (GetConnection_parse_failures unit unit MoreExamples.url_Parse
                    Examples.url_Query Examples.manager)
             "s7:%zz" (mkURL "s7" "%zz" "" "") s7_Driver
             (errors_New "parse %zz: invalid URL escape %zz")).
    + reflexivity.
    + reflexivity.
    + discriminate.
    + reflexivity.
Defined.

(** ** The driver manager in front of the S7 driver *)

Section LinkFacts.
Variables Transport PlcConnection TransportInstance MessageCodec
          Configuration DriverContext Connection : Type.
Variables URL_GoString URL_String : URL -> string.
Variable url_Parse : string -> URL + error.
Variable url_Query : URL -> Options.

Local Abbreviation Call_ :=
  (S7Call Transport PlcConnection TransportInstance MessageCodec
          Configuration DriverContext Connection).
Local Abbreviation s7_GetConnection :=
  (s7_GetConnection Transport PlcConnection TransportInstance MessageCodec
                    Configuration DriverContext Connection URL_GoString URL_String).
Local Abbreviation by_s7_Driver :=
  (by_s7_Driver Transport PlcConnection TransportInstance MessageCodec
                Configuration DriverContext Connection URL_GoString URL_String).
Local Abbreviation GetConnection :=
  (GetConnection Transport PlcConnection url_Parse url_Query).

Lemma run_Prog_bind {E : Type -> Type} {R S : Type} (env : Env E) (p : Prog E R)
    (k : R -> Prog E S) :
  run env (Prog_bind p k)
  = (fst (run env p) ++ fst (run env (k (snd (run env p)))),
     snd (run env (k (snd (run env p))))).
Proof.
  induction p as [r|X e c IH].
  - cbn. now destruct (run env (k r)).
  - cbn. rewrite IH. destruct (run env (c (env X e))) as [calls r]. reflexivity.
Qed.

(** X21.  A connection string with the scheme [s7] and no transport of
    its own, given to a manager in which the S7 driver and a [tcp]
    transport are registered, reaches the S7 driver with the transport URL
    [tcp://host]: the calls made are those of the driver's
    [GetConnection] for that URL, the first of them creates the transport
    instance from the registered [tcp] transport with [defaultTcpPort]
    set to [102] in the options of the connection string, and the channel
    returned is the driver's. *)
Theorem GetConnection_through_s7_Driver
    (env : Env Call_) (m : PlcDriverManger Transport) (connectionString : string)
    (connectionUrl : URL) (tcp : Transport)
    (Hparse : url_Parse connectionString = inl connectionUrl)
    (Hscheme : Scheme connectionUrl = "s7")
    (Hopaque : Opaque connectionUrl = "")
    (Hdriver : drivers _ m !! "s7" = Some s7_Driver)
    (Htcp : transports _ m !! "tcp" = Some tcp) :
  let linked := interp by_s7_Driver (GetConnection m connectionString) in
  let transportUrl := mkURL "tcp" "" (Host connectionUrl) "" in
  let direct := s7_GetConnection transportUrl (transports _ m) (url_Query connectionUrl) in
  calls_of env linked = calls_of env direct /\
  result_of env linked = Ok (fst (result_of env direct)) /\
  hd_error (calls_of env linked)
  = Some (existT _ (CreateTransportInstance _ _ _ _ _ _ _ tcp transportUrl
                      (<["defaultTcpPort" := ["102"]]> (url_Query connectionUrl)))).
Proof.
  intros linked transportUrl direct.
  assert (Hlinked : linked
                    = Prog_bind (Prog_bind direct (fun r => Return (fst r)))
                                (fun ch => Return (Ok ch))).
  { subst linked direct transportUrl. unfold GetConnection, GetDriver.
    rewrite Hparse, Hscheme, Hdriver, Hopaque. reflexivity. }
  assert (Hcalls : calls_of env linked = calls_of env direct).
  { unfold calls_of. rewrite Hlinked, !run_Prog_bind. cbn. now rewrite !app_nil_r. }
  split; [exact Hcalls|]. split.
  - unfold result_of. rewrite Hlinked, !run_Prog_bind. reflexivity.
  - rewrite Hcalls. subst direct. unfold calls_of, s7_GetConnection.
    cbn [Scheme transportUrl]. rewrite Htcp. cbn [run].
    destruct (run env _) as [calls r]. reflexivity.
Qed.

End LinkFacts.

Lemma GetConnection_through_s7_Driver_witness :
  let linked :=
    interp (by_s7_Driver unit unit unit unit unit unit unit
              (fun u => Scheme u) (fun u => Scheme u +:+ "://" +:+ Host u))
           (GetConnection unit unit Examples.url_Parse Examples.url_Query Examples.manager
              "s7://10.0.0.1") in
  calls_of Examples.env_ok linked = calls_of Examples.env_ok Examples.s7_GetConnection /\
  result_of Examples.env_ok linked = Ok Examples.connected /\
  hd_error (calls_of Examples.env_ok linked)
  = Some (existT _ (CreateTransportInstance _ _ _ _ _ _ _ tt Examples.tcp_url
                      (<["defaultTcpPort" := ["102"]]> ∅))).
Proof.
  apply (GetConnection_through_s7_Driver unit unit unit unit unit unit unit
           (fun u => Scheme u) (fun u => Scheme u +:+ "://" +:+ Host u)
           Examples.url_Parse Examples.url_Query Examples.env_ok Examples.manager
           "s7://10.0.0.1" (mkURL "s7" "" "10.0.0.1" "") tt).
  - reflexivity.
  - reflexivity.
  - reflexivity.
  - reflexivity.
  - reflexivity.
Defined.

(** ** The driver manager: discovery *)

Section DiscoverFacts.
Variable Transport : Type.
Variable Callback : Type.

Local Abbreviation Discover_over := (Discover_over Callback).
Local Abbreviation Call_ := (DiscoverCall Callback).

(** X22.  Whatever the order in which the drivers are visited, the
    drivers [Discover] calls are an initial part of the visited drivers
    that support discovery, in the order of the visit; it returns nil only
    after it has called every one of them; and an error it returns is the
    error of the last driver it called, wrapped with that driver's name,
    so that no driver is called after the one that failed. *)
Theorem Discover_over_calls (env : Env Call_) (ds : list PlcDriver) (callback : Callback) :
  let p := Discover_over ds callback in
  let called := discover_driver Callback <$> calls_of env p in
  called `prefix_of` List.filter SupportsDiscovery ds /\
  (result_of env p = Ok tt -> called = List.filter SupportsDiscovery ds) /\
  (forall e, result_of env p = Err e ->
     exists driver cause,
       last called = Some driver /\
       env _ (Driver_Discover Callback driver callback) = Err cause /\
       e = errors_Wrap cause ("Error running Discover on driver "
                              +:+ GetProtocolName driver)).
Proof.
  induction ds as [|driver rest IH].
  - cbn. split; [reflexivity|]. split; [reflexivity|]. intros e He. discriminate He.
  - cbn [Discover_over List.filter].
    destruct (SupportsDiscovery driver); [|exact IH].
    cbv zeta in IH |- *. unfold calls_of, result_of in *. cbn [run].
    destruct (env _ (Driver_Discover Callback driver callback)) as [[]|cause|r] eqn:Henv.
    + destruct (run env (Discover_over rest callback)) as [calls res].
      cbn [fst snd fmap list_fmap discover_driver projT2] in *.
      destruct IH as (Hprefix & Hok & Herr).
      split; [now apply prefix_cons|]. split.
      * intros Hres. now rewrite (Hok Hres).
      * intros e He. destruct (Herr e He) as (d & c & Hlast & Hd & ->).
        exists d, c. split; [|auto].
        destruct (discover_driver Callback <$> calls); [discriminate Hlast | exact Hlast].
    + cbn. split; [apply prefix_cons, prefix_nil|]. split; [discriminate|].
      intros e He. injection He as <-. exists driver, cause. auto.
    + cbn. split; [apply prefix_cons, prefix_nil|]. split; [discriminate|].
      intros e He. discriminate He.
Qed.

(** X23.  A manager none of whose drivers supports discovery answers
    [Discover] with nil and calls no driver; so the S7 driver, which does
    not support discovery, is never asked to discover. *)
Theorem Discover_without_support (m : PlcDriverManger Transport) (callback : Callback)
    (Hnone : forall code driver,
               drivers _ m !! code = Some driver -> SupportsDiscovery driver = false) :
  Discover Transport Callback m callback = Return (Ok tt).
Proof.
  unfold Discover.
  assert (Hall : Forall (fun driver => SupportsDiscovery driver = false)
                        (snd <$> map_to_list (drivers _ m))).
  { apply Forall_forall. intros driver Hin.
    apply list_elem_of_fmap in Hin as ([code d] & -> & Hin).
    apply elem_of_map_to_list in Hin. exact (Hnone code d Hin). }
  induction Hall as [|driver rest Hd _ IH]; [reflexivity|].
  cbn [Discover_over]. now rewrite Hd.
Qed.

End DiscoverFacts.

Lemma Discover_without_support_witness :
  Discover unit unit Examples.manager tt = Return (Ok tt).
Proof.
  apply (Discover_without_support unit unit Examples.manager tt).
  intros code driver Hlookup.
  destruct (decide (code = "s7")) as [->|Hne].
  - vm_compute in Hlookup. injection Hlookup as <-. reflexivity.
  - unfold Examples.manager in Hlookup. cbn [drivers] in Hlookup.
    rewrite lookup_insert_ne in Hlookup by congruence.
    rewrite lookup_empty in Hlookup. discriminate Hlookup.
Defined.

Lemma Discover_over_calls_witness :
  let ds := [s7_Driver; MoreExamples.knx_Driver; Examples.modbus_Driver] in
  (discover_driver unit <$> calls_of MoreExamples.discover_ok (Discover_over unit ds tt)
   = [MoreExamples.knx_Driver]) /\
  exists driver cause,
    last (discover_driver unit <$>
            calls_of MoreExamples.discover_knx_fails (Discover_over unit ds tt))
    = Some driver /\
    MoreExamples.discover_knx_fails _ (Driver_Discover unit driver tt) = Err cause /\
    errors_Wrap (errors_New "no route to host") "Error running Discover on driver KNXNet/IP"
    = errors_Wrap cause ("Error running Discover on driver " +:+ GetProtocolName driver).
Proof.
  intros ds. split.
  - apply (proj1 (proj2 (Discover_over_calls unit MoreExamples.discover_ok ds tt))).
    reflexivity.
  - apply (proj2 (proj2 (Discover_over_calls unit MoreExamples.discover_knx_fails ds tt))).
    reflexivity.
Defined.
